(** * Heron's fountain: the simulation engine of [fountain.js]

    A shallow embedding of the class [Fountain] of
    [src/herons_fountain/fountain.js]: vessel levels, hoses, air pressure,
    the particle pool, the ripple buffer and the flip/reset cycle.

    JavaScript numbers are kept abstract behind the class [JSNumber], so
    that every function of the engine is written once and read at two
    number models:
    - [Q_number]: exact rational arithmetic, the idealisation in which the
      universally quantified theorems about levels and pressure are proved;
    - [F64_number]: IEEE 754 binary64 (Rocq's primitive floats), the
      numbers a JavaScript engine really computes with, [NaN] and the
      infinities included, used to evaluate the code on concrete inputs.

    Scene-graph objects (meshes, materials, tube geometry, rotations) carry
    no engine state and are left out; the comments say so where a source
    line is skipped for that reason. *)

From Stdlib Require Import QArith Qminmax Qround Lqa ZArith Bool Lia.
From Stdlib Require Import Floats.
From stdpp Require Import base list.

(** ** Numbers *)

Class JSNumber (N : Type) : Type := {
  lit : Q -> N;                 (* a numeric literal of the source text *)
  num_add : N -> N -> N;
  num_sub : N -> N -> N;
  num_mul : N -> N -> N;
  num_div : N -> N -> N;
  Math_min : N -> N -> N;
  Math_max : N -> N -> N;
  Math_floor : N -> N;
  Math_round : N -> N;
  num_lt : N -> N -> bool;      (* [a < b]; [a > b] is [num_lt b a] *)
  num_le : N -> N -> bool;      (* [a <= b]; [a >= b] is [num_le b a] *)
  loop_bound : N -> nat         (* how many i = 0, 1, 2, ... pass [i < n] *)
}.

Arguments lit {N _} q%_Q.

Declare Scope js_scope.
Delimit Scope js_scope with js.
Notation "a + b" := (num_add a b) : js_scope.
Notation "a - b" := (num_sub a b) : js_scope.
Notation "a * b" := (num_mul a b) : js_scope.
Notation "a / b" := (num_div a b) : js_scope.
Notation "a <? b" := (num_lt a b) (at level 70) : js_scope.
Notation "a <=? b" := (num_le a b) (at level 70) : js_scope.
Notation "a >? b" := (num_lt b a) (at level 70) : js_scope.
Notation "a >=? b" := (num_le b a) (at level 70) : js_scope.

(** *** Exact rationals *)

Definition Qltb (a b : Q) : bool := negb (Qle_bool b a).

#[export] Instance Q_number : JSNumber Q := {|
  lit q := q;
  num_add := Qplus;
  num_sub := Qminus;
  num_mul := Qmult;
  num_div := Qdiv;
  Math_min := Qmin;
  Math_max := Qmax;
  Math_floor q := inject_Z (Qfloor q);
  Math_round q := inject_Z (Qfloor (q + (1 # 2)));
  num_lt := Qltb;
  num_le := Qle_bool;
  loop_bound q := Z.to_nat (Qceiling q)
|}.

(** *** IEEE 754 binary64 *)

Module F64.

Fixpoint of_pos (p : positive) : float :=
  match p with
  | xH => 1%float
  | xO p' => (2 * of_pos p')%float
  | xI p' => (2 * of_pos p' + 1)%float
  end.

Definition of_Z (z : Z) : float :=
  match z with
  | Z0 => 0%float
  | Zpos p => of_pos p
  | Zneg p => (- of_pos p)%float
  end.

(* A decimal literal is read as the double nearest to it: numerator and
   denominator are small integers, exact as doubles, and the division is
   correctly rounded. *)
Definition of_Q (q : Q) : float := (of_Z (Qnum q) / of_pos (Qden q))%float.

(* Math.min and Math.max: NaN if an argument is NaN, and -0 below +0. *)
Definition min (a b : float) : float :=
  if PrimFloat.is_nan a || PrimFloat.is_nan b then PrimFloat.nan
  else if (a <? b)%float then a
  else if (b <? a)%float then b
  else if PrimFloat.get_sign a then a else b.

Definition max (a b : float) : float :=
  if PrimFloat.is_nan a || PrimFloat.is_nan b then PrimFloat.nan
  else if (a <? b)%float then b
  else if (b <? a)%float then a
  else if PrimFloat.get_sign a then b else a.

(* The signed integer mantissa and the exponent of a finite non-zero
   double: its value is [m * 2^e]. *)
Definition floorZ (s : bool) (m : positive) (e : Z) : Z :=
  let M := if s then Zneg m else Zpos m in
  if (0 <=? e)%Z then (M * 2 ^ e)%Z else (M / 2 ^ (- e))%Z.

Definition ceilZ (s : bool) (m : positive) (e : Z) : Z :=
  (- floorZ (negb s) m e)%Z.

Definition floor (a : float) : float :=
  match Prim2SF a with
  | S754_finite s m e =>
      if (0 <=? e)%Z then a
      else let r := floorZ s m e in
           if (r =? 0)%Z then (if s then (-0)%float else 0%float) else of_Z r
  | _ => a
  end.

(* Math.round: the nearest integer, ties towards +infinity. *)
Definition round (a : float) : float :=
  match Prim2SF a with
  | S754_finite s m e =>
      if (0 <=? e)%Z then a
      else let M := if s then Zneg m else Zpos m in
           let r := ((2 * M + 2 ^ (- e)) / 2 ^ (- e + 1))%Z in
           if (r =? 0)%Z then (if s then (-0)%float else 0%float) else of_Z r
  | _ => a
  end.

(* [for (let i = 0; i < n; i++)] runs ceil(n) times for a finite n > 0 and
   never for n <= 0 or NaN.  With n = +Infinity the source loop would not
   end; no bound in this program is infinite (both are built from
   Math.floor of a bounded product), and the model gives 0 there. *)
Definition bound (a : float) : nat :=
  match Prim2SF a with
  | S754_finite false m e => Z.to_nat (ceilZ false m e)
  | _ => O
  end.

End F64.

#[export] Instance F64_number : JSNumber float := {|
  lit := F64.of_Q;
  num_add := PrimFloat.add;
  num_sub := PrimFloat.sub;
  num_mul := PrimFloat.mul;
  num_div := PrimFloat.div;
  Math_min := F64.min;
  Math_max := F64.max;
  Math_floor := F64.floor;
  Math_round := F64.round;
  num_lt := PrimFloat.ltb;
  num_le := PrimFloat.leb;
  loop_bound := F64.bound
|}.

(** ** Data model *)

(* The container keys 'A' (the bowl), 'B' (upper side tank) and 'C' (lower
   side tank, the air chamber). *)
Inductive Key : Type := A | B | C.

Definition Key_eqb (k1 k2 : Key) : bool :=
  match k1, k2 with
  | A, A | B, B | C, C => true
  | _, _ => false
  end.

(* The attachment points [this.ports.K.name] built by createContainers. *)
Inductive Port : Type :=
  | A_right | A_left | A_nozzle | A_drain
  | B_left | B_right | B_top | B_bottom
  | C_left | C_right | C_top | C_bottom.

Definition Port_eqb (p1 p2 : Port) : bool :=
  match p1, p2 with
  | A_right, A_right | A_left, A_left | A_nozzle, A_nozzle | A_drain, A_drain
  | B_left, B_left | B_right, B_right | B_top, B_top | B_bottom, B_bottom
  | C_left, C_left | C_right, C_right | C_top, C_top | C_bottom, C_bottom => true
  | _, _ => false
  end.

(* [h.startObj === port]: a hose made by addHose or addHoseCurved has no
   startObj (undefined), which is identical to no port. *)
Definition is_port (o : option Port) (p : Port) : bool :=
  match o with
  | Some q => Port_eqb q p
  | None => false
  end.

Record Hose : Type := mkHose {
  from : Key;
  to : Key;
  startObj : option Port;
  endObj : option Port
}.

Record Vec3 (N : Type) : Type := mkVec3 { vx : N; vy : N; vz : N }.
Arguments mkVec3 {N}.
Arguments vx {N} _.
Arguments vy {N} _.
Arguments vz {N} _.

Record Particle (N : Type) : Type := mkParticle {
  visible : bool;               (* mesh.visible *)
  position : Vec3 N;            (* mesh.position *)
  velocity : Vec3 N;
  life : N;
  maxLife : N
}.
Arguments mkParticle {N}.
Arguments visible {N} _.
Arguments position {N} _.
Arguments velocity {N} _.
Arguments life {N} _.
Arguments maxLife {N} _.

Record Ripple (N : Type) : Type := mkRipple {
  center : N * N;
  startTime : N;
  strength : N
}.
Arguments mkRipple {N}.
Arguments center {N} _.
Arguments startTime {N} _.
Arguments strength {N} _.

Record WaterLevels (N : Type) : Type := mkLevels {
  levelA : N;
  levelB : N;
  levelC : N
}.
Arguments mkLevels {N}.
Arguments levelA {N} _.
Arguments levelB {N} _.
Arguments levelC {N} _.

(* What the host page supplies: the successive results of Math.random(),
   and the trigonometry of Math. *)
Record Host (N : Type) : Type := mkHost {
  random : nat -> N;
  Math_cos : N -> N;
  Math_sin : N -> N;
  Math_PI : N
}.
Arguments mkHost {N}.
Arguments random {N} _ _.
Arguments Math_cos {N} _ _.
Arguments Math_sin {N} _ _.
Arguments Math_PI {N} _.

(* The engine state: the fields of a [Fountain] object that the simulation
   reads or writes.  [flowRate], [maxParticles], [maxRipples] and the bowl
   geometry are assigned once in the constructor and are constants below. *)
Record Fountain (N : Type) : Type := mkFountain {
  hoses : list Hose;   (* this.hoses *)
  pendingHoseStart : option Key;   (* null or a container key *)
  particles : list (Particle N);   (* the pool, this.particles *)
  waterLevels : WaterLevels N;   (* this.waterLevels *)
  airPressure : N;
  flowIntensity : N;
  isActive : bool;
  time : N;
  spoutTip : bool;   (* is this.spoutTip set? *)
  activeRipples : list (Ripple N);
  isFlipping : bool;
  absorbY : N;   (* this.bowlParams.absorbY *)
  airLineConnected : bool;   (* undefined (falsy) until the first tick *)
  sidePivot : bool;   (* is this.sidePivot set? *)
  randomCalls : nat;   (* model: Math.random() results consumed so far *)
  flipSteps : list N   (* model: start times of the [step] closures pending in requestAnimationFrame *)
}.

Arguments hoses {N} _.
Arguments pendingHoseStart {N} _.
Arguments particles {N} _.
Arguments waterLevels {N} _.
Arguments airPressure {N} _.
Arguments flowIntensity {N} _.
Arguments isActive {N} _.
Arguments time {N} _.
Arguments spoutTip {N} _.
Arguments activeRipples {N} _.
Arguments isFlipping {N} _.
Arguments absorbY {N} _.
Arguments airLineConnected {N} _.
Arguments sidePivot {N} _.
Arguments randomCalls {N} _.
Arguments flipSteps {N} _.
Arguments mkFountain {N}.

(** Field updates ([this.f = v]). *)

Section Setters.
Context {N : Type}.

Definition set_hoses (v : list Hose) (s : Fountain N) : Fountain N :=
  mkFountain v (pendingHoseStart s) (particles s) (waterLevels s) (airPressure s) (flowIntensity s) (isActive s) (time s) (spoutTip s) (activeRipples s) (isFlipping s) (absorbY s) (airLineConnected s) (sidePivot s) (randomCalls s) (flipSteps s).

Definition set_pendingHoseStart (v : option Key) (s : Fountain N) : Fountain N :=
  mkFountain (hoses s) v (particles s) (waterLevels s) (airPressure s) (flowIntensity s) (isActive s) (time s) (spoutTip s) (activeRipples s) (isFlipping s) (absorbY s) (airLineConnected s) (sidePivot s) (randomCalls s) (flipSteps s).

Definition set_particles (v : list (Particle N)) (s : Fountain N) : Fountain N :=
  mkFountain (hoses s) (pendingHoseStart s) v (waterLevels s) (airPressure s) (flowIntensity s) (isActive s) (time s) (spoutTip s) (activeRipples s) (isFlipping s) (absorbY s) (airLineConnected s) (sidePivot s) (randomCalls s) (flipSteps s).

Definition set_waterLevels (v : WaterLevels N) (s : Fountain N) : Fountain N :=
  mkFountain (hoses s) (pendingHoseStart s) (particles s) v (airPressure s) (flowIntensity s) (isActive s) (time s) (spoutTip s) (activeRipples s) (isFlipping s) (absorbY s) (airLineConnected s) (sidePivot s) (randomCalls s) (flipSteps s).

Definition set_airPressure (v : N) (s : Fountain N) : Fountain N :=
  mkFountain (hoses s) (pendingHoseStart s) (particles s) (waterLevels s) v (flowIntensity s) (isActive s) (time s) (spoutTip s) (activeRipples s) (isFlipping s) (absorbY s) (airLineConnected s) (sidePivot s) (randomCalls s) (flipSteps s).

Definition set_flowIntensity (v : N) (s : Fountain N) : Fountain N :=
  mkFountain (hoses s) (pendingHoseStart s) (particles s) (waterLevels s) (airPressure s) v (isActive s) (time s) (spoutTip s) (activeRipples s) (isFlipping s) (absorbY s) (airLineConnected s) (sidePivot s) (randomCalls s) (flipSteps s).

Definition set_isActive (v : bool) (s : Fountain N) : Fountain N :=
  mkFountain (hoses s) (pendingHoseStart s) (particles s) (waterLevels s) (airPressure s) (flowIntensity s) v (time s) (spoutTip s) (activeRipples s) (isFlipping s) (absorbY s) (airLineConnected s) (sidePivot s) (randomCalls s) (flipSteps s).

Definition set_time (v : N) (s : Fountain N) : Fountain N :=
  mkFountain (hoses s) (pendingHoseStart s) (particles s) (waterLevels s) (airPressure s) (flowIntensity s) (isActive s) v (spoutTip s) (activeRipples s) (isFlipping s) (absorbY s) (airLineConnected s) (sidePivot s) (randomCalls s) (flipSteps s).

Definition set_spoutTip (v : bool) (s : Fountain N) : Fountain N :=
  mkFountain (hoses s) (pendingHoseStart s) (particles s) (waterLevels s) (airPressure s) (flowIntensity s) (isActive s) (time s) v (activeRipples s) (isFlipping s) (absorbY s) (airLineConnected s) (sidePivot s) (randomCalls s) (flipSteps s).

Definition set_activeRipples (v : list (Ripple N)) (s : Fountain N) : Fountain N :=
  mkFountain (hoses s) (pendingHoseStart s) (particles s) (waterLevels s) (airPressure s) (flowIntensity s) (isActive s) (time s) (spoutTip s) v (isFlipping s) (absorbY s) (airLineConnected s) (sidePivot s) (randomCalls s) (flipSteps s).

Definition set_isFlipping (v : bool) (s : Fountain N) : Fountain N :=
  mkFountain (hoses s) (pendingHoseStart s) (particles s) (waterLevels s) (airPressure s) (flowIntensity s) (isActive s) (time s) (spoutTip s) (activeRipples s) v (absorbY s) (airLineConnected s) (sidePivot s) (randomCalls s) (flipSteps s).

Definition set_absorbY (v : N) (s : Fountain N) : Fountain N :=
  mkFountain (hoses s) (pendingHoseStart s) (particles s) (waterLevels s) (airPressure s) (flowIntensity s) (isActive s) (time s) (spoutTip s) (activeRipples s) (isFlipping s) v (airLineConnected s) (sidePivot s) (randomCalls s) (flipSteps s).

Definition set_airLineConnected (v : bool) (s : Fountain N) : Fountain N :=
  mkFountain (hoses s) (pendingHoseStart s) (particles s) (waterLevels s) (airPressure s) (flowIntensity s) (isActive s) (time s) (spoutTip s) (activeRipples s) (isFlipping s) (absorbY s) v (sidePivot s) (randomCalls s) (flipSteps s).

Definition set_sidePivot (v : bool) (s : Fountain N) : Fountain N :=
  mkFountain (hoses s) (pendingHoseStart s) (particles s) (waterLevels s) (airPressure s) (flowIntensity s) (isActive s) (time s) (spoutTip s) (activeRipples s) (isFlipping s) (absorbY s) (airLineConnected s) v (randomCalls s) (flipSteps s).

Definition set_randomCalls (v : nat) (s : Fountain N) : Fountain N :=
  mkFountain (hoses s) (pendingHoseStart s) (particles s) (waterLevels s) (airPressure s) (flowIntensity s) (isActive s) (time s) (spoutTip s) (activeRipples s) (isFlipping s) (absorbY s) (airLineConnected s) (sidePivot s) v (flipSteps s).

Definition set_flipSteps (v : list N) (s : Fountain N) : Fountain N :=
  mkFountain (hoses s) (pendingHoseStart s) (particles s) (waterLevels s) (airPressure s) (flowIntensity s) (isActive s) (time s) (spoutTip s) (activeRipples s) (isFlipping s) (absorbY s) (airLineConnected s) (sidePivot s) (randomCalls s) v.

End Setters.

(** ** The engine *)

Section Engine.

Context {N : Type} {num : JSNumber N}.
Variable host : Host N.

Local Open Scope js_scope.

(** *** Constants of the constructor *)

Definition flowRate : N := lit 0.05.
Definition maxParticles : nat := 400.
Definition maxRipples : nat := 6.
(* this.bowlParams, absorbY apart (it is reassigned every tick) *)
Definition bowl_bottomY : N := lit 3.35.
Definition bowl_height : N := lit 1.4.
Definition bowl_innerTopR : N := lit 1.5.

Definition initialLevels : WaterLevels N := mkLevels (lit 0.75) (lit 1.0) (lit 0.26).

(** *** Vectors (THREE.Vector3) *)

Definition vec_zero : Vec3 N := mkVec3 (lit 0) (lit 0) (lit 0).

Definition vec_add (a b : Vec3 N) : Vec3 N :=
  mkVec3 (vx a + vx b) (vy a + vy b) (vz a + vz b).

Definition vec_multiplyScalar (a : Vec3 N) (k : N) : Vec3 N :=
  mkVec3 (vx a * k) (vy a * k) (vz a * k).

Definition vec_lerp (a b : Vec3 N) (alpha : N) : Vec3 N :=
  mkVec3 (vx a + (vx b - vx a) * alpha)
         (vy a + (vy b - vy a) * alpha)
         (vz a + (vz b - vz a) * alpha).

(* THREE.MathUtils.clamp(value, min, max) *)
Definition MathUtils_clamp (v lo hi : N) : N := Math_max lo (Math_min hi v).

(** *** Water levels, indexed by container key *)

Definition level (w : WaterLevels N) (k : Key) : N :=
  match k with
  | A => levelA w
  | B => levelB w
  | C => levelC w
  end.

Definition set_level (k : Key) (v : N) (w : WaterLevels N) : WaterLevels N :=
  match k with
  | A => mkLevels v (levelB w) (levelC w)
  | B => mkLevels (levelA w) v (levelC w)
  | C => mkLevels (levelA w) (levelB w) v
  end.

(** *** Math.random() *)

Definition Math_random (s : Fountain N) : N * Fountain N :=
  (random host (randomCalls s), set_randomCalls (S (randomCalls s)) s).

(** *** Hoses *)

(* The three hoses of addDefaultDiagramHoses: P1 the drain (bowl drain down
   to the bottom of C), P2 the air line (top of C to top of B), P3 the riser
   (bottom of B up to the nozzle in the bowl). *)
Definition P1 : Hose := mkHose A C (Some A_drain) (Some C_bottom).
Definition P2 : Hose := mkHose C B (Some C_top) (Some B_top).
Definition P3 : Hose := mkHose B A (Some B_bottom) (Some A_nozzle).

Definition defaultHoses : list Hose := [P1; P2; P3].

(* addDefaultDiagramHoses: the hose list is replaced by the three default
   hoses, and createSwanNeckNozzle sets the spout tip. *)
Definition addDefaultDiagramHoses (s : Fountain N) : Fountain N :=
  set_spoutTip true (set_hoses defaultHoses s).

Definition addHose (fromKey toKey : Key) (s : Fountain N) : Fountain N :=
  set_hoses (hoses s ++ [mkHose fromKey toKey None None]) s.

(* addHoseCurved: the hose record has a getPoints closure and, like addHose,
   no startObj or endObj. *)
Definition addHoseCurved (fromKey toKey : Key) (s : Fountain N) : Fountain N :=
  set_hoses (hoses s ++ [mkHose fromKey toKey None None]) s.

Definition addDiagramHoses (s : Fountain N) : Fountain N :=
  addHoseCurved B C (addHoseCurved A C (addHoseCurved A B s)).

(* chooseDefaultPort: the 'right' port when the target container is not to
   the left of the source, else the 'left' port.  The bowl A stands at
   x = 0 and the side stack (B above C, one x for both) at x > 0; the flip
   turns the stack about the x axis and leaves these x unchanged. *)
Definition chooseDefaultPort (fromKey toKey : Key) : Port :=
  match fromKey, toKey with
  | A, _ => A_right
  | B, A => B_left
  | B, _ => B_right
  | C, A => C_left
  | C, _ => C_right
  end.

Definition addFreeformHoseWithPoints (fromKey toKey : Key) (s : Fountain N)
  : Fountain N :=
  set_hoses (hoses s ++ [mkHose fromKey toKey
                           (Some (chooseDefaultPort fromKey toKey))
                           (Some (chooseDefaultPort toKey fromKey))]) s.

Definition touches (containerKey : Key) (h : Hose) : bool :=
  Key_eqb (from h) containerKey || Key_eqb (to h) containerKey.

Definition removeHosesForContainer (containerKey : Key) (s : Fountain N)
  : Fountain N :=
  set_hoses (List.filter (fun h => negb (touches containerKey h)) (hoses s)) s.

Definition handleContainerClick (containerKey : Key) (s : Fountain N)
  : Fountain N :=
  match pendingHoseStart s with
  | None => set_pendingHoseStart (Some containerKey) s
  | Some start =>
      if Key_eqb start containerKey then set_pendingHoseStart None s
      else set_pendingHoseStart None (addHose start containerKey s)
  end.

Definition setFlowIntensity (value : N) (s : Fountain N) : Fountain N :=
  set_flowIntensity (Math_max (lit 0) (Math_min (lit 1) value)) s.

(** *** The particle pool *)

(* createParticleSystem: [n] particles, all hidden, the k-th with maxLife
   2 + Math.random() * 2. *)
Fixpoint newParticles (n k : nat) : list (Particle N) :=
  match n with
  | O => []
  | S n' =>
      mkParticle false vec_zero vec_zero (lit 0) (lit 2 + random host k * lit 2)
      :: newParticles n' (S k)
  end.

Definition createParticleSystem (s : Fountain N) : Fountain N :=
  set_randomCalls (randomCalls s + maxParticles)%nat
    (set_particles (particles s ++ newParticles maxParticles (randomCalls s)) s).

(* this.particles.find(p => !p.mesh.visible), as the index of the slot *)
Fixpoint findFree (l : list (Particle N)) : option nat :=
  match l with
  | [] => None
  | p :: l' => if visible p then option_map S (findFree l') else Some O
  end.

Definition alive (l : list (Particle N)) : nat :=
  length (List.filter visible l).

Definition hide (p : Particle N) : Particle N :=
  mkParticle false (position p) (velocity p) (life p) (maxLife p).

(* The world position of the spout tip: the tip sits at (0.05, 5.25, 0) in
   the bowl group, which stays at the origin, unrotated. *)
Definition spoutTipWorld : Vec3 N := mkVec3 (lit 0.05) (lit 5.25) (lit 0.0).

(* One turn of the loop of createFountainParticles. *)
Definition emitJet (fountainHeight : N) (s : Fountain N) : Fountain N :=
  match findFree (particles s) with
  | None => s
  | Some i =>
      let tip := spoutTipWorld in
      let dir := mkVec3 (lit 0) (lit (-1)) (lit 0) in
      let bowlCenter := mkVec3 (lit 0) (absorbY s) (lit 0) in
      let spawn := vec_lerp tip bowlCenter (lit 0.22) in
      let '(r1, s) := Math_random s in
      let '(r2, s) := Math_random s in
      let pos := vec_add spawn
                   (mkVec3 ((r1 - lit 0.5) * lit 0.01) (lit 0)
                           ((r2 - lit 0.5) * lit 0.01)) in
      let '(r3, s) := Math_random s in
      let '(r4, s) := Math_random s in
      let '(r5, s) := Math_random s in
      let tangentJitter := mkVec3 ((r3 - lit 0.5) * lit 0.02)
                                  ((r4 - lit 0.5) * lit 0.04)
                                  ((r5 - lit 0.5) * lit 0.02) in
      let '(r6, s) := Math_random s in
      let initialVel :=
        vec_add (vec_multiplyScalar dir
                   (fountainHeight * (lit 1.0 + r6 * lit 0.3)))
                tangentJitter in
      let '(r7, s) := Math_random s in
      set_particles
        (<[i := mkParticle true pos initialVel (lit 0)
                  (lit 0.9 + r7 * lit 0.8)]> (particles s)) s
  end.

Definition createFountainParticles (s : Fountain N) : Fountain N :=
  if negb (spoutTip s) then s
  else if negb (airLineConnected s) then s
  else if airPressure s <=? lit 0.05 then s
  else
    let fountainHeight := lit 1.6 + airPressure s * lit 4.2 in
    let particleCount :=
      Math_max (lit 25)
        (Math_floor ((lit 0.5 + flowIntensity s) * airPressure s * lit 120)) in
    Nat.iter (loop_bound particleCount) (emitJet fountainHeight) s.

(* The loop of spawnSplash; [return] on an exhausted pool ends it. *)
Fixpoint splashLoop (count : nat) (pos : Vec3 N) (s : Fountain N) : Fountain N :=
  match count with
  | O => s
  | S count' =>
      match findFree (particles s) with
      | None => s
      | Some i =>
          let '(r1, s) := Math_random s in
          let '(r2, s) := Math_random s in
          let at_ := vec_add pos
                       (mkVec3 ((r1 - lit 0.5) * lit 0.2) (lit 0.02)
                               ((r2 - lit 0.5) * lit 0.2)) in
          let '(r3, s) := Math_random s in
          let angle := r3 * Math_PI host * lit 2 in
          let '(r4, s) := Math_random s in
          let speed := lit 0.8 + r4 * lit 0.6 in
          let vel := mkVec3 (Math_cos host angle * lit 0.3) speed
                            (Math_sin host angle * lit 0.3) in
          let '(r5, s) := Math_random s in
          splashLoop count' pos
            (set_particles
               (<[i := mkParticle true at_ vel (lit 0)
                         (lit 0.3 + r5 * lit 0.4)]> (particles s)) s)
      end
  end.

Definition spawnSplash (pos : Vec3 N) (s : Fountain N) : Fountain N :=
  let '(r, s) := Math_random s in
  let count := lit 6 + Math_floor (r * lit 6) in
  splashLoop (loop_bound count) pos s.

(* The body of the forEach of updateParticles, at pool slot [i].  The
   particle objects are shared with spawnSplash, so the slot is read from
   the pool as it stands when the loop reaches it. *)
Definition stepParticle (deltaTime : N) (s : Fountain N) (i : nat) : Fountain N :=
  match particles s !! i with
  | None => s
  | Some particle =>
      if negb (visible particle) then s
      else
        let p := vec_add (position particle)
                   (vec_multiplyScalar (velocity particle) deltaTime) in
        let vel := mkVec3 (vx (velocity particle))
                          (vy (velocity particle) - lit 9.8 * deltaTime)
                          (vz (velocity particle)) in
        let life' := life particle + deltaTime in
        (* the opacity of the shared material is a rendering matter *)
        let rr := vx p * vx p + vz p * vz p in
        let withinRadius := rr <=? bowl_innerTopR * bowl_innerTopR in
        let bottomCollisionY := bowl_bottomY - lit 0.2 in
        if (vy p <=? bottomCollisionY) && withinRadius then
          set_particles
            (<[i := mkParticle false p (mkVec3 (lit 0) (lit 0) (lit 0)) life'
                      (maxLife particle)]> (particles s)) s
        else
          let outsideCullRadius :=
            (bowl_innerTopR + lit 0.15) * (bowl_innerTopR + lit 0.15) in
          if (rr >? outsideCullRadius) && (vy p <=? absorbY s + lit 0.2) then
            set_particles
              (<[i := mkParticle false p vel life' (maxLife particle)]>
                 (particles s)) s
          else
            let s1 :=
              set_particles
                (<[i := mkParticle true p vel life' (maxLife particle)]>
                   (particles s)) s in
            let s2 :=
              if (vy p <=? absorbY s1) && withinRadius then
                let s' := spawnSplash p s1 in
                let uvx := MathUtils_clamp (vx p / bowl_innerTopR) (lit (-1)) (lit 1) in
                let uvy := MathUtils_clamp (vz p / bowl_innerTopR) (lit (-1)) (lit 1) in
                let ripples := mkRipple (uvx, uvy) (time s') (lit 1)
                               :: activeRipples s' in
                let ripples :=
                  if (maxRipples <? length ripples)%nat then removelast ripples
                  else ripples in
                set_particles (alter hide i (particles s'))
                  (set_activeRipples ripples s')
              else s1 in
            if life' >=? maxLife particle then
              set_particles (alter hide i (particles s2)) s2
            else s2
  end.

Definition updateParticles (deltaTime : N) (s : Fountain N) : Fountain N :=
  fold_left (stepParticle deltaTime) (seq 0 (length (particles s))) s.

(** *** Water transfer *)

Definition isDrain (h : Hose) : bool :=
  Key_eqb (from h) A && is_port (startObj h) A_drain
  && Key_eqb (to h) C && is_port (endObj h) C_bottom.

Definition isRiser (h : Hose) : bool :=
  Key_eqb (from h) B && is_port (startObj h) B_bottom
  && Key_eqb (to h) A && is_port (endObj h) A_nozzle.

Definition isAirLine (h : Hose) : bool :=
  Key_eqb (from h) C && is_port (startObj h) C_top
  && Key_eqb (to h) B && is_port (endObj h) B_top.

Definition hasDrain (s : Fountain N) : bool := existsb isDrain (hoses s).
Definition hasRiser (s : Fountain N) : bool := existsb isRiser (hoses s).
Definition hasAirLine (s : Fountain N) : bool := existsb isAirLine (hoses s).

(* 1) P1: the drain moves water from B to C. *)
Definition drainStep (deltaTime : N) (s : Fountain N) : Fountain N :=
  if hasDrain s then
    let w := waterLevels s in
    let drainAmount := lit 0.6 * flowRate * flowIntensity s * deltaTime in
    let actualDrain :=
      Math_min (Math_min drainAmount (levelB w)) (lit 1 - levelC w) in
    set_waterLevels
      (mkLevels (levelA w) (levelB w - actualDrain) (levelC w + actualDrain)) s
  else s.

(* The volume the riser step takes out of B ([actualFlow]), 0 when the
   step is gated off. *)
Definition riserGate (s : Fountain N) : bool :=
  hasRiser s && (airPressure s >? lit 0.05) && (levelB (waterLevels s) >? lit 0).

Definition riserFlow (deltaTime : N) (s : Fountain N) : N :=
  let pressureFlow :=
    (flowRate * lit 1.25) * flowIntensity s * airPressure s * deltaTime in
  Math_min pressureFlow (levelB (waterLevels s)).

(* 2) P3: the riser takes water out of B; A is not raised, the jet
   particles stand for the inflow. *)
Definition riserStep (deltaTime : N) (s : Fountain N) : Fountain N :=
  if riserGate s then
    let w := waterLevels s in
    let actualFlow := riserFlow deltaTime s in
    let s1 :=
      set_waterLevels (mkLevels (levelA w) (levelB w - actualFlow) (levelC w)) s in
    if actualFlow >? lit 0 then createFountainParticles s1 else s1
  else s.

(* 3) P2: the air line only sets the flag read by the pressure model. *)
Definition airLineStep (s : Fountain N) : Fountain N :=
  set_airLineConnected (hasAirLine s) s.

(* 4) The body of the forEach over this.hoses. *)
Definition hoseFlow (baseRate : N) (w : WaterLevels N) (h : Hose) : WaterLevels N :=
  let isBottomPickup :=
    is_port (startObj h) B_bottom || is_port (startObj h) C_bottom in
  let hoseRate := if isBottomPickup then baseRate * lit 1.6 else baseRate in
  if is_port (startObj h) C_top && is_port (endObj h) B_top then w
  else
    let available := level w (from h) in
    let capacity := lit 1 - level w (to h) in
    let moved :=
      Math_max (lit 0) (Math_min (Math_min hoseRate available) capacity) in
    if moved >? lit 0 then
      let w1 := set_level (from h) (level w (from h) - moved) w in
      set_level (to h) (level w1 (to h) + moved) w1
    else w.

Definition hoseLoop (deltaTime : N) (s : Fountain N) : Fountain N :=
  let baseRate := lit 0.9 * flowRate * flowIntensity s * deltaTime in
  set_waterLevels (fold_left (hoseFlow baseRate) (hoses s) (waterLevels s)) s.

Definition updateWaterFlow (deltaTime : N) (s : Fountain N) : Fountain N :=
  hoseLoop deltaTime (airLineStep (riserStep deltaTime (drainStep deltaTime s))).

(** *** Pressure *)

Definition updateAirPressure (s : Fountain N) : Fountain N :=
  let w := waterLevels s in
  let sealFactor := if airLineConnected s then lit 1 else lit 0.2 in
  let heightHead := Math_max (lit 0) (levelC w - levelB w) in
  let inflowFactor := Math_min (lit 1) ((lit 1 - levelA w) + levelC w) in
  set_airPressure
    (Math_max (lit 0)
       (Math_min (lit 1)
          (sealFactor * (heightHead * lit 2.0 + lit 0.5 * inflowFactor)))) s.

(** *** Level clamping (the mesh updates are left out) *)

Definition updateWaterLevels (s : Fountain N) : Fountain N :=
  let w := waterLevels s in
  let waterLevelA := Math_max (lit 0) (Math_min (lit 1) (levelA w)) in
  let waterSurfaceY := bowl_bottomY + bowl_height * waterLevelA in
  let levelB' := Math_max (lit 0) (Math_min (lit 1) (levelB w)) in
  let levelC' := Math_max (lit 0) (Math_min (lit 1) (levelC w)) in
  set_waterLevels (mkLevels (levelA w) levelB' levelC')
    (set_absorbY waterSurfaceY s).

(** *** Flip and reset *)

(* animateFlip; [now] is what performance.now() returns.  this.sideGroup
   is set by the constructor and never cleared, so the early return is not
   taken.  The transition is the closure [step], registered with
   requestAnimationFrame and kept here by its start time. *)
Definition animateFlip (now : N) (s : Fountain N) : Fountain N :=
  set_flipSteps (flipSteps s ++ [now]) (set_sidePivot true (set_isFlipping true s)).

Definition flipSystem (now : N) (s : Fountain N) : Fountain N :=
  if isFlipping s then s
  else
    let w := waterLevels s in
    animateFlip now
      (set_isActive true
         (set_airPressure (lit 0)
            (set_waterLevels (mkLevels (levelA w) (levelC w) (levelB w)) s))).

Definition duration : N := lit 1000.

(* The closure [step] of animateFlip, started at [start], called with the
   frame time [now]; the rotation of the pivot is a rendering matter. *)
Definition step (now : N) (s : Fountain N) (start : N) : Fountain N :=
  let t := Math_min ((now - start) / duration) (lit 1) in
  if t <? lit 1 then set_flipSteps (flipSteps s ++ [start]) s
  else set_isFlipping false s.

(* An animation frame runs the [step] closures registered so far; those
   that register again wait for the next frame. *)
Definition animationFrame (now : N) (s : Fountain N) : Fountain N :=
  fold_left (step now) (flipSteps s) (set_flipSteps [] s).

Definition checkAutoFlip (now : N) (s : Fountain N) : Fountain N :=
  if isFlipping s then s
  else
    let lowerFull := levelC (waterLevels s) >=? lit 0.98 in
    let upperEmpty := levelB (waterLevels s) <=? lit 0.02 in
    if lowerFull || upperEmpty then flipSystem now s else s.

Definition resetSystem (s : Fountain N) : Fountain N :=
  set_hoses []
    (set_isFlipping false
       (set_isActive true
          (set_airPressure (lit 0)
             (set_waterLevels (mkLevels (lit 0.75) (lit 1.0) (lit 0.26)) s)))).

(** *** The tick *)

(* updateHoses rebuilds every hose from hose.startObj.getWorldPosition(...):
   on a hose without startObj (made by addHose or addHoseCurved) that is a
   TypeError, which ends update there. *)
Definition updateHoses_ok (s : Fountain N) : bool :=
  forallb (fun h => match startObj h, endObj h with
                    | Some _, Some _ => true
                    | _, _ => false
                    end) (hoses s).

(* The end of update: this.time advances and ripples older than 4 s go.
   streamMaterial and basinSurfaceMaterial are set by the constructor. *)
Definition advanceTime (deltaTime : N) (s : Fountain N) : Fountain N :=
  let now := time s + deltaTime in
  set_activeRipples
    (List.filter (fun r => now - startTime r <? lit 4) (activeRipples s))
    (set_time now s).

(* The state checkAutoFlip reads: after transfer, pressure, particles and
   clamping. *)
Definition beforeCheck (deltaTime : N) (s : Fountain N) : Fountain N :=
  updateWaterLevels
    (updateParticles deltaTime
       (updateAirPressure (updateWaterFlow deltaTime s))).

Inductive Outcome : Type := Returned | Threw.

(* update(deltaTime); [now] is the clock reading if the tick starts a flip.
   The state is the object as the call leaves it, also when it throws. *)
Definition update (now deltaTime : N) (s : Fountain N) : Outcome * Fountain N :=
  if negb (isActive s) then (Returned, s)
  else
    let s1 := checkAutoFlip now (beforeCheck deltaTime s) in
    if updateHoses_ok s1 then (Returned, advanceTime deltaTime s1)
    else (Threw, s1).

Definition tick (now deltaTime : N) (s : Fountain N) : Fountain N :=
  snd (update now deltaTime s).

(** *** Status *)

Record Status : Type := mkStatus {
  containerA : N;
  containerB : N;
  containerC : N;
  pressure : N;
  status_isActive : bool
}.

Definition getStatus (s : Fountain N) : Status :=
  mkStatus (Math_round (levelB (waterLevels s) * lit 100))
           (Math_round (levelA (waterLevels s) * lit 100))
           (Math_round (levelC (waterLevels s) * lit 100))
           (Math_round (airPressure s * lit 100))
           (isActive s).

(** *** Construction *)

Definition construct : Fountain N :=
  addDefaultDiagramHoses
    (createParticleSystem
       (mkFountain [] None [] initialLevels (lit 0.0) (lit 0.25) true (lit 0)
          false [] false (lit 3.6) false false O [])).

(** *** The calls a page can make on the engine *)

Inductive Call : Type :=
  | call_update (now deltaTime : N)
  | call_flipSystem (now : N)
  | call_resetSystem
  | call_setFlowIntensity (value : N)
  | call_addHose (fromKey toKey : Key)
  | call_addHoseCurved (fromKey toKey : Key)
  | call_addFreeformHoseWithPoints (fromKey toKey : Key)
  | call_addDiagramHoses
  | call_addDefaultDiagramHoses
  | call_handleContainerClick (containerKey : Key)
  | call_removeHosesForContainer (containerKey : Key)
  | call_animationFrame (now : N).

Definition perform (c : Call) (s : Fountain N) : Fountain N :=
  match c with
  | call_update now deltaTime => tick now deltaTime s
  | call_flipSystem now => flipSystem now s
  | call_resetSystem => resetSystem s
  | call_setFlowIntensity value => setFlowIntensity value s
  | call_addHose f t => addHose f t s
  | call_addHoseCurved f t => addHoseCurved f t s
  | call_addFreeformHoseWithPoints f t => addFreeformHoseWithPoints f t s
  | call_addDiagramHoses => addDiagramHoses s
  | call_addDefaultDiagramHoses => addDefaultDiagramHoses s
  | call_handleContainerClick k => handleContainerClick k s
  | call_removeHosesForContainer k => removeHosesForContainer k s
  | call_animationFrame now => animationFrame now s
  end.

Inductive Reachable : Fountain N -> Prop :=
  | reach_construct : Reachable construct
  | reach_perform c s : Reachable s -> Reachable (perform c s).

End Engine.

(** ** Views of a tick

    The values one tick computes, written as functions of the state the
    tick starts from.  They are proved equal to what the engine functions
    above leave in the state; the theorems are stated with them. *)

Section Views.

Context {N : Type} {num : JSNumber N}.

Local Open Scope js_scope.

(* [forget] blanks the three fields the particle code writes (the pool,
   the ripple buffer and the count of random numbers used); two states
   with the same [forget] agree on every other field. *)
Definition forget (s : Fountain N) : Fountain N :=
  set_particles [] (set_activeRipples [] (set_randomCalls O s)).

(* A field that the particle code and the clock do not write. *)
Definition blind {X : Type} (f : Fountain N -> X) : Prop :=
  forall t x, f (set_time t (forget x)) = f x.

(* The levels after the riser step. *)
Definition riserLevels (deltaTime : N) (s : Fountain N) : WaterLevels N :=
  let w := waterLevels s in
  if riserGate s then mkLevels (levelA w) (levelB w - riserFlow deltaTime s) (levelC w)
  else w.

(* The volume the riser step of a tick takes out of B. *)
Definition riserDebit (deltaTime : N) (s : Fountain N) : N :=
  let s1 := drainStep deltaTime s in
  if riserGate s1 then riserFlow deltaTime s1 else lit 0.

(* The levels after updateWaterFlow. *)
Definition flowLevels (deltaTime : N) (s : Fountain N) : WaterLevels N :=
  fold_left (hoseFlow (lit 0.9 * flowRate * flowIntensity s * deltaTime))
    (hoses s) (riserLevels deltaTime (drainStep deltaTime s)).

(* The pressure updateAirPressure computes from the levels and the flag. *)
Definition pressureOf (connected : bool) (w : WaterLevels N) : N :=
  airPressure
    (updateAirPressure
       (mkFountain [] None [] w (lit 0) (lit 0) true (lit 0) false [] false
          (lit 0) connected false O [])).

(* The levels after updateWaterLevels. *)
Definition clampLevels (w : WaterLevels N) : WaterLevels N :=
  mkLevels (levelA w)
    (Math_max (lit 0) (Math_min (lit 1) (levelB w)))
    (Math_max (lit 0) (Math_min (lit 1) (levelC w))).

Definition surfaceY (w : WaterLevels N) : N :=
  bowl_bottomY + bowl_height * Math_max (lit 0) (Math_min (lit 1) (levelA w)).

(* The levels checkAutoFlip reads in a tick that starts from [s]. *)
Definition checkedLevels (deltaTime : N) (s : Fountain N) : WaterLevels N :=
  clampLevels (flowLevels deltaTime s).

(* The state checkAutoFlip reads in a tick that starts from [s], but for
   the particle fields. *)
Definition checkedState (deltaTime : N) (s : Fountain N) : Fountain N :=
  let w := flowLevels deltaTime s in
  set_waterLevels (clampLevels w)
    (set_absorbY (surfaceY w)
       (set_airPressure (pressureOf (hasAirLine s) w)
          (set_airLineConnected (hasAirLine s) s))).

(* The condition of checkAutoFlip on given levels. *)
Definition flipCondition (w : WaterLevels N) : bool :=
  (levelC w >=? lit 0.98) || (levelB w <=? lit 0.02).

(* clamp01 of the specification. *)
Definition clamp01 (v : N) : N := Math_max (lit 0) (Math_min (lit 1) v).

Definition sumLevels (w : WaterLevels N) : N := levelA w + levelB w + levelC w.

End Views.

(** ** Sample hosts

    Used to run the engine on concrete inputs: Math.random() always gives
    0.5.  The runs below never reach the splash code, the only place where
    Math.cos, Math.sin and Math.PI are read, so their stand-ins play no
    part in the results. *)

Definition sampleHost : Host Q :=
  mkHost (fun _ => 1 # 2)%Q (fun _ => 1%Q) (fun _ => 0%Q) (355 # 113)%Q.

Definition sampleHostF : Host float :=
  mkHost (fun _ => 0.5%float) (fun _ => 1%float) (fun _ => 0%float)
         (F64.of_Q (355 # 113)).

(* A hose is canonical when it is the drain, the air line or the riser. *)
Definition canonical (h : Hose) : bool := isDrain h || isAirLine h || isRiser h.

(** ** The data-model invariant, in exact arithmetic *)

Definition inUnit (v : Q) : Prop := (0 <= v /\ v <= 1)%Q.

Definition unitLevels (w : WaterLevels Q) : Prop :=
  inUnit (levelA w) /\ inUnit (levelB w) /\ inUnit (levelC w).

Definition unitState (s : Fountain Q) : Prop :=
  unitLevels (waterLevels s) /\ inUnit (airPressure s)
  /\ inUnit (flowIntensity s).

(* The same as a test, for both number models; at binary64 a NaN fails it. *)
Definition inUnitb {N : Type} {num : JSNumber N} (v : N) : bool :=
  ((lit 0 <=? v) && (v <=? lit 1))%js.

Definition unitLevelsb {N : Type} {num : JSNumber N} (w : WaterLevels N) : bool :=
  inUnitb (levelA w) && inUnitb (levelB w) && inUnitb (levelC w).

(** ** reset.js: the class Reset

    The wrapper the page's buttons and the R key go through, with the part
    of ui.js it calls: UI.showMessage, which appends a message element to
    the document and sets a timeout of 2000 ms that removes it.  A pending
    setTimeout is kept with its delay and what its callback does;
    [Reset_timeout] runs the pending callback at a given position, so that
    every order of expiry is covered.  The message elements themselves (DOM
    nodes) are left out; the timeouts that remove them are kept. *)

(* The texts given to UI.showMessage. *)
Inductive Message : Type :=
  | msg_flipping    (* showFlipAnimation: 'Flipping system...' *)
  | msg_resetting   (* showResetAnimation: 'Resetting system...' *)
  | msg_flipped     (* 'System flipped! Fountain will restart.' *)
  | msg_reset       (* 'System reset! Fountain will restart.' *)
  | msg_complete.   (* showSystemComplete: 'System cycle complete! ...' *)

Inductive TimeoutCallback : Type :=
  (* reset.js: () => { this.isAnimating = false; this.ui.showMessage(m, 'success') } *)
  | clearAnimating (m : Message)
  (* reset.js: () => { this.ui.showSystemComplete() } *)
  | showSystemComplete
  (* ui.js, showMessage: () => { if (messageDiv.parentNode) ... removeChild(messageDiv) } *)
  | removeMessage (m : Message).

(* Whether a pending timeout is one that clears isAnimating, or one that
   removes a message. *)
Definition clears {N : Type} (t : N * TimeoutCallback) : bool :=
  match snd t with clearAnimating _ => true | _ => false end.

Definition removes {N : Type} (t : N * TimeoutCallback) : bool :=
  match snd t with removeMessage _ => true | _ => false end.

Record Reset (N : Type) : Type := mkReset {
  fountain : Fountain N;
  isAnimating : bool;
  timeouts : list (N * TimeoutCallback)
}.
Arguments mkReset {N}.
Arguments fountain {N} _.
Arguments isAnimating {N} _.
Arguments timeouts {N} _.

Section ResetClass.

Context {N : Type} {num : JSNumber N}.
Variable host : Host N.

Local Open Scope js_scope.

(* new Reset(fountain, ui) *)
Definition Reset_new (f : Fountain N) : Reset N := mkReset f false [].

(* UI.showMessage(m, type), on the pending timeouts: the timeout that
   removes the message after 2000 ms is added. *)
Definition UI_showMessage (m : Message) (ts : list (N * TimeoutCallback))
  : list (N * TimeoutCallback) :=
  ts ++ [(lit 2000, removeMessage m)].

(* Reset.flipSystem(); [now] is the clock reading the fountain's flip takes.
   ui.showFlipAnimation() shows its message before the fountain flips and
   before the timeout of 1500 ms is set. *)
Definition Reset_flipSystem (now : N) (r : Reset N) : Reset N :=
  if isAnimating r then r
  else mkReset (flipSystem now (fountain r)) true
               (UI_showMessage msg_flipping (timeouts r)
                ++ [(lit 1500, clearAnimating msg_flipped)]).

(* Reset.resetSystem(), with ui.showResetAnimation() *)
Definition Reset_resetSystem (r : Reset N) : Reset N :=
  if isAnimating r then r
  else mkReset (resetSystem (fountain r)) true
               (UI_showMessage msg_resetting (timeouts r)
                ++ [(lit 1000, clearAnimating msg_reset)]).

(* [status.containerA === 0] on numbers: true of +0 and -0, false of NaN *)
Definition is_zero (v : N) : bool := (v <=? lit 0) && (lit 0 <=? v).

(* Reset.checkSystemComplete() *)
Definition Reset_checkSystemComplete (r : Reset N) : Reset N :=
  let status := getStatus (fountain r) in
  if negb (status_isActive status) && is_zero (containerA status)
     && is_zero (containerC status)
  then mkReset (fountain r) (isAnimating r)
               (timeouts r ++ [(lit 1000, showSystemComplete)])
  else r.

(* The pending timeout at position [i] expires and its callback runs; the
   callbacks of reset.js show a message, which sets a further timeout. *)
Definition Reset_timeout (i : nat) (r : Reset N) : Reset N :=
  match timeouts r !! i with
  | None => r
  | Some (_, clearAnimating m) =>
      mkReset (fountain r) false (UI_showMessage m (delete i (timeouts r)))
  | Some (_, showSystemComplete) =>
      mkReset (fountain r) (isAnimating r)
              (UI_showMessage msg_complete (delete i (timeouts r)))
  | Some (_, removeMessage _) =>
      mkReset (fountain r) (isAnimating r) (delete i (timeouts r))
  end.

(* What the page does: the buttons and keys on the wrapper, the expiry of
   a timeout, and every call that reaches the fountain directly (update from
   the animation loop, the slider, the context menu, animation frames). *)
Inductive PageCall : Type :=
  | page_flipSystem (now : N)
  | page_resetSystem
  | page_checkSystemComplete
  | page_timeout (i : nat)
  | page_fountain (c : Call (N:=N)).

Definition page_perform (c : PageCall) (r : Reset N) : Reset N :=
  match c with
  | page_flipSystem now => Reset_flipSystem now r
  | page_resetSystem => Reset_resetSystem r
  | page_checkSystemComplete => Reset_checkSystemComplete r
  | page_timeout i => Reset_timeout i r
  | page_fountain c =>
      mkReset (perform host c (fountain r)) (isAnimating r) (timeouts r)
  end.

(* Calls that reach the fountain without passing through the wrapper. *)
Definition through_fountain (cs : list (Call (N:=N))) (r : Reset N) : Reset N :=
  fold_left (fun acc c => page_perform (page_fountain c) acc) cs r.

Inductive PageReachable : Reset N -> Prop :=
  | page_new : PageReachable (Reset_new (construct host))
  | page_step c r : PageReachable r -> PageReachable (page_perform c r).

End ResetClass.

Arguments PageReachable {N num} host _.

(** ** Sequences of calls *)

(* The calls of a list, made in order. *)
Definition performAll {N : Type} {num : JSNumber N} (host : Host N)
  (cs : list (Call (N:=N))) (s : Fountain N) : Fountain N :=
  fold_left (fun acc c => perform host c acc) cs s.

(* The calls that add no hose and do not flip by hand: the tick, an
   animation frame, the slider, the context menu and the reset. *)
Definition quiet {N : Type} {num : JSNumber N} (c : Call (N:=N)) : bool :=
  match c with
  | call_update _ _ | call_animationFrame _ | call_setFlowIntensity _
  | call_removeHosesForContainer _ | call_resetSystem => true
  | _ => false
  end.

(** ** More views *)

(* The levels with B and C exchanged, as flipSystem leaves them. *)
Definition swapLevels {N : Type} (w : WaterLevels N) : WaterLevels N :=
  mkLevels (levelA w) (levelC w) (levelB w).

(* A particle that is shown has not outlived its maxLife. *)
Definition unexpired (p : Particle Q) : Prop :=
  visible p = true -> (life p < maxLife p)%Q.

(* A whole percentage. *)
Definition percentage (v : Q) : Prop :=
  exists z : Z, v = inject_Z z /\ (0 <= z <= 100)%Z.

(* The levels agree as rationals. *)
Definition sameLevels (w1 w2 : WaterLevels Q) : Prop :=
  (levelA w1 == levelA w2 /\ levelB w1 == levelB w2 /\ levelC w1 == levelC w2)%Q.

(* The first [i] slots of the pool hold no visible particle past its
   maxLife. *)
Definition unexpiredUpTo (i : nat) (l : list (Particle Q)) : Prop :=
  forall k p, (k < i)%nat -> l !! k = Some p -> unexpired p.

(* An impact event that started less than 4 s before [now]. *)
Definition young (now : Q) (r : Ripple Q) : Prop := (now - startTime r < 4)%Q.

(* The buffer is within its bound and holds young events only. *)
Definition freshRipples (s : Fountain Q) : Prop :=
  (length (activeRipples s) <= maxRipples)%nat
  /\ Forall (young (time s)) (activeRipples s).

(* The state a reset leaves and a tick cannot leave: no hoses, no flip,
   the initial levels. *)
Definition stalled (s : Fountain Q) : Prop :=
  hoses s = [] /\ isActive s = true /\ isFlipping s = false
  /\ sameLevels (waterLevels s) initialLevels.

(* Whether the transition started at [start] is still under way at the
   frame time [frame]: the test [t < 1] of the closure [step]. *)
Definition underWay {N : Type} {num : JSNumber N} (frame start : N) : bool :=
  (Math_min ((frame - start) / duration) (lit 1) <? lit 1)%js.

Arguments construct {N num} host.
Arguments Reachable {N num} host _.

(** ** Sample states

    Two updates of 1/4 s from construction, on the sample host.  The first
    leaves the air-line flag set and the pressure at 513/2000, so that the
    gates of the jet are open.  In the second the riser step emits 25 jet
    particles, which reach the water within the same update: each one is
    absorbed, spawns a splash of 9 particles and pushes an impact event. *)

Definition jetState : Fountain Q :=
  perform sampleHost (call_update 0%Q (1 # 4)%Q) (construct sampleHost).

Definition splashState : Fountain Q :=
  perform sampleHost (call_update 0%Q (1 # 4)%Q) jetState.

(** * Properties that hold for every number model *)

Section Frames.

Context {N : Type} {num : JSNumber N}.
Variable host : Host N.

Local Open Scope js_scope.

(** ** What the particle code leaves alone *)

Lemma forget_emitJet h (s : Fountain N) : forget (emitJet host h s) = forget s.
Proof. unfold emitJet. destruct (findFree (particles s)); reflexivity. Qed.

Lemma forget_createFountainParticles (s : Fountain N) :
  forget (createFountainParticles host s) = forget s.
Proof.
  unfold createFountainParticles.
  destruct (negb (spoutTip s)); [reflexivity|].
  destruct (negb (airLineConnected s)); [reflexivity|].
  destruct (airPressure s <=? lit 0.05); [reflexivity|].
  generalize (lit 1.6 + airPressure s * lit 4.2).
  generalize (loop_bound (Math_max (lit 25)
    (Math_floor ((lit 0.5 + flowIntensity s) * airPressure s * lit 120)))).
  intros n h. induction n as [|n IH]; [reflexivity|].
  simpl. now rewrite forget_emitJet.
Qed.

Lemma forget_splashLoop count pos (s : Fountain N) :
  forget (splashLoop host count pos s) = forget s.
Proof.
  revert s. induction count as [|count IH]; intros s; [reflexivity|].
  simpl. destruct (findFree (particles s)); [|reflexivity].
  cbn. now rewrite IH.
Qed.

Lemma forget_spawnSplash pos (s : Fountain N) :
  forget (spawnSplash host pos s) = forget s.
Proof. unfold spawnSplash. cbn. now rewrite forget_splashLoop. Qed.

Lemma forget_set_particles l (s : Fountain N) :
  forget (set_particles l s) = forget s.
Proof. reflexivity. Qed.

Lemma forget_set_activeRipples l (s : Fountain N) :
  forget (set_activeRipples l s) = forget s.
Proof. reflexivity. Qed.

Lemma forget_stepParticle dt (s : Fountain N) i :
  forget (stepParticle host dt s i) = forget s.
Proof.
  unfold stepParticle.
  repeat (rewrite ?forget_set_particles, ?forget_set_activeRipples,
            ?forget_spawnSplash; try reflexivity;
          match goal with
          | |- context [match ?x with _ => _ end] => destruct x
          end).
Qed.

Lemma forget_fold_stepParticle dt is_ (s : Fountain N) :
  forget (fold_left (stepParticle host dt) is_ s) = forget s.
Proof.
  revert s. induction is_ as [|i is_ IH]; intros s; [reflexivity|].
  simpl. now rewrite IH, forget_stepParticle.
Qed.

Lemma forget_updateParticles dt (s : Fountain N) :
  forget (updateParticles host dt s) = forget s.
Proof. apply forget_fold_stepParticle. Qed.

End Frames.

Section TickViews.

Context {N : Type} {num : JSNumber N}.
Variable host : Host N.

Local Open Scope js_scope.

Lemma drainStep_rest deltaTime (s : Fountain N) :
  set_waterLevels (waterLevels s) (drainStep deltaTime s) = s.
Proof. unfold drainStep. destruct (hasDrain s); now destruct s. Qed.

Lemma updateWaterFlow_forget deltaTime (s : Fountain N) :
  forget (updateWaterFlow host deltaTime s)
  = forget (set_airLineConnected (hasAirLine s)
              (set_waterLevels (flowLevels deltaTime s) s)).
Proof.
  unfold updateWaterFlow, hoseLoop, airLineStep, flowLevels, riserLevels, riserStep.
  assert (Hh : hoses (drainStep deltaTime s) = hoses s)
    by (unfold drainStep; now destruct (hasDrain s)).
  assert (Hf : flowIntensity (drainStep deltaTime s) = flowIntensity s)
    by (unfold drainStep; now destruct (hasDrain s)).
  pose proof (drainStep_rest deltaTime s) as Hr.
  destruct (drainStep deltaTime s) as [h1 ps1 pa1 w1 ap1 fi1 ia1 t1 st1 ar1 if1 ay1 al1 sp1 rc1 fs1].
  destruct s as [h0 ps0 pa0 w0 ap0 fi0 ia0 t0 st0 ar0 if0 ay0 al0 sp0 rc0 fs0].
  cbn in Hh, Hf, Hr. injection Hr as -> -> -> -> -> -> -> -> -> -> -> -> -> -> ->.
  set (s1 := mkFountain _ _ _ w1 _ _ _ _ _ _ _ _ _ _ _ _).
  destruct (riserGate s1); [|reflexivity].
  cbn [waterLevels s1].
  match goal with
  | |- context [if ?c then createFountainParticles host ?x else ?x] =>
      assert (Hc : forget (if c then createFountainParticles host x else x) = forget x)
        by (destruct c; [apply forget_createFountainParticles|reflexivity]);
      generalize dependent (if c then createFountainParticles host x else x)
  end.
  intros s2 Hc.
  destruct s2. cbn in Hc |- *. injection Hc as -> -> -> -> -> -> -> -> -> -> -> -> ->.
  reflexivity.
Qed.

Lemma forget_updateAirPressure (a b : Fountain N) :
  forget a = forget b -> forget (updateAirPressure a) = forget (updateAirPressure b).
Proof. intros H. destruct a, b. cbn in H. now injection H as -> -> -> -> -> -> -> -> -> -> -> -> ->. Qed.

Lemma forget_updateWaterLevels (a b : Fountain N) :
  forget a = forget b -> forget (updateWaterLevels a) = forget (updateWaterLevels b).
Proof. intros H. destruct a, b. cbn in H. now injection H as -> -> -> -> -> -> -> -> -> -> -> -> ->. Qed.

Lemma forget_checkAutoFlip now (a b : Fountain N) :
  forget a = forget b -> forget (checkAutoFlip now a) = forget (checkAutoFlip now b).
Proof.
  intros H. destruct a, b. cbn in H.
  injection H as -> -> -> -> -> -> -> -> -> -> -> -> ->.
  unfold checkAutoFlip, flipSystem. cbn.
  repeat match goal with
         | |- context [if ?c then _ else _] => destruct c
         end; reflexivity.
Qed.

Lemma beforeCheck_forget deltaTime (s : Fountain N) :
  forget (beforeCheck host deltaTime s) = forget (checkedState deltaTime s).
Proof.
  unfold beforeCheck.
  transitivity (forget (updateWaterLevels (updateAirPressure
    (set_airLineConnected (hasAirLine s)
       (set_waterLevels (flowLevels deltaTime s) s))))).
  - apply forget_updateWaterLevels. rewrite forget_updateParticles.
    apply forget_updateAirPressure, updateWaterFlow_forget.
  - reflexivity.
Qed.

(* A tick, read on the fields outside the particle system and the clock. *)
Lemma tick_forget now deltaTime (s : Fountain N) :
  isActive s = true ->
  set_time (time s) (forget (tick host now deltaTime s))
  = forget (checkAutoFlip now (checkedState deltaTime s)).
Proof.
  intros Ha. unfold tick, update. rewrite Ha. cbn [negb].
  pose proof (forget_checkAutoFlip now _ _ (beforeCheck_forget deltaTime s)) as H.
  assert (Ht : time (checkAutoFlip now (checkedState deltaTime s)) = time s).
  { unfold checkAutoFlip, flipSystem.
    repeat match goal with
           | |- context [if ?c then _ else _] => destruct c
           end; reflexivity. }
  revert H Ht.
  generalize (checkAutoFlip now (checkedState deltaTime s)).
  generalize (checkAutoFlip now (beforeCheck host deltaTime s)).
  intros a b H Ht.
  destruct (updateHoses_ok a); cbn [snd];
    destruct a, b; cbn in H, Ht |- *;
    injection H as -> -> -> -> -> -> -> -> -> -> -> -> ->; subst; reflexivity.
Qed.

Lemma tick_inactive now deltaTime (s : Fountain N) :
  isActive s = false -> tick host now deltaTime s = s.
Proof. intros Ha. unfold tick, update. now rewrite Ha. Qed.

End TickViews.

(** ** The particle pool keeps its size *)

Section Pool.

Context {N : Type} {num : JSNumber N}.
Variable host : Host N.

Local Open Scope js_scope.

Lemma alive_le_length (l : list (Particle N)) : (alive l <= length l)%nat.
Proof. unfold alive. apply List.filter_length_le. Qed.

Lemma length_newParticles n k : length (newParticles host n k) = n.
Proof. revert k. induction n as [|n IH]; intros k; simpl; [reflexivity|]. now rewrite IH. Qed.

Lemma length_emitJet h (s : Fountain N) :
  length (particles (emitJet host h s)) = length (particles s).
Proof.
  unfold emitJet. destruct (findFree (particles s)); [|reflexivity].
  cbn. apply length_insert.
Qed.

Lemma length_createFountainParticles (s : Fountain N) :
  length (particles (createFountainParticles host s)) = length (particles s).
Proof.
  unfold createFountainParticles.
  repeat match goal with
         | |- context [if ?c then _ else _] => destruct c; [reflexivity|]
         end.
  match goal with |- context [Nat.iter ?n (emitJet host ?h) s] => generalize n; generalize h end.
  intros h n.
  induction n as [|n IH]; [reflexivity|].
  simpl. now rewrite length_emitJet.
Qed.

Lemma length_splashLoop count pos (s : Fountain N) :
  length (particles (splashLoop host count pos s)) = length (particles s).
Proof.
  revert s. induction count as [|count IH]; intros s; [reflexivity|].
  simpl. destruct (findFree (particles s)); [|reflexivity].
  cbn. rewrite IH. cbn. apply length_insert.
Qed.

Lemma length_spawnSplash pos (s : Fountain N) :
  length (particles (spawnSplash host pos s)) = length (particles s).
Proof. unfold spawnSplash. cbn. now rewrite length_splashLoop. Qed.

Lemma length_stepParticle dt (s : Fountain N) i :
  length (particles (stepParticle host dt s i)) = length (particles s).
Proof.
  unfold stepParticle.
  repeat (cbn [particles set_particles set_activeRipples];
          rewrite ?length_alter, ?length_insert, ?length_spawnSplash;
          cbn [particles set_particles set_activeRipples];
          rewrite ?length_insert;
          try reflexivity;
          match goal with
          | |- context [match ?x with _ => _ end] => destruct x
          end).
Qed.

Lemma length_updateParticles dt (s : Fountain N) :
  length (particles (updateParticles host dt s)) = length (particles s).
Proof.
  unfold updateParticles. generalize (seq 0 (length (particles s))).
  intros is_. revert s. induction is_ as [|i is_ IH]; intros s; [reflexivity|].
  simpl. now rewrite IH, length_stepParticle.
Qed.

Lemma length_updateWaterFlow dt (s : Fountain N) :
  length (particles (updateWaterFlow host dt s)) = length (particles s).
Proof.
  unfold updateWaterFlow, hoseLoop, airLineStep, riserStep.
  cbn [particles set_waterLevels set_airLineConnected].
  assert (Hd : particles (drainStep dt s) = particles s)
    by (unfold drainStep; now destruct (hasDrain s)).
  rewrite <- Hd.
  repeat match goal with
         | |- context [if ?c then _ else _] => destruct c
         end; rewrite ?length_createFountainParticles; reflexivity.
Qed.

Lemma length_checkAutoFlip now (s : Fountain N) :
  particles (checkAutoFlip now s) = particles s.
Proof.
  unfold checkAutoFlip, flipSystem.
  repeat match goal with
         | |- context [if ?c then _ else _] => destruct c
         end; reflexivity.
Qed.

Lemma length_beforeCheck dt (s : Fountain N) :
  length (particles (beforeCheck host dt s)) = length (particles s).
Proof.
  unfold beforeCheck, updateWaterLevels, updateAirPressure.
  cbn [particles set_waterLevels set_absorbY].
  rewrite length_updateParticles. cbn [particles set_airPressure].
  apply length_updateWaterFlow.
Qed.

Lemma particles_advanceTime dt (s : Fountain N) :
  particles (advanceTime dt s) = particles s.
Proof. reflexivity. Qed.

Lemma length_checked now dt (s : Fountain N) :
  length (particles (checkAutoFlip now (beforeCheck host dt s)))
  = length (particles s).
Proof. rewrite length_checkAutoFlip. apply length_beforeCheck. Qed.

Lemma length_tick now dt (s : Fountain N) :
  length (particles (tick host now dt s)) = length (particles s).
Proof.
  unfold tick, update. destruct (negb (isActive s)); [reflexivity|].
  cbv zeta.
  destruct (updateHoses_ok (checkAutoFlip now (beforeCheck host dt s))).
  - cbn [snd]. rewrite particles_advanceTime. apply length_checked.
  - cbn [snd]. apply length_checked.
Qed.

Lemma particles_animationFrame now (s : Fountain N) :
  particles (animationFrame now s) = particles s.
Proof.
  unfold animationFrame.
  change (particles s) with (particles (set_flipSteps [] s)).
  generalize (set_flipSteps [] s). generalize (flipSteps s).
  intros l. induction l as [|a l IH]; intros s'; [reflexivity|].
  simpl. rewrite IH. unfold step. now destruct (_ <? _).
Qed.

Lemma length_perform c (s : Fountain N) :
  length (particles (perform host c s)) = length (particles s).
Proof.
  destruct c; cbn [perform].
  - apply length_tick.
  - unfold flipSystem. now destruct (isFlipping s).
  - reflexivity.
  - reflexivity.
  - reflexivity.
  - reflexivity.
  - reflexivity.
  - reflexivity.
  - reflexivity.
  - unfold handleContainerClick. destruct (pendingHoseStart s); [|reflexivity].
    now destruct (Key_eqb _ _).
  - reflexivity.
  - now rewrite particles_animationFrame.
Qed.

Lemma length_reachable (s : Fountain N) :
  Reachable host s -> length (particles s) = maxParticles.
Proof.
  induction 1 as [|c s _ IH].
  - unfold construct, addDefaultDiagramHoses, createParticleSystem.
    cbn [particles set_spoutTip set_hoses set_randomCalls set_particles app].
    apply length_newParticles.
  - now rewrite length_perform.
Qed.

(* A full pool: no slot is found, and a slot is found unless all live. *)
Lemma findFree_None (l : list (Particle N)) :
  findFree l = None <-> alive l = length l.
Proof.
  unfold alive. induction l as [|p l IH]; simpl; [tauto|].
  destruct (visible p); simpl.
  - destruct (findFree l); simpl.
    + split; [discriminate|]. intros H. injection H as H. apply IH in H. discriminate.
    + split; [|reflexivity]. intros _. f_equal. now apply IH.
  - split; [discriminate|]. intros H.
    pose proof (List.filter_length_le visible l). lia.
Qed.

End Pool.

(** ** Cycle controller and pool: the claims that need no arithmetic *)

Section Cycle.

Context {N : Type} {num : JSNumber N}.
Variable host : Host N.

Local Open Scope js_scope.

Lemma tick_read {X : Type} (f : Fountain N -> X) now dt (s : Fountain N) :
  blind f -> isActive s = true ->
  f (tick host now dt s) = f (checkAutoFlip now (checkedState dt s)).
Proof.
  intros Hb Ha.
  rewrite <- (Hb (time s) (tick host now dt s)), (tick_forget host now dt s Ha).
  generalize (checkAutoFlip now (checkedState dt s)). intros y.
  rewrite <- (Hb (time y) y). now destruct y.
Qed.

Lemma blind_isActive : blind (N:=N) isActive.
Proof. intros t x. reflexivity. Qed.
Lemma blind_isFlipping : blind (N:=N) isFlipping.
Proof. intros t x. reflexivity. Qed.
Lemma blind_waterLevels : blind (N:=N) waterLevels.
Proof. intros t x. reflexivity. Qed.
Lemma blind_airPressure : blind (N:=N) airPressure.
Proof. intros t x. reflexivity. Qed.
Lemma blind_flowIntensity : blind (N:=N) flowIntensity.
Proof. intros t x. reflexivity. Qed.
Lemma blind_hoses : blind (N:=N) hoses.
Proof. intros t x. reflexivity. Qed.
Lemma blind_airLineConnected : blind (N:=N) airLineConnected.
Proof. intros t x. reflexivity. Qed.
Lemma blind_flipSteps : blind (N:=N) flipSteps.
Proof. intros t x. reflexivity. Qed.

Lemma checkAutoFlip_isFlipping now (s : Fountain N) :
  isFlipping s = false ->
  isFlipping (checkAutoFlip now s) = flipCondition (waterLevels s).
Proof.
  intros Hf. unfold checkAutoFlip, flipSystem, flipCondition. rewrite Hf.
  now destruct (_ || _).
Qed.

Lemma checkedState_reads dt (s : Fountain N) :
  waterLevels (checkedState dt s) = checkedLevels dt s
  /\ airPressure (checkedState dt s) = pressureOf (hasAirLine s) (flowLevels dt s)
  /\ flowIntensity (checkedState dt s) = flowIntensity s
  /\ isFlipping (checkedState dt s) = isFlipping s.
Proof. repeat split. Qed.

(* Whether a tick ends flipping is decided by the levels checkAutoFlip
   reads; this holds for every number model. *)
Lemma tick_isFlipping now dt (s : Fountain N) :
  isActive s = true -> isFlipping s = false ->
  isFlipping (tick host now dt s) = flipCondition (checkedLevels dt s).
Proof.
  intros Ha Hf.
  rewrite (tick_read isFlipping now dt s blind_isFlipping Ha).
  destruct (checkedState_reads dt s) as (E1 & _ & _ & E4).
  rewrite checkAutoFlip_isFlipping by (now rewrite E4).
  now rewrite E1.
Qed.

Lemma isActive_checkAutoFlip now (s : Fountain N) :
  isActive s = true -> isActive (checkAutoFlip now s) = true.
Proof.
  intros Ha. unfold checkAutoFlip, flipSystem.
  repeat match goal with
         | |- context [if ?c then _ else _] => destruct c
         end; try assumption; reflexivity.
Qed.

Lemma isActive_tick now dt (s : Fountain N) :
  isActive s = true -> isActive (tick host now dt s) = true.
Proof.
  intros Ha. rewrite (tick_read isActive now dt s blind_isActive Ha).
  now apply isActive_checkAutoFlip.
Qed.

(* An animation frame writes isFlipping and the list of pending closures,
   and nothing else. *)
Lemma animationFrame_rest now (s : Fountain N) b l :
  set_isFlipping b (set_flipSteps l (animationFrame now s))
  = set_isFlipping b (set_flipSteps l s).
Proof.
  unfold animationFrame.
  change (set_isFlipping b (set_flipSteps l s))
    with (set_isFlipping b (set_flipSteps l (set_flipSteps [] s))).
  generalize (set_flipSteps [] s). generalize (flipSteps s).
  intros starts. induction starts as [|a starts IH]; intros s'; [reflexivity|].
  simpl. rewrite IH. unfold step. now destruct (_ <? _).
Qed.

Lemma animationFrame_reads now (s : Fountain N) :
  waterLevels (animationFrame now s) = waterLevels s
  /\ airPressure (animationFrame now s) = airPressure s
  /\ flowIntensity (animationFrame now s) = flowIntensity s
  /\ isActive (animationFrame now s) = isActive s.
Proof.
  pose proof (animationFrame_rest now s false []) as H.
  split; [exact (f_equal waterLevels H)|].
  split; [exact (f_equal airPressure H)|].
  split; [exact (f_equal flowIntensity H)|exact (f_equal isActive H)].
Qed.

Lemma isActive_animationFrame now (s : Fountain N) :
  isActive (animationFrame now s) = isActive s.
Proof.
  change (isActive (set_isFlipping false (set_flipSteps [] (animationFrame now s)))
          = isActive s).
  now rewrite animationFrame_rest.
Qed.

Lemma isActive_perform c (s : Fountain N) :
  isActive s = true -> isActive (perform host c s) = true.
Proof.
  intros Ha. destruct c; cbn [perform]; try assumption; try reflexivity.
  - now apply isActive_tick.
  - unfold flipSystem. now destruct (isFlipping s).
  - unfold handleContainerClick. destruct (pendingHoseStart s); [|assumption].
    now destruct (Key_eqb _ _).
  - now rewrite isActive_animationFrame.
Qed.

(** C10. In every state reachable from construction by update, flipSystem,
    resetSystem, setFlowIntensity, the hose-adding and hose-removing calls
    (and the animation frames of a flip), isActive is true: the guard of
    the early return of update is false there, and getStatus reports
    isActive = true. *)
Theorem isActive_invariant (s : Fountain N) :
  Reachable host s ->
  isActive s = true
  /\ negb (isActive s) = false
  /\ status_isActive (getStatus s) = true.
Proof.
  intros Hr.
  assert (Ha : isActive s = true).
  { induction Hr as [|c s _ IH]; [reflexivity|]. now apply isActive_perform. }
  cbn. now rewrite Ha.
Qed.

(** C8. resetSystem, in any state (hence also in the middle of a flip),
    restores the levels A = 0.75, B = 1.0, C = 0.26, sets the pressure to
    0, clears isFlipping, and leaves no hose that is not canonical. *)
Theorem resetSystem_restores (s : Fountain N) :
  waterLevels (resetSystem s) = mkLevels (lit 0.75) (lit 1.0) (lit 0.26)
  /\ waterLevels (resetSystem s) = waterLevels (construct host)
  /\ airPressure (resetSystem s) = lit 0
  /\ isFlipping (resetSystem s) = false
  /\ List.filter (fun h => negb (canonical h)) (hoses (resetSystem s)) = [].
Proof. repeat split. Qed.

(* The reset removes the canonical hoses as well. *)
Lemma resetSystem_hoses (s : Fountain N) : hoses (resetSystem s) = [].
Proof. reflexivity. Qed.

Lemma resetSystem_idempotent (s : Fountain N) :
  resetSystem (resetSystem s) = resetSystem s.
Proof. reflexivity. Qed.

Lemma length_iter_emitJet n h (s : Fountain N) :
  length (particles (Nat.iter n (emitJet host h) s)) = length (particles s).
Proof.
  induction n as [|n IH]; [reflexivity|].
  simpl. now rewrite length_emitJet.
Qed.

Lemma iter_emitJet_full n h (s : Fountain N) :
  findFree (particles s) = None -> Nat.iter n (emitJet host h) s = s.
Proof.
  intros Hfull. induction n as [|n IH]; [reflexivity|].
  simpl. rewrite IH. unfold emitJet. now rewrite Hfull.
Qed.

(** C9. In every reachable state at most 400 particles are alive, and so
    it stays through any number of jet spawn requests and of splash spawn
    requests, and between the steps of a tick (right after the jet spawn,
    and right after the particle update with its splashes).  When the pool
    has no free slot, createFountainParticles leaves the state as it is and
    spawnSplash leaves the pool as it is: the request is dropped, and
    nothing is raised (both are total functions). *)
Theorem pool_bound (s : Fountain N) :
  Reachable host s ->
  (alive (particles s) <= 400)%nat
  /\ (forall n h, (alive (particles (Nat.iter n (emitJet host h) s)) <= 400)%nat)
  /\ (forall n pos, (alive (particles (splashLoop host n pos s)) <= 400)%nat)
  /\ (forall dt, (alive (particles (updateWaterFlow host dt s)) <= 400)%nat
                 /\ (alive (particles (beforeCheck host dt s)) <= 400)%nat)
  /\ (findFree (particles s) = None ->
      createFountainParticles host s = s
      /\ forall pos, particles (spawnSplash host pos s) = particles s).
Proof.
  intros Hr. pose proof (length_reachable host s Hr) as Hl.
  change maxParticles with 400%nat in Hl.
  split; [|split; [|split; [|split]]].
  - rewrite <- Hl. apply alive_le_length.
  - intros n h. rewrite <- Hl, <- (length_iter_emitJet n h s). apply alive_le_length.
  - intros n pos. rewrite <- Hl, <- (length_splashLoop host n pos s).
    apply alive_le_length.
  - intros dt. split.
    + rewrite <- Hl, <- (length_updateWaterFlow host dt s). apply alive_le_length.
    + rewrite <- Hl, <- (length_beforeCheck host dt s). apply alive_le_length.
  - intros Hfull. split.
    + unfold createFountainParticles.
      repeat match goal with
             | |- context [if ?c then _ else _] => destruct c; [reflexivity|]
             end.
      now apply iter_emitJet_full.
    + intros pos. unfold spawnSplash. cbn.
      destruct (loop_bound _); simpl; [reflexivity|].
      now rewrite Hfull.
Qed.

(** C5 (amended). flipSystem does nothing while a flip is in progress.
    Otherwise it swaps the levels of B and C, sets the pressure to 0 and
    isActive to true at once, and starts the transition (isFlipping set,
    the closure [step] registered with the start time).  An animation frame
    changes neither levels nor pressure nor isActive; the transition, when
    it is the only one pending, goes on while (frame - start) / 1000 < 1 and
    is completed by the first frame past that, and completion only clears
    isFlipping. *)
Theorem flip_swaps_at_start now frame start (s : Fountain N) :
  (if isFlipping s then flipSystem now s = s
   else isFlipping (flipSystem now s) = true
        /\ flipSteps (flipSystem now s) = flipSteps s ++ [now]
        /\ airPressure (flipSystem now s) = lit 0
        /\ isActive (flipSystem now s) = true
        /\ waterLevels (flipSystem now s)
           = mkLevels (levelA (waterLevels s)) (levelC (waterLevels s))
                      (levelB (waterLevels s)))
  /\ (waterLevels (animationFrame frame s) = waterLevels s
      /\ airPressure (animationFrame frame s) = airPressure s
      /\ isActive (animationFrame frame s) = isActive s)
  /\ (let s1 := set_flipSteps [start] s in
      if Math_min ((frame - start) / lit 1000) (lit 1) <? lit 1
      then isFlipping (animationFrame frame s1) = isFlipping s
           /\ flipSteps (animationFrame frame s1) = [start]
      else isFlipping (animationFrame frame s1) = false
           /\ flipSteps (animationFrame frame s1) = []).
Proof.
  split; [|split].
  - unfold flipSystem. destruct (isFlipping s); [reflexivity|]. repeat split.
  - destruct (animationFrame_reads frame s) as (Hw & Hp & _ & Ha).
    split; [exact Hw|]. split; [exact Hp|exact Ha].
  - cbn zeta. unfold animationFrame, step, duration. cbn [flipSteps set_flipSteps fold_left].
    destruct (_ <? _); split; reflexivity.
Qed.

(** ** When the jet may spawn *)

Lemma particles_updateWaterFlow dt (s : Fountain N) :
  particles (updateWaterFlow host dt s) = particles (riserStep host dt (drainStep dt s)).
Proof. reflexivity. Qed.

Lemma drainStep_gate dt (s : Fountain N) :
  hasRiser (drainStep dt s) = hasRiser s
  /\ airPressure (drainStep dt s) = airPressure s
  /\ airLineConnected (drainStep dt s) = airLineConnected s
  /\ particles (drainStep dt s) = particles s.
Proof. unfold drainStep, hasRiser. now destruct (hasDrain s). Qed.

(* The jet of a tick spawns only if the riser is connected now, the flag
   airLineConnected is set, and the pressure exceeds 0.05.  The flag is the
   one the previous tick left: updateWaterFlow refreshes it after the riser
   step. *)
Lemma jet_gate dt (s : Fountain N) :
  hasRiser s = false \/ airLineConnected s = false
  \/ (airPressure s >? lit 0.05) = false ->
  particles (updateWaterFlow host dt s) = particles s.
Proof.
  intros Hg. rewrite particles_updateWaterFlow.
  destruct (drainStep_gate dt s) as (Er & Ep & Ea & Epa).
  unfold riserStep, riserGate. rewrite Er, Ep.
  destruct (hasRiser s) eqn:Hr; cbn [andb]; [|exact Epa].
  destruct (airPressure s >? lit 0.05) eqn:Hp; cbn [andb]; [|exact Epa].
  destruct (_ >? lit 0); [|exact Epa].
  destruct (_ >? lit 0); [|exact Epa].
  unfold createFountainParticles.
  cbn [spoutTip airLineConnected set_waterLevels].
  destruct Hg as [Hg|[Hg|Hg]]; try discriminate.
  rewrite Ea, Hg. cbn [negb]. destruct (negb (spoutTip _)); exact Epa.
Qed.

End Cycle.

(** * Exact arithmetic: levels and pressure *)

Module Exact.

Local Open Scope Q_scope.

Lemma leb_iff (a b : Q) : (a <=? b)%js = true <-> a <= b.
Proof. apply Qle_bool_iff. Qed.

Lemma ltb_iff (a b : Q) : (a <? b)%js = true <-> a < b.
Proof.
  cbn. unfold Qltb. rewrite negb_true_iff.
  split.
  - intros H. apply Qnot_le_lt. intros Hle. apply Qle_bool_iff in Hle. congruence.
  - intros H. destruct (Qle_bool b a) eqn:E; [|reflexivity].
    apply Qle_bool_iff in E. lra.
Qed.

Lemma leb_false_iff (a b : Q) : (a <=? b)%js = false <-> b < a.
Proof.
  rewrite <- not_true_iff_false, leb_iff. split; lra.
Qed.

Lemma ltb_false_iff (a b : Q) : (a <? b)%js = false <-> b <= a.
Proof.
  rewrite <- not_true_iff_false, ltb_iff. split; lra.
Qed.

(* Case analysis on the comparisons, Math.min and Math.max of a goal. *)
Ltac js_to_Q :=
  cbn [lit num_add num_sub num_mul num_div Math_min Math_max num_lt num_le
       Q_number] in *.

Ltac name_minmax :=
  repeat match goal with
         | |- context [Qmin ?a ?b] =>
             let H := fresh "Hmin" in
             let m := fresh "m" in
             pose proof (Q.min_spec a b) as H;
             set (m := Qmin a b) in *; clearbody m
         | |- context [Qmax ?a ?b] =>
             let H := fresh "Hmax" in
             let m := fresh "m" in
             pose proof (Q.max_spec a b) as H;
             set (m := Qmax a b) in *; clearbody m
         | H0 : context [Qmin ?a ?b] |- _ =>
             let H := fresh "Hmin" in
             let m := fresh "m" in
             pose proof (Q.min_spec a b) as H;
             set (m := Qmin a b) in *; clearbody m
         | H0 : context [Qmax ?a ?b] |- _ =>
             let H := fresh "Hmax" in
             let m := fresh "m" in
             pose proof (Q.max_spec a b) as H;
             set (m := Qmax a b) in *; clearbody m
         end.

Lemma clamp_inUnit (v : Q) : inUnit (Qmax 0 (Qmin 1 v)).
Proof. unfold inUnit. name_minmax. lra. Qed.

Lemma clamp_id (v : Q) : inUnit v -> Qmax 0 (Qmin 1 v) == v.
Proof. unfold inUnit. intros H. name_minmax. lra. Qed.

(** ** One hose of the forEach *)

Lemma level_inUnit (w : WaterLevels Q) k : unitLevels w -> inUnit (level w k).
Proof. intros (HA & HB & HC). now destruct k. Qed.

Lemma hoseFlow_unit rate (w : WaterLevels Q) h :
  unitLevels w -> unitLevels (hoseFlow rate w h).
Proof.
  intros Hw. unfold hoseFlow.
  destruct (is_port (startObj h) C_top && is_port (endObj h) B_top); [assumption|].
  generalize (if is_port (startObj h) B_bottom || is_port (startObj h) C_bottom
              then (rate * lit 1.6)%js else rate).
  intros hoseRate. js_to_Q.
  destruct Hw as (HA & HB & HC). unfold inUnit in *.
  destruct (Qltb 0 _) eqn:E; [|unfold unitLevels, inUnit; tauto].
  clear E.
  destruct w as [a b c]; destruct (from h), (to h); cbn in *;
    unfold unitLevels, inUnit; cbn; name_minmax; lra.
Qed.

Lemma hoseFlow_sum rate (w : WaterLevels Q) h :
  sumLevels (hoseFlow rate w h) == sumLevels w.
Proof.
  unfold hoseFlow.
  destruct (is_port (startObj h) C_top && is_port (endObj h) B_top); [reflexivity|].
  generalize (if is_port (startObj h) B_bottom || is_port (startObj h) C_bottom
              then (rate * lit 1.6)%js else rate).
  intros hoseRate. js_to_Q.
  destruct (Qltb 0 _); [|reflexivity].
  destruct w as [a b c]; destruct (from h), (to h); unfold sumLevels; cbn; js_to_Q; ring.
Qed.

Lemma hoseFlow_idle rate (w : WaterLevels Q) h :
  rate <= 0 -> hoseFlow rate w h = w.
Proof.
  intros Hr. unfold hoseFlow.
  destruct (is_port (startObj h) C_top && is_port (endObj h) B_top); [reflexivity|].
  assert (Hh : (if is_port (startObj h) B_bottom || is_port (startObj h) C_bottom
                then (rate * lit 1.6)%js else rate) <= 0).
  { destruct (_ || _); js_to_Q; lra. }
  revert Hh.
  generalize (if is_port (startObj h) B_bottom || is_port (startObj h) C_bottom
              then (rate * lit 1.6)%js else rate).
  intros hoseRate Hh. js_to_Q.
  destruct (Qltb 0 _) eqn:E; [|reflexivity].
  apply ltb_iff in E. name_minmax. lra.
Qed.

Lemma fold_hoseFlow_unit rate hs (w : WaterLevels Q) :
  unitLevels w -> unitLevels (fold_left (hoseFlow rate) hs w).
Proof.
  revert w. induction hs as [|h hs IH]; intros w Hw; [assumption|].
  simpl. apply IH. now apply hoseFlow_unit.
Qed.

Lemma fold_hoseFlow_sum rate hs (w : WaterLevels Q) :
  sumLevels (fold_left (hoseFlow rate) hs w) == sumLevels w.
Proof.
  revert w. induction hs as [|h hs IH]; intros w; [reflexivity|].
  simpl. transitivity (sumLevels (hoseFlow rate w h)); [apply IH|apply hoseFlow_sum].
Qed.

Lemma fold_hoseFlow_idle rate hs (w : WaterLevels Q) :
  rate <= 0 -> fold_left (hoseFlow rate) hs w = w.
Proof.
  intros Hr. revert w. induction hs as [|h hs IH]; intros w; [reflexivity|].
  simpl. rewrite hoseFlow_idle by assumption. apply IH.
Qed.

(** ** The drain and riser steps *)

Lemma levelA_drainStep dt (s : Fountain Q) :
  levelA (waterLevels (drainStep dt s)) = levelA (waterLevels s).
Proof. unfold drainStep. now destruct (hasDrain s). Qed.

Lemma levelA_riserLevels dt (s : Fountain Q) :
  levelA (riserLevels dt s) = levelA (waterLevels s).
Proof. unfold riserLevels. now destruct (riserGate s). Qed.

Lemma rate_nonneg k fi dt : 0 <= k -> 0 <= fi -> 0 <= dt -> 0 <= k * fi * dt.
Proof. intros. repeat apply Qmult_le_0_compat; assumption. Qed.

Lemma rate_nonpos k fi dt : 0 <= k -> 0 <= fi -> dt <= 0 -> k * fi * dt <= 0.
Proof.
  intros Hk Hfi Hdt.
  assert (H : 0 <= k * fi * (- dt)) by (apply rate_nonneg; lra).
  assert (E : k * fi * (- dt) == - (k * fi * dt)) by ring. lra.
Qed.

(* With a forward time step the drain moves a non-negative volume from B
   to C and keeps the levels in range. *)
Lemma drainStep_forward dt (s : Fountain Q) :
  unitLevels (waterLevels s) -> 0 <= flowIntensity s -> 0 <= dt ->
  let w := waterLevels s in
  let w1 := waterLevels (drainStep dt s) in
  unitLevels w1
  /\ levelB w1 <= levelB w /\ levelC w <= levelC w1
  /\ sumLevels w1 == sumLevels w.
Proof.
  intros (HA & HB & HC) Hfi Hdt. unfold drainStep, inUnit in *.
  destruct (hasDrain s); cbn zeta; [|unfold unitLevels, inUnit; repeat split; lra].
  cbn [waterLevels set_waterLevels levelA levelB levelC].
  assert (Hd : 0 <= (lit 0.6 * flowRate * flowIntensity s * dt)%js).
  { apply (rate_nonneg (0.6 * 0.05)); [lra|assumption|assumption]. }
  revert Hd. generalize (lit 0.6 * flowRate * flowIntensity s * dt)%js.
  intros da Hd. js_to_Q. unfold unitLevels, inUnit, sumLevels. cbn. js_to_Q.
  name_minmax. repeat split; lra.
Qed.

Lemma riserGate_pressure (s : Fountain Q) :
  riserGate s = true -> 0.05 < airPressure s /\ 0 < levelB (waterLevels s).
Proof.
  unfold riserGate. rewrite !andb_true_iff. intros ((_ & Hp) & Hb).
  apply ltb_iff in Hp, Hb. now split.
Qed.

Lemma riserLevels_forward dt (s : Fountain Q) :
  unitLevels (waterLevels s) -> 0 <= flowIntensity s -> 0 <= dt ->
  let w := waterLevels s in
  let w2 := riserLevels dt s in
  let debit := if riserGate s then riserFlow dt s else 0 in
  unitLevels w2
  /\ levelB w2 <= levelB w /\ levelC w2 = levelC w
  /\ sumLevels w2 == sumLevels w - debit /\ 0 <= debit.
Proof.
  intros (HA & HB & HC) Hfi Hdt. unfold riserLevels, riserFlow, inUnit in *.
  destruct (riserGate s) eqn:Hg; cbn zeta;
    [|unfold unitLevels, inUnit, sumLevels; js_to_Q; repeat split; lra].
  apply riserGate_pressure in Hg. destruct Hg as (Hp & Hb).
  assert (Hd : 0 <= (flowRate * lit 1.25 * flowIntensity s * airPressure s * dt)%js).
  { js_to_Q. repeat apply Qmult_le_0_compat; try assumption; try lra.
    unfold flowRate. js_to_Q. lra. }
  revert Hd. generalize (flowRate * lit 1.25 * flowIntensity s * airPressure s * dt)%js.
  intros pf Hd. js_to_Q. unfold unitLevels, inUnit, sumLevels. cbn. js_to_Q.
  name_minmax. repeat split; lra.
Qed.

(* The fields a tick reads, after the drain step. *)
Lemma drainStep_reads dt (s : Fountain Q) :
  hoses (drainStep dt s) = hoses s
  /\ flowIntensity (drainStep dt s) = flowIntensity s
  /\ airPressure (drainStep dt s) = airPressure s.
Proof. unfold drainStep. now destruct (hasDrain s). Qed.

(* The levels before the hose loop, for a forward time step. *)
Lemma beforeLoop_forward dt (s : Fountain Q) :
  unitLevels (waterLevels s) -> 0 <= flowIntensity s -> 0 <= dt ->
  let w := waterLevels s in
  let w2 := riserLevels dt (drainStep dt s) in
  unitLevels w2
  /\ levelB w2 <= levelB w /\ levelC w <= levelC w2
  /\ sumLevels w2 == sumLevels w - riserDebit dt s /\ 0 <= riserDebit dt s.
Proof.
  intros Hw Hfi Hdt. cbn zeta.
  destruct (drainStep_forward dt s Hw Hfi Hdt) as (Hu1 & Hb1 & Hc1 & Hs1).
  destruct (drainStep_reads dt s) as (_ & Hfi1 & _).
  assert (Hfi' : 0 <= flowIntensity (drainStep dt s)) by now rewrite Hfi1.
  destruct (riserLevels_forward dt (drainStep dt s) Hu1 Hfi' Hdt)
    as (Hu2 & Hb2 & Hc2 & Hs2 & Hd2).
  change (if riserGate (drainStep dt s) then riserFlow dt (drainStep dt s) else 0)
    with (riserDebit dt s) in *.
  repeat split; try assumption; try apply Hu2; try lra.
  rewrite Hc2. assumption.
Qed.

(* The levels after updateWaterFlow are in range whatever the sign of the
   time step, provided the flow intensity is not negative: backwards, the
   hose loop moves nothing and A stays; B and C may leave the range and are
   clamped by updateWaterLevels. *)
Lemma flowLevels_levelA dt (s : Fountain Q) :
  unitLevels (waterLevels s) -> 0 <= flowIntensity s ->
  inUnit (levelA (flowLevels dt s)).
Proof.
  intros Hw Hfi. unfold flowLevels.
  destruct (Qlt_le_dec dt 0) as [Hneg|Hpos].
  - rewrite fold_hoseFlow_idle.
    + rewrite levelA_riserLevels, levelA_drainStep. apply Hw.
    + js_to_Q. apply (rate_nonpos (0.9 * 0.05)); [lra|assumption|lra].
  - apply (level_inUnit _ A). apply fold_hoseFlow_unit.
    apply (beforeLoop_forward dt s Hw Hfi Hpos).
Qed.

Lemma clampLevels_unit (w : WaterLevels Q) :
  inUnit (levelA w) -> unitLevels (clampLevels w).
Proof.
  intros HA. unfold unitLevels, clampLevels. cbn [levelA levelB levelC].
  repeat split; try apply HA; apply clamp_inUnit.
Qed.

Lemma clampLevels_id_sum (w : WaterLevels Q) :
  unitLevels w -> sumLevels (clampLevels w) == sumLevels w.
Proof.
  intros (HA & HB & HC). unfold sumLevels, clampLevels. cbn. js_to_Q.
  rewrite (clamp_id _ HB), (clamp_id _ HC). reflexivity.
Qed.

Lemma pressureOf_inUnit connected (w : WaterLevels Q) :
  inUnit (pressureOf connected w).
Proof. unfold pressureOf, updateAirPressure. cbn. apply clamp_inUnit. Qed.

(** ** The end of a tick *)

Lemma checkAutoFlip_unit now (s : Fountain Q) :
  unitLevels (waterLevels s) -> inUnit (airPressure s) ->
  unitLevels (waterLevels (checkAutoFlip now s))
  /\ inUnit (airPressure (checkAutoFlip now s))
  /\ flowIntensity (checkAutoFlip now s) = flowIntensity s.
Proof.
  unfold unitLevels, inUnit.
  intros ((HA1 & HA2) & (HB1 & HB2) & (HC1 & HC2)) (Hp1 & Hp2).
  unfold checkAutoFlip, flipSystem.
  destruct (isFlipping s); [repeat split; assumption|].
  destruct (_ || _); [|repeat split; assumption].
  cbn. repeat split; try assumption; lra.
Qed.

Lemma checkAutoFlip_sum now (s : Fountain Q) :
  sumLevels (waterLevels (checkAutoFlip now s)) == sumLevels (waterLevels s).
Proof.
  unfold checkAutoFlip, flipSystem.
  destruct (isFlipping s); [reflexivity|].
  destruct (_ || _); [|reflexivity].
  unfold sumLevels. cbn. js_to_Q. ring.
Qed.

Lemma setFlowIntensity_reads value (s : Fountain Q) :
  waterLevels (setFlowIntensity value s) = waterLevels s
  /\ airPressure (setFlowIntensity value s) = airPressure s
  /\ flowIntensity (setFlowIntensity value s) = Qmax 0 (Qmin 1 value).
Proof. repeat split. Qed.

(* A tick keeps levels, pressure and flow intensity in [0,1], whatever the
   time step and the hoses. *)
Lemma tick_keeps_unit host now dt (s : Fountain Q) :
  unitState s -> unitState (tick host now dt s).
Proof.
  intros (Hw & Hp & Hfi). unfold unitState.
  destruct (isActive s) eqn:Ha.
  - rewrite (tick_read host waterLevels now dt s (blind_waterLevels) Ha).
    rewrite (tick_read host airPressure now dt s (blind_airPressure) Ha).
    rewrite (tick_read host flowIntensity now dt s (blind_flowIntensity) Ha).
    destruct (checkedState_reads dt s) as (E1 & E2 & E3 & _).
    assert (Hu : unitLevels (waterLevels (checkedState dt s))).
    { rewrite E1. apply clampLevels_unit, flowLevels_levelA; [assumption|apply Hfi]. }
    assert (Hq : inUnit (airPressure (checkedState dt s))).
    { rewrite E2. apply pressureOf_inUnit. }
    destruct (checkAutoFlip_unit now (checkedState dt s) Hu Hq) as (H1 & H2 & H3).
    rewrite H3, E3. split; [exact H1|]. split; [exact H2|exact Hfi].
  - rewrite (tick_inactive host now dt s Ha).
    split; [exact Hw|]. split; [exact Hp|exact Hfi].
Qed.

Lemma setFlowIntensity_keeps_unit value (s : Fountain Q) :
  unitState s -> unitState (setFlowIntensity value s).
Proof.
  intros (Hw & Hp & _). split; [exact Hw|]. split; [exact Hp|].
  apply clamp_inUnit.
Qed.

Lemma flipSystem_keeps_unit now (s : Fountain Q) :
  unitState s -> unitState (flipSystem now s).
Proof.
  intros ((HA & HB & HC) & Hp & Hfi). unfold flipSystem.
  destruct (isFlipping s);
    [split; [split; [exact HA|split; [exact HB|exact HC]]|split; [exact Hp|exact Hfi]]|].
  split; [|split; [|exact Hfi]].
  - split; [exact HA|]. split; [exact HC|exact HB].
  - unfold inUnit. cbn. lra.
Qed.

Lemma resetSystem_keeps_unit (s : Fountain Q) :
  unitState s -> unitState (resetSystem s).
Proof.
  intros (_ & _ & Hfi). split; [|split; [|exact Hfi]].
  - unfold unitLevels, inUnit. cbn. lra.
  - unfold inUnit. cbn. lra.
Qed.

Lemma animationFrame_keeps_unit now (s : Fountain Q) :
  unitState s -> unitState (animationFrame now s).
Proof.
  intros H. unfold unitState.
  destruct (animationFrame_reads now s) as (Ew & Ep & Ef & _).
  rewrite Ew, Ep, Ef. exact H.
Qed.

Lemma perform_keeps_unit host c (s : Fountain Q) :
  unitState s -> unitState (perform host c s).
Proof.
  intros H. destruct c; cbn [perform]; try exact H.
  - now apply tick_keeps_unit.
  - now apply flipSystem_keeps_unit.
  - now apply resetSystem_keeps_unit.
  - now apply setFlowIntensity_keeps_unit.
  - unfold handleContainerClick. destruct (pendingHoseStart s); [|exact H].
    destruct (Key_eqb _ _); exact H.
  - now apply animationFrame_keeps_unit.
Qed.

Lemma construct_unit host : unitState (construct host).
Proof.
  unfold unitState, unitLevels, inUnit, construct, addDefaultDiagramHoses,
    createParticleSystem, initialLevels.
  cbn [waterLevels airPressure flowIntensity set_spoutTip set_hoses
       set_randomCalls set_particles levelA levelB levelC].
  js_to_Q. lra.
Qed.

(* Every reachable state has its levels, its pressure and its flow
   intensity in [0,1]. *)
Lemma reachable_unit host (s : Fountain Q) : Reachable host s -> unitState s.
Proof.
  induction 1 as [|c s _ IH]; [apply construct_unit|].
  now apply perform_keeps_unit.
Qed.

Lemma reachable_active host (s : Fountain Q) : Reachable host s -> isActive s = true.
Proof.
  induction 1 as [|c s _ IH]; [reflexivity|]. now apply isActive_perform.
Qed.


(* The sum of the levels across a tick with a forward time step. *)
Lemma tick_sum host now dt (s : Fountain Q) :
  isActive s = true ->
  unitLevels (waterLevels s) -> 0 <= flowIntensity s -> 0 <= dt ->
  sumLevels (waterLevels (tick host now dt s))
  == sumLevels (waterLevels s) - riserDebit dt s
  /\ 0 <= riserDebit dt s.
Proof.
  intros Ha Hw Hfi Hdt.
  rewrite (tick_read host waterLevels now dt s (blind_waterLevels) Ha).
  destruct (beforeLoop_forward dt s Hw Hfi Hdt) as (Hu & _ & _ & Hs & Hd).
  split; [|exact Hd].
  rewrite checkAutoFlip_sum.
  destruct (checkedState_reads dt s) as (E1 & _). rewrite E1.
  unfold checkedLevels. rewrite clampLevels_id_sum.
  - unfold flowLevels. rewrite fold_hoseFlow_sum. exact Hs.
  - unfold flowLevels. now apply fold_hoseFlow_unit.
Qed.

Lemma riserDebit_low_pressure dt (s : Fountain Q) :
  airPressure s <= 0.05 -> riserDebit dt s = 0.
Proof.
  intros Hp. unfold riserDebit.
  destruct (riserGate (drainStep dt s)) eqn:Hg; [|reflexivity].
  apply riserGate_pressure in Hg. destruct Hg as (Hg & _).
  destruct (drainStep_reads dt s) as (_ & _ & Ep). rewrite Ep in Hg. lra.
Qed.

(** C1 (amended). In exact arithmetic (no rounding, and every time step
    a rational, so finite; on binary64 the sum is kept only up to rounding,
    see IEEE.sum_moves_by_rounding), for a tick with a forward time
    step from any reachable state (whatever hoses are connected, so in
    particular with only the three canonical paths; whether or not the
    tick ends in a flip): the sum A + B + C after the tick is the sum before
    minus the volume the riser step takes out of B, which is credited to no
    vessel.  That volume is never negative, and it is zero, so that the sum
    is unchanged, whenever the pressure at the start of the tick is at most
    0.05. *)
Theorem sum_changes_by_riser_debit host now dt (s : Fountain Q) :
  Reachable host s -> 0 <= dt ->
  let s' := tick host now dt s in
  sumLevels (waterLevels s') == sumLevels (waterLevels s) - riserDebit dt s
  /\ 0 <= riserDebit dt s
  /\ (airPressure s <= 0.05 ->
      sumLevels (waterLevels s') == sumLevels (waterLevels s)).
Proof.
  intros Hr Hdt. cbn zeta.
  destruct (reachable_unit host s Hr) as (Hw & _ & (Hfi & _)).
  destruct (tick_sum host now dt s (reachable_active host s Hr) Hw Hfi Hdt)
    as (Hsum & Hd).
  split; [exact Hsum|]. split; [exact Hd|].
  intros Hp. rewrite Hsum, (riserDebit_low_pressure dt s Hp). ring.
Qed.

(** ** Canonical hoses move water one way *)

Lemma hoseFlow_canonical rate (w : WaterLevels Q) h :
  canonical h = true ->
  levelB (hoseFlow rate w h) <= levelB w /\ levelC w <= levelC (hoseFlow rate w h).
Proof.
  destruct h as [f t so eo]. unfold canonical, isDrain, isAirLine, isRiser.
  cbn [from to startObj endObj].
  destruct f, t; cbn [Key_eqb andb orb]; try discriminate;
    destruct so as [[]|]; cbn [is_port Port_eqb andb orb]; try discriminate;
    destruct eo as [[]|]; cbn [is_port Port_eqb andb orb]; try discriminate;
    intros _; unfold hoseFlow;
    cbn [from to startObj endObj is_port Port_eqb andb orb level set_level
         levelA levelB levelC];
    try (split; lra);
    js_to_Q;
    match goal with
    | |- context [Qltb 0 ?m] =>
        destruct (Qltb 0 m) eqn:E;
        [apply ltb_iff in E; revert E; generalize m; intros moved E|]
    end;
    cbn [levelA levelB levelC]; split; lra.
Qed.

Lemma fold_hoseFlow_canonical rate hs (w : WaterLevels Q) :
  forallb canonical hs = true ->
  levelB (fold_left (hoseFlow rate) hs w) <= levelB w
  /\ levelC w <= levelC (fold_left (hoseFlow rate) hs w).
Proof.
  revert w. induction hs as [|h hs IH]; intros w Hc; simpl; [split; lra|].
  simpl in Hc. apply andb_true_iff in Hc. destruct Hc as (Hh & Hc).
  destruct (IH (hoseFlow rate w h) Hc) as (Hb' & Hc').
  destruct (hoseFlow_canonical rate w h Hh) as (Hb & Hc0).
  split; lra.
Qed.

Lemma flipCondition_iff (w : WaterLevels Q) :
  flipCondition w = true <-> 0.98 <= levelC w \/ levelB w <= 0.02.
Proof.
  unfold flipCondition. rewrite orb_true_iff, !leb_iff. reflexivity.
Qed.

(** C6 (amended). In exact arithmetic, for a tick of an active engine
    that is not flipping: the tick ends flipping if and only if the levels
    that checkAutoFlip reads, those after the transfer and the clamping
    of this tick, have C >= 0.98 or B <= 0.02.  With only canonical paths
    connected, levels in [0,1], a flow intensity that is not negative and a
    forward time step, C never falls and B never rises within the tick, so
    levels that meet the condition before the tick (C = 0.981, or B = 0.01)
    start the flip in that one tick.  The time step is a rational, so
    finite: on binary64 a time step of +Infinity with the flow intensity at
    0 turns B and C into NaN and no flip starts, see
    IEEE.no_flip_at_infinite_step. *)
Theorem autoflip_trigger host now dt (s : Fountain Q) :
  isActive s = true -> isFlipping s = false ->
  (isFlipping (tick host now dt s) = true <->
     0.98 <= levelC (checkedLevels dt s) \/ levelB (checkedLevels dt s) <= 0.02)
  /\ (forallb canonical (hoses s) = true -> unitLevels (waterLevels s) ->
      0 <= flowIntensity s -> 0 <= dt ->
      0.98 <= levelC (waterLevels s) \/ levelB (waterLevels s) <= 0.02 ->
      isFlipping (tick host now dt s) = true).
Proof.
  intros Ha Hf.
  assert (Hiff : isFlipping (tick host now dt s) = true <->
     0.98 <= levelC (checkedLevels dt s) \/ levelB (checkedLevels dt s) <= 0.02).
  { rewrite (tick_isFlipping host now dt s Ha Hf). apply flipCondition_iff. }
  split; [exact Hiff|].
  intros Hc Hw Hfi Hdt Hpre. apply Hiff.
  destruct (beforeLoop_forward dt s Hw Hfi Hdt) as (_ & Hb2 & Hc2 & _).
  unfold checkedLevels, flowLevels.
  destruct (fold_hoseFlow_canonical (lit 0.9 * flowRate * flowIntensity s * dt)%js
              (hoses s) (riserLevels dt (drainStep dt s)) Hc) as (Hb3 & Hc3).
  revert Hb3 Hc3.
  generalize (fold_left (hoseFlow (lit 0.9 * flowRate * flowIntensity s * dt)%js)
                (hoses s) (riserLevels dt (drainStep dt s))).
  intros w3 Hb3 Hc3. unfold clampLevels. cbn [levelB levelC]. js_to_Q.
  name_minmax. lra.
Qed.

(** ** The pressure of a tick *)

Lemma drainStep_backward dt (s : Fountain Q) :
  unitLevels (waterLevels s) -> 0 <= flowIntensity s -> dt <= 0 ->
  levelB (waterLevels s) <= levelB (waterLevels (drainStep dt s))
  /\ levelC (waterLevels (drainStep dt s)) <= levelC (waterLevels s).
Proof.
  intros (HA & HB & HC) Hfi Hdt. unfold drainStep, inUnit in *.
  destruct (hasDrain s); cbn zeta; [|split; lra].
  cbn [waterLevels set_waterLevels levelA levelB levelC].
  assert (Hd : (lit 0.6 * flowRate * flowIntensity s * dt)%js <= 0).
  { apply (rate_nonpos (0.6 * 0.05)); [lra|assumption|assumption]. }
  revert Hd. generalize (lit 0.6 * flowRate * flowIntensity s * dt)%js.
  intros da Hd. js_to_Q. name_minmax. split; lra.
Qed.

Lemma riserLevels_backward dt (s : Fountain Q) :
  0 <= flowIntensity s -> dt <= 0 ->
  levelB (waterLevels s) <= levelB (riserLevels dt s)
  /\ levelC (riserLevels dt s) = levelC (waterLevels s).
Proof.
  intros Hfi Hdt. unfold riserLevels, riserFlow.
  destruct (riserGate s) eqn:Hg; cbn zeta; [|split; [lra|reflexivity]].
  apply riserGate_pressure in Hg. destruct Hg as (Hp & Hb).
  assert (Hd : (flowRate * lit 1.25 * flowIntensity s * airPressure s * dt)%js <= 0).
  { js_to_Q.
    assert (H : 0 <= flowRate * 1.25 * flowIntensity s * airPressure s * (- dt)).
    { repeat apply Qmult_le_0_compat; try assumption; try lra.
      unfold flowRate. js_to_Q. lra. }
    assert (E : flowRate * 1.25 * flowIntensity s * airPressure s * (- dt)
                == - (flowRate * 1.25 * flowIntensity s * airPressure s * dt)) by ring.
    lra. }
  revert Hd. generalize (flowRate * lit 1.25 * flowIntensity s * airPressure s * dt)%js.
  intros pf Hd. cbn [levelB levelC]. js_to_Q. name_minmax. split; [lra|reflexivity].
Qed.

(* After updateWaterFlow either the inflow term is not negative, or the
   head is zero: a backward time step may take C below 0, but then B is
   above it. *)
Lemma flowLevels_inflow dt (s : Fountain Q) :
  unitLevels (waterLevels s) -> 0 <= flowIntensity s ->
  let w := flowLevels dt s in
  0 <= (1 - levelA w) + levelC w \/ levelC w <= levelB w.
Proof.
  intros Hw Hfi. cbn zeta.
  destruct (Qlt_le_dec dt 0) as [Hneg|Hpos].
  - unfold flowLevels. rewrite fold_hoseFlow_idle.
    2:{ js_to_Q. apply (rate_nonpos (0.9 * 0.05)); [lra|assumption|lra]. }
    assert (Hdt : dt <= 0) by lra.
    destruct (drainStep_backward dt s Hw Hfi Hdt) as (Hb1 & Hc1).
    destruct (drainStep_reads dt s) as (_ & Hfi1 & _).
    assert (Hfi' : 0 <= flowIntensity (drainStep dt s)) by now rewrite Hfi1.
    destruct (riserLevels_backward dt (drainStep dt s) Hfi' Hdt) as (Hb2 & Hc2).
    rewrite levelA_riserLevels, levelA_drainStep, Hc2.
    destruct Hw as ((HA1 & HA2) & (HB1 & HB2) & (HC1 & HC2)).
    destruct (Qlt_le_dec (1 - levelA (waterLevels s)
                          + levelC (waterLevels (drainStep dt s))) 0) as [Hlt|Hle];
      [right; lra|left; lra].
  - left.
    assert (Hu : unitLevels (flowLevels dt s)).
    { unfold flowLevels. apply fold_hoseFlow_unit.
      apply (beforeLoop_forward dt s Hw Hfi Hpos). }
    destruct Hu as ((HA1 & HA2) & _ & (HC1 & HC2)). lra.
Qed.

Lemma pressureOf_formula connected (w : WaterLevels Q) :
  0 <= (1 - levelA w) + levelC w \/ levelC w <= levelB w ->
  pressureOf connected w
  == clamp01 ((if connected then 1 else 0.2)
              * (Qmax 0 (levelC w - levelB w) * 2.0
                 + 0.5 * clamp01 ((1 - levelA w) + levelC w))).
Proof.
  intros H. unfold pressureOf, updateAirPressure, clamp01.
  cbn [airPressure set_airPressure waterLevels airLineConnected]. js_to_Q.
  destruct connected; name_minmax; lra.
Qed.

Lemma updateWaterFlow_reads host dt (s : Fountain Q) :
  waterLevels (updateWaterFlow host dt s) = flowLevels dt s
  /\ airLineConnected (updateWaterFlow host dt s) = hasAirLine s.
Proof.
  pose proof (updateWaterFlow_forget host dt s) as H. split.
  - exact (f_equal waterLevels H).
  - exact (f_equal airLineConnected H).
Qed.

(** C7 (amended). In exact arithmetic, for a tick from a state with
    levels in [0,1] and a flow intensity that is not negative (every
    reachable state is one), whatever the rational time step (so a finite
    one; on binary64 a time step of +Infinity gives a NaN pressure, see
    IEEE.pressure_nan_counterexample): the pressure that updateAirPressure
    stores is clamp01(sealFactor * (head * 2.0 + 0.5 * inflowFactor)) with
    sealFactor 1 when the air line is among the hoses and 0.2 otherwise,
    head = max(0, C - B) and inflowFactor = clamp01((1 - A) + C), on the
    levels as updateWaterFlow has just left them; it is the function
    [pressureOf] of these levels and of the connectivity alone, and it is
    in [0,1]. *)
Theorem pressure_formula host dt (s : Fountain Q) :
  unitLevels (waterLevels s) -> 0 <= flowIntensity s ->
  let s1 := updateWaterFlow host dt s in
  let w := waterLevels s1 in
  let sealFactor := if hasAirLine s then 1 else 0.2 in
  let head := Qmax 0 (levelC w - levelB w) in
  let inflowFactor := clamp01 ((1 - levelA w) + levelC w) in
  airPressure (updateAirPressure s1)
    == clamp01 (sealFactor * (head * 2.0 + 0.5 * inflowFactor))
  /\ airPressure (updateAirPressure s1) = pressureOf (hasAirLine s) w
  /\ inUnit (airPressure (updateAirPressure s1)).
Proof.
  intros Hw Hfi. cbn zeta.
  destruct (updateWaterFlow_reads host dt s) as (Ew & Ea).
  assert (E : airPressure (updateAirPressure (updateWaterFlow host dt s))
              = pressureOf (hasAirLine s) (waterLevels (updateWaterFlow host dt s))).
  { rewrite <- Ea. reflexivity. }
  split; [|split; [exact E|]].
  - rewrite E, Ew. apply pressureOf_formula, flowLevels_inflow; assumption.
  - rewrite E. apply pressureOf_inUnit.
Qed.

(** ** The engine run on concrete inputs *)

(** C1, counterexample. From construction, two ticks of 1/60 s with the
    three canonical hoses and no flip: the second tick takes the sum
    A + B + C from 2.01 down by 2551/38400000 (about 6.6e-5), the volume
    the riser step removed from B. *)
Lemma sum_drops_counterexample :
  let s0 := construct sampleHost in
  let s1 := tick sampleHost 0 (1 # 60) s0 in
  let s2 := tick sampleHost 0 (1 # 60) s1 in
  hoses s1 = defaultHoses /\ hoses s2 = defaultHoses
  /\ isFlipping s1 = false /\ isFlipping s2 = false
  /\ sumLevels (waterLevels s1) == 2.01
  /\ sumLevels (waterLevels s2) == 2.01 - (2551 # 38400000)
  /\ sumLevels (waterLevels s2) < sumLevels (waterLevels s1).
Proof. vm_compute. repeat split; reflexivity. Qed.

(** C3, the code at the failing input. With the canonical hoses of the
    constructor, the first tick of 1/60 s takes the level of A from 0.75
    to 0.7501125: the forEach over this.hoses also runs the drain hose
    (A to C, 0.0001875 out of A) and the riser hose (B to A, 0.0003 into A). *)
Theorem top_level_moves host now :
  let s0 := construct host in
  hasDrain s0 = true
  /\ hoses s0 = defaultHoses
  /\ levelA (waterLevels s0) == 0.75
  /\ levelA (waterLevels (tick host now (1 # 60) s0)) == 0.7501125.
Proof.
  cbn zeta. split; [reflexivity|]. split; [reflexivity|]. split; [reflexivity|].
  rewrite (tick_read host waterLevels now (1 # 60) (construct host)
             (blind_waterLevels) eq_refl).
  vm_compute. reflexivity.
Qed.

(** C4, the code at the failing input. After one tick with the canonical
    hoses, the hoses of container C are removed: the drain and the air line
    go, the riser stays.  The next tick emits 25 jet particles although the
    air line is not connected: createFountainParticles reads the flag
    airLineConnected that the previous tick left, and updateWaterFlow only
    refreshes it after the riser step. *)
Theorem jet_without_air_line :
  let s1 := tick sampleHost 0 (1 # 60) (construct sampleHost) in
  let s2 := removeHosesForContainer C s1 in
  let s3 := tick sampleHost 0 (1 # 60) s2 in
  hoses s2 = [P3] /\ hasAirLine s2 = false /\ hasRiser s2 = true
  /\ airLineConnected s2 = true
  /\ alive (particles s2) = 0%nat
  /\ alive (particles (updateWaterFlow sampleHost (1 # 60) s2)) = 25%nat
  /\ alive (particles s3) = 25%nat
  /\ airLineConnected s3 = false.
Proof. vm_compute. repeat split; reflexivity. Qed.

(** C5, counterexample. A flip at time 0 from the constructed state, one
    tick during the transition, and the animation frame at time 1000 that
    completes it.  The levels of B and C are already swapped and the
    pressure already 0 when the transition starts; at completion the
    pressure is 1, as the tick recomputed it, and the completing frame
    changes no level. *)
Lemma flip_completion_counterexample :
  let s0 := construct sampleHost in
  let s1 := flipSystem 0 s0 in
  let s2 := tick sampleHost 0 (1 # 60) s1 in
  let s3 := animationFrame 1000 s2 in
  isFlipping s0 = false
  /\ levelB (waterLevels s0) == 1 /\ levelC (waterLevels s0) == 0.26
  /\ isFlipping s1 = true
  /\ levelB (waterLevels s1) == 0.26 /\ levelC (waterLevels s1) == 1
  /\ airPressure s1 == 0
  /\ isFlipping s2 = true /\ isFlipping s3 = false
  /\ airPressure s3 == 1
  /\ waterLevels s3 = waterLevels s2
  /\ levelB (waterLevels s3) == 0.2597 /\ levelC (waterLevels s3) == 1.
Proof. vm_compute. repeat split; reflexivity. Qed.

(** C6, counterexample. From the constructed state with the flow
    intensity set to 1, where C = 0.26 < 0.98 and B = 1 > 0.02, one update
    of 10 s ends flipping: the tick itself fills C to 1 before the check. *)
Lemma autoflip_counterexample :
  let s0 := setFlowIntensity 1 (construct sampleHost) in
  let s1 := tick sampleHost 0 10 s0 in
  isActive s0 = true /\ isFlipping s0 = false
  /\ levelC (waterLevels s0) < 0.98 /\ 0.02 < levelB (waterLevels s0)
  /\ levelC (checkedLevels 10 s0) == 1
  /\ isFlipping s1 = true.
Proof. vm_compute. repeat split; reflexivity. Qed.

(* The transition of a flip lasts 1000 ms of the frame clock. *)
Lemma flip_duration (frame start : Q) :
  (Math_min ((frame - start) / lit 1000) (lit 1) <? lit 1)%js = true
  <-> frame - start < 1000.
Proof.
  rewrite ltb_iff. js_to_Q.
  assert (E : (frame - start) / 1000 == (frame - start) * (1 # 1000)) by reflexivity.
  split; intros H.
  - name_minmax. lra.
  - name_minmax. lra.
Qed.

(** ** Witnesses: the theorems at concrete inputs *)


Lemma sum_changes_by_riser_debit_witness :
  let s := perform sampleHost (call_update 0 (1 # 60)) (construct sampleHost) in
  let s' := tick sampleHost 0 (1 # 60) s in
  (0 <= 1 # 60)
  /\ (sumLevels (waterLevels s') == sumLevels (waterLevels s) - riserDebit (1 # 60) s
      /\ 0 <= riserDebit (1 # 60) s
      /\ (airPressure s <= 0.05 ->
          sumLevels (waterLevels s') == sumLevels (waterLevels s))).
Proof.
  assert (Hdt : 0 <= 1 # 60) by lra.
  exact (conj Hdt
           (sum_changes_by_riser_debit sampleHost 0 (1 # 60)
              (perform sampleHost (call_update 0 (1 # 60)) (construct sampleHost))
              (reach_perform sampleHost (call_update 0 (1 # 60)) (construct sampleHost)
                 (reach_construct sampleHost))
              Hdt)).
Defined.

Lemma autoflip_trigger_witness :
  let full := set_waterLevels (mkLevels 0.75 0.5 0.981) (construct sampleHost) in
  let empty := set_waterLevels (mkLevels 0.75 0.01 0.5) (construct sampleHost) in
  isFlipping (tick sampleHost 0 (1 # 60) full) = true
  /\ isFlipping (tick sampleHost 0 (1 # 60) empty) = true.
Proof.
  split.
  - apply (autoflip_trigger sampleHost 0 (1 # 60)
             (set_waterLevels (mkLevels 0.75 0.5 0.981) (construct sampleHost))
             eq_refl eq_refl).
    + reflexivity.
    + unfold unitLevels, inUnit; cbn; lra.
    + cbn; lra.
    + lra.
    + left. cbn. lra.
  - apply (autoflip_trigger sampleHost 0 (1 # 60)
             (set_waterLevels (mkLevels 0.75 0.01 0.5) (construct sampleHost))
             eq_refl eq_refl).
    + reflexivity.
    + unfold unitLevels, inUnit; cbn; lra.
    + cbn; lra.
    + lra.
    + right. cbn. lra.
Defined.

Lemma pressure_formula_witness :
  let s := construct sampleHost in
  let w := waterLevels (updateWaterFlow sampleHost (1 # 60) s) in
  (unitLevels (waterLevels s) /\ 0 <= flowIntensity s)
  /\ airPressure (updateAirPressure (updateWaterFlow sampleHost (1 # 60) s))
     == clamp01 (1 * (Qmax 0 (levelC w - levelB w) * 2.0
                      + 0.5 * clamp01 ((1 - levelA w) + levelC w)))
  /\ inUnit (airPressure (updateAirPressure (updateWaterFlow sampleHost (1 # 60) s))).
Proof.
  assert (Hw : unitLevels (waterLevels (construct sampleHost)))
    by (unfold unitLevels, inUnit; cbn; lra).
  assert (Hfi : 0 <= flowIntensity (construct sampleHost)) by (cbn; lra).
  destruct (pressure_formula sampleHost (1 # 60) (construct sampleHost) Hw Hfi)
    as (H1 & _ & H3).
  exact (conj (conj Hw Hfi) (conj H1 H3)).
Defined.

End Exact.

(** * Witnesses for the cycle controller and the pool *)

Lemma isActive_invariant_witness :
  let s := perform sampleHost (call_update 0%Q (1 # 60)%Q)
             (perform sampleHost call_resetSystem (construct sampleHost)) in
  isActive s = true /\ negb (isActive s) = false
  /\ status_isActive (getStatus s) = true.
Proof.
  exact (isActive_invariant sampleHost _
           (reach_perform sampleHost (call_update 0%Q (1 # 60)%Q) _
              (reach_perform sampleHost call_resetSystem _
                 (reach_construct sampleHost)))).
Defined.

Lemma pool_bound_witness :
  let s := perform sampleHost (call_update 0%Q (1 # 60)%Q) (construct sampleHost) in
  (alive (particles s) <= 400)%nat
  /\ (forall n h, (alive (particles (Nat.iter n (emitJet sampleHost h) s)) <= 400)%nat)
  /\ (forall n pos, (alive (particles (splashLoop sampleHost n pos s)) <= 400)%nat)
  /\ (forall dt, (alive (particles (updateWaterFlow sampleHost dt s)) <= 400)%nat
                 /\ (alive (particles (beforeCheck sampleHost dt s)) <= 400)%nat)
  /\ (findFree (particles s) = None ->
      createFountainParticles sampleHost s = s
      /\ forall pos, particles (spawnSplash sampleHost pos s) = particles s).
Proof.
  exact (pool_bound sampleHost _
           (reach_perform sampleHost (call_update 0%Q (1 # 60)%Q) _
              (reach_construct sampleHost))).
Defined.

(** * IEEE 754 binary64: the engine as JavaScript runs it *)

Module IEEE.

Local Open Scope float_scope.
#[local] Set Warnings "-inexact-float".

(** ** The number model on a few values *)

Example literals_are_nearest_doubles :
  lit 0.75 = 0.75 /\ lit 0.26 = 0.26 /\ lit 0.05 = 0.05 /\ lit 9.8 = 9.8
  /\ lit 3.35 = 3.35 /\ lit (-1) = -1 /\ lit 1000 = 1000.
Proof. vm_compute. repeat split; reflexivity. Qed.

Example min_max_nan :
  is_nan (Math_min 1 nan) = true /\ is_nan (Math_max 0 nan) = true
  /\ is_nan (Math_max 0 (Math_min 1 nan)) = true
  /\ Math_max 0 (Math_min 1 infinity) = 1
  /\ Math_max 0 (Math_min 1 neg_infinity) = 0
  /\ Math_max 0 (Math_min 1 (-3.5)) = 0 /\ Math_max 0 (Math_min 1 5) = 1
  /\ Math_min 0.25 0.75 = 0.25 /\ Math_max 0.25 0.75 = 0.75.
Proof. vm_compute. repeat split; reflexivity. Qed.

Example min_max_zeros :
  get_sign (Math_min 0 (-0)) = true /\ get_sign (Math_min (-0) 0) = true
  /\ get_sign (Math_max 0 (-0)) = false /\ get_sign (Math_max (-0) 0) = false.
Proof. vm_compute. repeat split; reflexivity. Qed.

Example floor_round_values :
  Math_floor 22.95 = 22 /\ Math_floor 0.3 = 0 /\ Math_floor (-0.3) = -1
  /\ Math_floor 25 = 25 /\ is_nan (Math_floor nan) = true
  /\ Math_round 25.5 = 26 /\ Math_round 2.5 = 3 /\ Math_round 25.49 = 25
  /\ Math_round (-2.5) = -2 /\ Math_round 99.95 = 100
  /\ get_sign (Math_round (-0.2)) = true.
Proof. vm_compute. repeat split; reflexivity. Qed.

Example loop_bound_values :
  loop_bound 25 = 25%nat /\ loop_bound 25.5 = 26%nat /\ loop_bound 0 = 0%nat
  /\ loop_bound (-3) = 0%nat /\ loop_bound nan = 0%nat.
Proof. vm_compute. repeat split; reflexivity. Qed.

Example comparisons_with_nan :
  (nan <? 1) = false /\ (1 <? nan) = false /\ (nan <=? nan) = false
  /\ (0 * infinity <=? 0.05) = false.
Proof. vm_compute. repeat split; reflexivity. Qed.

(** ** The engine on concrete inputs *)


(* Finite inputs out of range are clamped in binary64 as well: intensity 5
   is stored as 1, and a tick of -3.5 s leaves levels and pressure in
   [0,1]. *)
Lemma finite_inputs_are_clamped :
  let s0 := construct sampleHostF in
  let s1 := tick sampleHostF 0 (-3.5) (setFlowIntensity 5 s0) in
  flowIntensity s1 = 1
  /\ unitLevelsb (waterLevels s1) = true
  /\ inUnitb (airPressure s1) = true.
Proof. vm_compute. repeat split; reflexivity. Qed.

(* The drop of the sum in the second tick, in binary64: far above any
   rounding error. *)
Lemma sum_drops_in_binary64 :
  let s1 := tick sampleHostF 0 (lit (1 # 60)) (construct sampleHostF) in
  let s2 := tick sampleHostF 0 (lit (1 # 60)) s1 in
  isFlipping s2 = false
  /\ (sumLevels (waterLevels s1) - sumLevels (waterLevels s2) >? lit 0.00006)%js = true.
Proof. vm_compute. repeat split; reflexivity. Qed.

(* The level of A after the first tick, in binary64. *)
Lemma top_level_moves_in_binary64 :
  let s1 := tick sampleHostF 0 (lit (1 # 60)) (construct sampleHostF) in
  (levelA (waterLevels s1) >? lit 0.7501)%js = true.
Proof. vm_compute. reflexivity. Qed.

(* The sum of the levels is kept in binary64 only up to rounding, and only
   for a finite time step.  With the flow intensity at 0.5, the first tick
   of 1/60 s (pressure 0, so no riser debit, and no flip) takes the
   computed sum from 2.0099999999999998 to 2.0100000000000002; with the
   flow intensity at 0 and a time step of +Infinity the sum is NaN. *)
Lemma sum_moves_by_rounding :
  let s0 := setFlowIntensity 0.5 (construct sampleHostF) in
  let s1 := tick sampleHostF 0 (lit (1 # 60)) s0 in
  let s2 := tick sampleHostF 0 infinity (setFlowIntensity 0 (construct sampleHostF)) in
  airPressure s0 = 0 /\ isFlipping s1 = false
  /\ sumLevels (waterLevels s0) = 2.0099999999999998
  /\ sumLevels (waterLevels s1) = 2.0100000000000002
  /\ (sumLevels (waterLevels s0) <? sumLevels (waterLevels s1))%js = true
  /\ is_nan (sumLevels (waterLevels s2)) = true.
Proof. vm_compute. repeat split; reflexivity. Qed.

(* Levels that meet the condition of checkAutoFlip before the tick do not
   start a flip in binary64 when the time step is +Infinity and the flow
   intensity 0: the levels of B and C become NaN, and both comparisons of
   checkAutoFlip are false. *)
Lemma no_flip_at_infinite_step :
  let s0 := setFlowIntensity 0 (construct sampleHostF) in
  let full := set_waterLevels (mkLevels (lit 0.75) (lit 0.5) (lit 0.981)) s0 in
  let empty := set_waterLevels (mkLevels (lit 0.75) (lit 0.01) (lit 0.5)) s0 in
  forallb canonical (hoses s0) = true
  /\ isActive s0 = true /\ isFlipping s0 = false
  /\ unitLevelsb (waterLevels full) = true /\ unitLevelsb (waterLevels empty) = true
  /\ (lit 0 <=? flowIntensity s0)%js = true /\ (lit 0 <=? infinity)%js = true
  /\ isFlipping (tick sampleHostF 0 infinity full) = false
  /\ isFlipping (tick sampleHostF 0 infinity empty) = false
  /\ is_nan (levelC (waterLevels (tick sampleHostF 0 infinity full))) = true
  /\ is_nan (levelB (waterLevels (tick sampleHostF 0 infinity empty))) = true.
Proof. vm_compute. repeat split; reflexivity. Qed.

(** C7, counterexample. The recomputed pressure is not always in [0,1] on
    binary64.  From the constructed state with the flow intensity set to 0
    (levels in [0,1], flow intensity in [0,1], air line connected), a time
    step of +Infinity makes the drain amount 0 * Infinity = NaN;
    updateWaterFlow leaves NaN in the levels of B and C, and the pressure
    updateAirPressure then stores is NaN: Math.max(0, Math.min(1, NaN)) is
    NaN. *)
Lemma pressure_nan_counterexample :
  let s0 := setFlowIntensity 0 (construct sampleHostF) in
  let s1 := updateWaterFlow sampleHostF infinity s0 in
  unitLevelsb (waterLevels s0) = true
  /\ inUnitb (flowIntensity s0) = true
  /\ hasAirLine s0 = true
  /\ is_nan (levelB (waterLevels s1)) = true
  /\ is_nan (levelC (waterLevels s1)) = true
  /\ is_nan (airPressure (updateAirPressure s1)) = true
  /\ inUnitb (airPressure (updateAirPressure s1)) = false.
Proof. vm_compute. repeat split; reflexivity. Qed.

End IEEE.

(** * Further properties of the engine, for every number model *)

Section Ripples.

Context {N : Type} {num : JSNumber N}.
Variable host : Host N.

Local Open Scope js_scope.

Lemma activeRipples_emitJet h (s : Fountain N) :
  activeRipples (emitJet host h s) = activeRipples s.
Proof. unfold emitJet. destruct (findFree (particles s)); reflexivity. Qed.

Lemma activeRipples_createFountainParticles (s : Fountain N) :
  activeRipples (createFountainParticles host s) = activeRipples s.
Proof.
  unfold createFountainParticles.
  repeat match goal with
         | |- context [if ?c then _ else _] => destruct c; [reflexivity|]
         end.
  match goal with
  | |- context [Nat.iter ?n (emitJet host ?h) s] => generalize n; generalize h
  end.
  intros h n. induction n as [|n IH]; [reflexivity|].
  simpl. now rewrite activeRipples_emitJet.
Qed.

Lemma activeRipples_splashLoop count pos (s : Fountain N) :
  activeRipples (splashLoop host count pos s) = activeRipples s.
Proof.
  revert s. induction count as [|count IH]; intros s; [reflexivity|].
  simpl. destruct (findFree (particles s)); [|reflexivity].
  cbn. now rewrite IH.
Qed.

Lemma activeRipples_spawnSplash pos (s : Fountain N) :
  activeRipples (spawnSplash host pos s) = activeRipples s.
Proof. unfold spawnSplash. cbn. now rewrite activeRipples_splashLoop. Qed.

Lemma length_removelast_le {X : Type} (l : list X) :
  (length (removelast l) = length l - 1)%nat.
Proof.
  rewrite removelast_firstn_len, length_firstn. lia.
Qed.

Lemma activeRipples_stepParticle dt (s : Fountain N) i :
  (length (activeRipples s) <= maxRipples)%nat ->
  (length (activeRipples (stepParticle host dt s i)) <= maxRipples)%nat.
Proof.
  intros Hs. unfold stepParticle. cbv zeta.
  repeat match goal with
         | |- context [match ?x with _ => _ end] => destruct x eqn:?
         end;
    cbn [activeRipples set_particles set_activeRipples];
    rewrite ?activeRipples_spawnSplash;
    cbn [activeRipples set_particles set_activeRipples];
    try exact Hs.
  all: repeat match goal with
         | H : (_ <? _)%nat = _ |- _ =>
             rewrite ?activeRipples_spawnSplash in H;
             cbn [activeRipples set_particles set_activeRipples length] in H;
             first [apply Nat.ltb_lt in H | apply Nat.ltb_ge in H]
         end.
  all: rewrite ?length_removelast_le; cbn [length] in *; lia.
Qed.


Lemma activeRipples_updateWaterFlow dt (s : Fountain N) :
  activeRipples (updateWaterFlow host dt s) = activeRipples s.
Proof.
  unfold updateWaterFlow, hoseLoop, airLineStep, riserStep.
  cbn [activeRipples set_waterLevels set_airLineConnected].
  assert (Hd : activeRipples (drainStep dt s) = activeRipples s)
    by (unfold drainStep; now destruct (hasDrain s)).
  rewrite <- Hd.
  repeat match goal with
         | |- context [if ?c then _ else _] => destruct c
         end; rewrite ?activeRipples_createFountainParticles; reflexivity.
Qed.

Lemma activeRipples_checkAutoFlip now (s : Fountain N) :
  activeRipples (checkAutoFlip now s) = activeRipples s.
Proof.
  unfold checkAutoFlip, flipSystem.
  repeat match goal with
         | |- context [if ?c then _ else _] => destruct c
         end; reflexivity.
Qed.




Lemma activeRipples_animationFrame now (s : Fountain N) :
  activeRipples (animationFrame now s) = activeRipples s.
Proof.
  unfold animationFrame.
  assert (E : activeRipples s = activeRipples (set_flipSteps [] s)) by reflexivity.
  rewrite E. generalize (set_flipSteps [] s). generalize (flipSteps s).
  intros l. induction l as [|a l IH]; intros s'; [reflexivity|].
  simpl. rewrite IH. unfold step. now destruct (_ <? _).
Qed.



Lemma time_forget (x : Fountain N) : time (forget x) = time x.
Proof. reflexivity. Qed.

Lemma time_spawnSplash pos (s : Fountain N) :
  time (spawnSplash host pos s) = time s.
Proof.
  rewrite <- (time_forget (spawnSplash host pos s)), forget_spawnSplash.
  apply time_forget.
Qed.

Lemma time_stepParticle dt (s : Fountain N) i :
  time (stepParticle host dt s i) = time s.
Proof.
  rewrite <- (time_forget (stepParticle host dt s i)), forget_stepParticle.
  apply time_forget.
Qed.

(* unshift, then pop when the buffer is longer than maxRipples: the new
   entry and the five entries before it stay. *)
Lemma push_keeps_newest {X : Type} (r : X) (l : list X) :
  (length l <= maxRipples)%nat ->
  (if (maxRipples <? length (r :: l))%nat then removelast (r :: l) else r :: l)
  = r :: firstn 5 l.
Proof.
  unfold maxRipples. intros Hl.
  destruct (Nat.ltb_spec 6 (length (r :: l))) as [H|H]; cbn [length] in H.
  - rewrite removelast_firstn_len. cbn [length Nat.pred].
    assert (E : length l = 6%nat) by lia. rewrite E. reflexivity.
  - now rewrite firstn_all2 by lia.
Qed.

(* What one turn of the forEach of updateParticles does to the buffer. *)
Lemma ripples_stepParticle dt (s : Fountain N) i :
  (length (activeRipples s) <= maxRipples)%nat ->
  activeRipples (stepParticle host dt s i) = activeRipples s
  \/ exists c, activeRipples (stepParticle host dt s i)
              = mkRipple c (time s) (lit 1) :: firstn 5 (activeRipples s).
Proof.
  intros Hs. unfold stepParticle.
  destruct (particles s !! i) as [q|]; [|now left].
  cbv zeta.
  rewrite !time_spawnSplash, !activeRipples_spawnSplash.
  cbn [activeRipples time set_particles].
  rewrite push_keeps_newest by exact Hs.
  repeat match goal with
         | |- context [if ?c then _ else _] => destruct c
         end;
    cbn [activeRipples set_particles set_activeRipples];
    first [left; reflexivity | right; eexists; reflexivity].
Qed.


End Ripples.

Section TickOutcome.

Context {N : Type} {num : JSNumber N}.
Variable host : Host N.

Local Open Scope js_scope.

Lemma checked_hoses_time now dt (s : Fountain N) :
  hoses (checkAutoFlip now (beforeCheck host dt s)) = hoses s
  /\ time (checkAutoFlip now (beforeCheck host dt s)) = time s.
Proof.
  pose proof (forget_checkAutoFlip now _ _ (beforeCheck_forget host dt s)) as H.
  assert (Hc : hoses (checkAutoFlip now (checkedState dt s)) = hoses s
               /\ time (checkAutoFlip now (checkedState dt s)) = time s).
  { unfold checkAutoFlip, flipSystem.
    repeat match goal with
           | |- context [if ?c then _ else _] => destruct c
           end; split; reflexivity. }
  destruct Hc as (Hh & Ht).
  assert (Fh : forall x : Fountain N, hoses (forget x) = hoses x) by reflexivity.
  assert (Ft : forall x : Fountain N, time (forget x) = time x) by reflexivity.
  revert H Hh Ht.
  generalize (checkAutoFlip now (checkedState dt s)).
  generalize (checkAutoFlip now (beforeCheck host dt s)).
  intros x y H Hh Ht. split.
  - rewrite <- (Fh x), H, Fh. exact Hh.
  - rewrite <- (Ft x), H, Ft. exact Ht.
Qed.

Lemma updateHoses_ok_hoses (a b : Fountain N) :
  hoses a = hoses b -> updateHoses_ok a = updateHoses_ok b.
Proof. unfold updateHoses_ok. now intros ->. Qed.

(** X2. update on an active engine ends in a TypeError exactly when some
    hose has no anchor objects (a hose made by addHose or addHoseCurved):
    updateHoses dereferences hose.startObj.  The call then stops before
    the clock advances, so this.time stays, while a call that returns
    advances this.time by deltaTime.  Either way the hose list is left as it
    was. *)
Theorem update_outcome now dt (s : Fountain N) :
  isActive s = true ->
  fst (update host now dt s) = (if updateHoses_ok s then Returned else Threw)
  /\ time (tick host now dt s) = (if updateHoses_ok s then time s + dt else time s)
  /\ hoses (tick host now dt s) = hoses s.
Proof.
  intros Ha. unfold tick, update. rewrite Ha. cbn [negb]. cbv zeta.
  destruct (checked_hoses_time now dt s) as (Hh & Ht).
  rewrite (updateHoses_ok_hoses _ _ Hh).
  revert Hh Ht. generalize (checkAutoFlip now (beforeCheck host dt s)).
  intros s1 Hh Ht.
  destruct (updateHoses_ok s); cbn [fst snd].
  - unfold advanceTime. cbn [time hoses set_activeRipples set_time].
    rewrite Ht. repeat split. exact Hh.
  - repeat split; assumption.
Qed.

Lemma checkAutoFlip_result now (s : Fountain N) :
  let fires := negb (isFlipping s) && flipCondition (waterLevels s) in
  waterLevels (checkAutoFlip now s)
    = (if fires then swapLevels (waterLevels s) else waterLevels s)
  /\ airPressure (checkAutoFlip now s) = (if fires then lit 0 else airPressure s)
  /\ isFlipping (checkAutoFlip now s) = isFlipping s || flipCondition (waterLevels s)
  /\ flipSteps (checkAutoFlip now s)
     = (if fires then flipSteps s ++ [now] else flipSteps s).
Proof.
  unfold checkAutoFlip, flipSystem, flipCondition, swapLevels. cbv zeta.
  destruct (isFlipping s) eqn:Hf; cbn [negb andb orb];
    [repeat split; exact Hf|].
  match goal with
  | |- context [if ?c then animateFlip _ _ else _] => destruct c
  end; cbn; rewrite ?Hf; repeat split.
Qed.

(** X4. What one tick of an active engine leaves behind: the levels are
    those after transfer and clamping, with B and C exchanged if the tick
    starts a flip; the pressure is the recomputed one, or 0 if the tick
    starts a flip; a flip is started exactly when none is in progress and
    the checked levels have C >= 0.98 or B <= 0.02, and then one transition
    closure is registered.  In particular a tick during a flip never swaps
    the levels again and registers nothing. *)
Theorem tick_result now dt (s : Fountain N) :
  isActive s = true ->
  let w := checkedLevels dt s in
  let fires := negb (isFlipping s) && flipCondition w in
  waterLevels (tick host now dt s) = (if fires then swapLevels w else w)
  /\ airPressure (tick host now dt s)
     = (if fires then lit 0 else pressureOf (hasAirLine s) (flowLevels dt s))
  /\ isFlipping (tick host now dt s) = isFlipping s || flipCondition w
  /\ flipSteps (tick host now dt s)
     = (if fires then flipSteps s ++ [now] else flipSteps s).
Proof.
  intros Ha. cbv zeta.
  rewrite (tick_read host waterLevels now dt s blind_waterLevels Ha).
  rewrite (tick_read host airPressure now dt s blind_airPressure Ha).
  rewrite (tick_read host isFlipping now dt s blind_isFlipping Ha).
  rewrite (tick_read host flipSteps now dt s blind_flipSteps Ha).
  destruct (checkAutoFlip_result now (checkedState dt s)) as (H1 & H2 & H3 & H4).
  rewrite H1, H2, H3, H4.
  destruct (checkedState_reads dt s) as (E1 & E2 & _ & E4).
  rewrite E1, E2, E4. repeat split.
Qed.

End TickOutcome.

Section Topology.

Context {N : Type} {num : JSNumber N}.
Variable host : Host N.

Local Open Scope js_scope.

Lemma Key_eqb_eq (k1 k2 : Key) : Key_eqb k1 k2 = true <-> k1 = k2.
Proof. destruct k1, k2; simpl; split; congruence. Qed.

Lemma filter_filter_same {X : Type} (f : X -> bool) (l : list X) :
  List.filter f (List.filter f l) = List.filter f l.
Proof.
  induction l as [|x l IH]; [reflexivity|].
  simpl. destruct (f x) eqn:E; [|exact IH]. simpl. now rewrite E, IH.
Qed.

Lemma existsb_filter_none {X : Type} (f g : X -> bool) (l : list X) :
  (forall x, f x = true -> g x = false) ->
  existsb f (List.filter g l) = false.
Proof.
  intros H. induction l as [|x l IH]; [reflexivity|].
  simpl. destruct (g x) eqn:E; [|exact IH].
  simpl. rewrite IH. destruct (f x) eqn:F; [|reflexivity].
  apply H in F. congruence.
Qed.

(** X5. removeHosesForContainer(k) keeps exactly the hoses that neither
    start nor end at k, and doing it twice changes nothing more.  Every
    container carries two of the three canonical paths, so afterwards the
    drain and the riser are disconnected for k = 'A', the air line and the
    riser for k = 'B', the drain and the air line for k = 'C'.  Levels and
    pressure are not touched. *)
Theorem removeHosesForContainer_effect k (s : Fountain N) :
  let s' := removeHosesForContainer k s in
  (forall h, In h (hoses s') <-> In h (hoses s) /\ touches k h = false)
  /\ removeHosesForContainer k s' = s'
  /\ match k with
     | A => hasDrain s' = false /\ hasRiser s' = false
     | B => hasAirLine s' = false /\ hasRiser s' = false
     | C => hasDrain s' = false /\ hasAirLine s' = false
     end
  /\ waterLevels s' = waterLevels s /\ airPressure s' = airPressure s.
Proof.
  cbv zeta. split; [|split; [|split]].
  - intros h. unfold removeHosesForContainer. cbn [hoses set_hoses].
    rewrite List.filter_In, negb_true_iff. reflexivity.
  - unfold removeHosesForContainer. cbn [hoses set_hoses].
    rewrite filter_filter_same. reflexivity.
  - unfold hasDrain, hasRiser, hasAirLine, removeHosesForContainer.
    cbn [hoses set_hoses].
    destruct k; split; apply existsb_filter_none; intros h;
      unfold isDrain, isRiser, isAirLine, touches;
      destruct (from h), (to h), (is_port (startObj h) _), (is_port (endObj h) _);
      cbn; try discriminate; reflexivity.
  - split; reflexivity.
Qed.

(** X6. handleContainerClick, starting with no container selected: a
    second click on the same container cancels the selection and leaves the
    engine as it was; a second click on another container adds exactly the
    hose addHose makes from the first to the second, and clears the
    selection.  That hose has no anchor objects, so updateHoses will fail
    on it. *)
Theorem handleContainerClick_pairs k1 k2 (s : Fountain N) :
  pendingHoseStart s = None ->
  handleContainerClick k1 (handleContainerClick k1 s) = s
  /\ (k1 <> k2 ->
      handleContainerClick k2 (handleContainerClick k1 s) = addHose k1 k2 s
      /\ pendingHoseStart (handleContainerClick k2 (handleContainerClick k1 s)) = None
      /\ updateHoses_ok (handleContainerClick k2 (handleContainerClick k1 s)) = false).
Proof.
  intros Hp. destruct s as [h ps pa w ap fi ia t st ar ifl ay al sp rc fs].
  cbn in Hp. subst ps. unfold handleContainerClick.
  cbn [pendingHoseStart set_pendingHoseStart]. split.
  - assert (E : Key_eqb k1 k1 = true) by now apply Key_eqb_eq.
    rewrite E. reflexivity.
  - intros Hne.
    assert (E : Key_eqb k1 k2 = false).
    { destruct (Key_eqb k1 k2) eqn:E; [|reflexivity]. apply Key_eqb_eq in E. contradiction. }
    rewrite E. split; [reflexivity|]. split; [reflexivity|].
    unfold updateHoses_ok, addHose. cbn [hoses set_hoses set_pendingHoseStart].
    rewrite forallb_app. cbn. apply andb_false_r.
Qed.

(* A click never makes a hose from a container to itself. *)
Lemma handleContainerClick_no_self_hose k (s : Fountain N) :
  hoses (handleContainerClick k s) = hoses s
  \/ exists f, f <> k /\ hoses (handleContainerClick k s)
                        = hoses s ++ [mkHose f k None None].
Proof.
  unfold handleContainerClick. destruct (pendingHoseStart s) as [f|]; [|now left].
  destruct (Key_eqb f k) eqn:E; [now left|].
  right. exists f. split; [|reflexivity].
  intros ->. assert (H : Key_eqb k k = true) by now apply Key_eqb_eq. congruence.
Qed.

(** X7. Two flips in a row, the second after the first transition has
    completed, put the levels back: flipSystem exchanges B and C each
    time. *)
Theorem flip_twice_restores now1 now2 frame (s : Fountain N) :
  isFlipping s = false ->
  isFlipping (animationFrame frame (flipSystem now1 s)) = false ->
  waterLevels (flipSystem now2 (animationFrame frame (flipSystem now1 s)))
  = waterLevels s
  /\ waterLevels (flipSystem now1 s) = swapLevels (waterLevels s).
Proof.
  intros Hf Hdone.
  destruct (animationFrame_reads frame (flipSystem now1 s)) as (Hw & _).
  assert (H1 : waterLevels (flipSystem now1 s) = swapLevels (waterLevels s)).
  { unfold flipSystem. now rewrite Hf. }
  split; [|exact H1].
  revert Hdone Hw. generalize (animationFrame frame (flipSystem now1 s)).
  intros s2 Hdone Hw. unfold flipSystem at 1. rewrite Hdone.
  cbn [waterLevels animateFlip set_flipSteps set_sidePivot set_isFlipping
       set_isActive set_airPressure set_waterLevels].
  rewrite Hw, H1. unfold swapLevels. cbn. now destruct (waterLevels s).
Qed.

End Topology.

Section PoolCounts.

Context {N : Type} {num : JSNumber N}.
Variable host : Host N.

Local Open Scope js_scope.

Lemma alive_cons (p : Particle N) l :
  alive (p :: l) = ((if visible p then 1 else 0) + alive l)%nat.
Proof. unfold alive. simpl. now destruct (visible p). Qed.

Lemma alive_zero_lookup (l : list (Particle N)) i p :
  alive l = O -> l !! i = Some p -> visible p = false.
Proof.
  revert i. induction l as [|q l IH]; intros i H0 Hl; [discriminate|].
  rewrite alive_cons in H0. destruct i as [|i]; cbn in Hl.
  - injection Hl as ->. destruct (visible p); [discriminate|reflexivity].
  - apply (IH i); [lia|exact Hl].
Qed.

(** X8. With no particle alive updateParticles changes nothing: the
    forEach skips every hidden slot. *)
Theorem updateParticles_idle dt (s : Fountain N) :
  alive (particles s) = O -> updateParticles host dt s = s.
Proof.
  intros H0. unfold updateParticles. generalize (seq 0 (length (particles s))).
  intros is_. induction is_ as [|i is_ IH]; [reflexivity|].
  simpl. assert (E : stepParticle host dt s i = s).
  { unfold stepParticle. destruct (particles s !! i) as [p|] eqn:Hl; [|reflexivity].
    now rewrite (alive_zero_lookup _ _ _ H0 Hl). }
  rewrite E. exact IH.
Qed.

Lemma alive_insert_free (l : list (Particle N)) i q :
  findFree l = Some i -> visible q = true ->
  alive (<[i:=q]> l) = S (alive l).
Proof.
  revert i. induction l as [|p l IH]; intros i Hf Hq; [discriminate|].
  simpl in Hf. destruct (visible p) eqn:Hp.
  - destruct (findFree l) as [j|]; [|discriminate]. injection Hf as <-.
    change (<[S j:=q]> (p :: l)) with (p :: <[j:=q]> l).
    rewrite !alive_cons, Hp, (IH j eq_refl Hq). lia.
  - injection Hf as <-. change (<[O:=q]> (p :: l)) with (q :: l).
    rewrite !alive_cons, Hp, Hq. lia.
Qed.

Lemma alive_emitJet h (s : Fountain N) :
  alive (particles (emitJet host h s))
  = Nat.min (alive (particles s) + 1) (length (particles s)).
Proof.
  pose proof (alive_le_length (particles s)) as Hle.
  unfold emitJet. destruct (findFree (particles s)) as [i|] eqn:Hf.
  - unfold Math_random. cbn [particles set_particles set_randomCalls].
    erewrite alive_insert_free; [|exact Hf|reflexivity].
    assert (Hn : alive (particles s) <> length (particles s)).
    { intros E. apply findFree_None in E. congruence. }
    lia.
  - apply findFree_None in Hf. lia.
Qed.

Lemma alive_iter_emitJet n h (s : Fountain N) :
  alive (particles (Nat.iter n (emitJet host h) s))
  = Nat.min (alive (particles s) + n) (length (particles s)).
Proof.
  pose proof (alive_le_length (particles s)) as Hle.
  induction n as [|n IH]; simpl; [lia|].
  rewrite alive_emitJet, IH, length_iter_emitJet. lia.
Qed.

Lemma alive_splashLoop n pos (s : Fountain N) :
  alive (particles (splashLoop host n pos s))
  = Nat.min (alive (particles s) + n) (length (particles s)).
Proof.
  revert s. induction n as [|n IH]; intros s;
    pose proof (alive_le_length (particles s)) as Hle; simpl; [lia|].
  destruct (findFree (particles s)) as [i|] eqn:Hf.
  - unfold Math_random. cbn [set_randomCalls particles].
    rewrite IH. cbn [particles set_particles].
    erewrite alive_insert_free; [|exact Hf|reflexivity].
    rewrite length_insert.
    assert (Hn : alive (particles s) <> length (particles s)).
    { intros E. apply findFree_None in E. congruence. }
    lia.
  - apply findFree_None in Hf. lia.
Qed.

(** X9. A jet burst and a splash burst each raise the number of alive
    particles by the number of spawn requests, as far as the pool has free
    slots: n requests from a pool with a alive particles of L slots leave
    min(a + n, L) alive.  createFountainParticles makes
    loop_bound(max(25, floor((0.5 + flowIntensity) * pressure * 120)))
    requests when the spout tip exists, the air-line flag is set and the
    pressure is not <= 0.05, and none otherwise. *)
Theorem burst_counts n h pos (s : Fountain N) :
  alive (particles (Nat.iter n (emitJet host h) s))
  = Nat.min (alive (particles s) + n) (length (particles s))
  /\ alive (particles (splashLoop host n pos s))
     = Nat.min (alive (particles s) + n) (length (particles s))
  /\ alive (particles (createFountainParticles host s))
     = (if spoutTip s && airLineConnected s && negb (airPressure s <=? lit 0.05)
        then Nat.min (alive (particles s)
                      + loop_bound
                          (Math_max (lit 25)
                             (Math_floor ((lit 0.5 + flowIntensity s)
                                          * airPressure s * lit 120))))
                     (length (particles s))
        else alive (particles s)).
Proof.
  split; [apply alive_iter_emitJet|]. split; [apply alive_splashLoop|].
  unfold createFountainParticles.
  destruct (spoutTip s); cbn [negb andb]; [|reflexivity].
  destruct (airLineConnected s); cbn [negb andb]; [|reflexivity].
  destruct (airPressure s <=? lit 0.05); cbn [negb]; [reflexivity|].
  apply alive_iter_emitJet.
Qed.

End PoolCounts.

(** * reset.js: the wrapper's guard *)

Section ResetGuard.

Context {N : Type} {num : JSNumber N}.
Variable host : Host N.

Local Open Scope js_scope.

Lemma reachable_isActive (s : Fountain N) : Reachable host s -> isActive s = true.
Proof.
  induction 1 as [|c s _ IH]; [reflexivity|]. now apply isActive_perform.
Qed.

Lemma page_fountain_reachable (r : Reset N) :
  PageReachable host r -> Reachable host (fountain r).
Proof.
  induction 1 as [|c r _ IH]; [apply reach_construct|].
  destruct c; cbn [page_perform].
  - unfold Reset_flipSystem. destruct (isAnimating r); [exact IH|].
    apply (reach_perform host (call_flipSystem now)), IH.
  - unfold Reset_resetSystem. destruct (isAnimating r); [exact IH|].
    apply (reach_perform host call_resetSystem), IH.
  - unfold Reset_checkSystemComplete. cbv zeta. now destruct (_ && _).
  - unfold Reset_timeout. destruct (timeouts r !! i) as [[d [m| |m]]|]; exact IH.
  - apply (reach_perform host c), IH.
Qed.

(** X10. checkSystemComplete never schedules its message: it asks for a
    status with isActive false, and the fountain of a page is always
    active.  The call leaves the wrapper as it is. *)
Theorem checkSystemComplete_inert (r : Reset N) :
  PageReachable host r -> Reset_checkSystemComplete r = r.
Proof.
  intros Hr. unfold Reset_checkSystemComplete. cbv zeta.
  unfold getStatus. cbn [status_isActive].
  now rewrite (reachable_isActive _ (page_fountain_reachable r Hr)).
Qed.

Lemma count_delete {X : Type} (f : X -> bool) (l : list X) i x :
  l !! i = Some x ->
  length (List.filter f l)
  = ((if f x then 1 else 0) + length (List.filter f (delete i l)))%nat.
Proof.
  revert i. induction l as [|y l IH]; intros i Hi; [discriminate Hi|].
  destruct i as [|i].
  - injection Hi as ->. change (delete 0%nat (x :: l)) with l.
    cbn [List.filter]. destruct (f x); reflexivity.
  - change (delete (S i) (y :: l)) with (y :: delete i l).
    change ((y :: l) !! S i) with (l !! i) in Hi.
    cbn [List.filter]. destruct (f y); cbn [length]; rewrite (IH i Hi); lia.
Qed.

Lemma forallb_delete {X : Type} (f : X -> bool) (l : list X) i :
  forallb f l = true -> forallb f (delete i l) = true.
Proof.
  revert i. induction l as [|y l IH]; intros i Hl; [destruct i; exact Hl|].
  cbn [forallb] in Hl. apply andb_true_iff in Hl. destruct Hl as (Hy & Hl).
  destruct i as [|i].
  - change (delete 0%nat (y :: l)) with l. exact Hl.
  - change (delete (S i) (y :: l)) with (y :: delete i l).
    cbn [forallb]. now rewrite Hy, (IH i Hl).
Qed.

Lemma count_app {X : Type} (f : X -> bool) (l1 l2 : list X) :
  length (List.filter f (l1 ++ l2))
  = (length (List.filter f l1) + length (List.filter f l2))%nat.
Proof. now rewrite List.filter_app, length_app. Qed.

(** X11. On every page state, isAnimating is set exactly while one
    timeout that clears it is pending, and never two: flipSystem and
    resetSystem of the wrapper set such a timeout only when isAnimating is
    clear, and only its callback clears the flag.  Every other pending
    timeout is one of the 2000 ms timeouts of UI.showMessage that remove a
    message (the wrapper shows one at each flip or reset and one more when
    the flag is cleared); the timeout of checkSystemComplete is never
    pending. *)
Theorem isAnimating_invariant (r : Reset N) :
  PageReachable host r ->
  length (List.filter clears (timeouts r))
  = (if isAnimating r then 1 else 0)%nat
  /\ forallb (fun t => clears t || removes t) (timeouts r) = true.
Proof.
  intros Hr. induction Hr as [|c r Hr (IHn & IHa)]; [split; reflexivity|].
  destruct c; cbn [page_perform].
  - unfold Reset_flipSystem, UI_showMessage. destruct (isAnimating r) eqn:Ha.
    + rewrite Ha. now split.
    + cbn [isAnimating timeouts]. rewrite !count_app, !forallb_app, IHn, IHa.
      split; reflexivity.
  - unfold Reset_resetSystem, UI_showMessage. destruct (isAnimating r) eqn:Ha.
    + rewrite Ha. now split.
    + cbn [isAnimating timeouts]. rewrite !count_app, !forallb_app, IHn, IHa.
      split; reflexivity.
  - rewrite (checkSystemComplete_inert r Hr). now split.
  - unfold Reset_timeout, UI_showMessage.
    destruct (timeouts r !! i) as [[d cb]|] eqn:Hi; [|now split].
    pose proof (count_delete clears _ _ _ Hi) as Hc.
    pose proof (forallb_delete _ _ i IHa) as Hd.
    destruct cb as [m| |m]; cbn [isAnimating timeouts];
      rewrite ?count_app, ?forallb_app, Hd;
      cbn [clears removes snd] in Hc; cbn [List.filter clears removes snd length forallb orb andb].
    + split; [|reflexivity]. destruct (isAnimating r); lia.
    + split; [|reflexivity]. lia.
    + split; [|reflexivity]. lia.
  - cbn [isAnimating timeouts]. now split.
Qed.

Lemma through_fountain_isAnimating cs (r : Reset N) :
  isAnimating (through_fountain host cs r) = isAnimating r.
Proof.
  unfold through_fountain. revert r.
  induction cs as [|c cs IH]; intros r; [reflexivity|].
  simpl. now rewrite IH.
Qed.

(** X12. After a flip or a reset requested through the wrapper, and
    whatever calls reach the fountain meanwhile, a further flipSystem or
    resetSystem of the wrapper does nothing until the timeout callback has
    run: a Reset click in the 1.5 s after a Flip click is ignored, and so
    is a Flip click in the 1 s after a Reset click. *)
Theorem wrapper_ignores_while_animating now now' cs (r : Reset N) :
  let after_flip := through_fountain host cs (Reset_flipSystem now r) in
  let after_reset := through_fountain host cs (Reset_resetSystem r) in
  Reset_resetSystem after_flip = after_flip
  /\ Reset_flipSystem now' after_flip = after_flip
  /\ Reset_flipSystem now' after_reset = after_reset
  /\ Reset_resetSystem after_reset = after_reset.
Proof.
  cbv zeta.
  assert (Hf : isAnimating (through_fountain host cs (Reset_flipSystem now r)) = true).
  { rewrite through_fountain_isAnimating. unfold Reset_flipSystem.
    destruct (isAnimating r) eqn:E; [exact E|reflexivity]. }
  assert (Hr : isAnimating (through_fountain host cs (Reset_resetSystem r)) = true).
  { rewrite through_fountain_isAnimating. unfold Reset_resetSystem.
    destruct (isAnimating r) eqn:E; [exact E|reflexivity]. }
  assert (G1 : forall x : Reset N, isAnimating x = true -> Reset_resetSystem x = x).
  { intros x Hx. unfold Reset_resetSystem. now rewrite Hx. }
  assert (G2 : forall x : Reset N, isAnimating x = true ->
                 Reset_flipSystem now' x = x).
  { intros x Hx. unfold Reset_flipSystem. now rewrite Hx. }
  repeat split; auto.
Qed.

End ResetGuard.

(** * Hoses drawn by the user *)

Section UserHoses.

Context {N : Type} {num : JSNumber N}.

Local Open Scope js_scope.

Lemma existsb_snoc {X : Type} (f : X -> bool) l x :
  f x = false -> existsb f (l ++ [x]) = existsb f l.
Proof. intros H. rewrite existsb_app. cbn. rewrite H. now rewrite !orb_false_r. Qed.

Lemma chooseDefaultPort_side f t :
  In (chooseDefaultPort f t) [A_right; B_left; B_right; C_left; C_right].
Proof. destruct f, t; cbn; tauto. Qed.

Lemma freeform_not_canonical f t :
  canonical (mkHose f t (Some (chooseDefaultPort f t))
                        (Some (chooseDefaultPort t f))) = false.
Proof. now destruct f, t. Qed.

Lemma canonical_parts h :
  canonical h = false -> isDrain h = false /\ isRiser h = false /\ isAirLine h = false.
Proof.
  unfold canonical. destruct (isDrain h), (isAirLine h), (isRiser h);
    cbn; intros E; try discriminate E; repeat split.
Qed.

(** X13. A hose drawn by the user is never one of the three canonical
    connections: addHose, addHoseCurved and addFreeformHoseWithPoints leave
    hasDrain, hasRiser and hasAirLine as they are, between any two
    containers (the freeform ports are 'left' or 'right' ports only).  A
    freeform hose has both anchors and keeps update from throwing exactly
    if it did not throw before; an addHose or addHoseCurved hose has none,
    so every later update throws. *)
Theorem user_hoses_not_canonical f t (s : Fountain N) :
  (forall add, In add [addHose f t; addHoseCurved f t;
                       addFreeformHoseWithPoints f t] ->
     hasDrain (add s) = hasDrain s /\ hasRiser (add s) = hasRiser s
     /\ hasAirLine (add s) = hasAirLine s)
  /\ updateHoses_ok (addFreeformHoseWithPoints f t s) = updateHoses_ok s
  /\ updateHoses_ok (addHose f t s) = false
  /\ updateHoses_ok (addHoseCurved f t s) = false.
Proof.
  split.
  - intros add [<-|[<-|[<-|[]]]]; unfold hasDrain, hasRiser, hasAirLine;
      cbn [addHose addHoseCurved addFreeformHoseWithPoints hoses set_hoses].
    1,2: assert (Hc : canonical (mkHose f t None None) = false)
           by (now destruct f, t);
         destruct (canonical_parts _ Hc) as (H1 & H2 & H3);
         now rewrite !existsb_snoc.
    destruct (canonical_parts _ (freeform_not_canonical f t)) as (H1 & H2 & H3).
    now rewrite !existsb_snoc.
  - unfold updateHoses_ok.
    cbn [addHose addHoseCurved addFreeformHoseWithPoints hoses set_hoses].
    rewrite !forallb_app. cbn. rewrite !andb_true_r, !andb_false_r.
    repeat split.
Qed.

End UserHoses.

(** * Exact arithmetic: what a page sees and what a reset leaves *)

Module Behaviour.

Import Exact.

Local Open Scope Q_scope.

Lemma round_percentage (v : Q) :
  inUnit v -> percentage (Math_round (v * lit 100)%js).
Proof.
  intros (H0 & H1). js_to_Q. cbn [Math_round Q_number].
  eexists. split; [reflexivity|]. split.
  - change 0%Z with (Qfloor 0). apply Qfloor_resp_le. lra.
  - apply Z.le_trans with (Qfloor (100 + (1 # 2))).
    + apply Qfloor_resp_le. lra.
    + vm_compute. discriminate.
Qed.

(** X14. In every reachable state the four numbers of getStatus are whole
    percentages between 0 and 100. *)
Theorem status_percentages host (s : Fountain Q) :
  Reachable host s ->
  percentage (containerA (getStatus s)) /\ percentage (containerB (getStatus s))
  /\ percentage (containerC (getStatus s)) /\ percentage (pressure (getStatus s)).
Proof.
  intros Hr. destruct (reachable_unit host s Hr) as ((HA & HB & HC) & Hp & _).
  unfold getStatus. cbn [containerA containerB containerC pressure].
  repeat split; now apply round_percentage.
Qed.

(** ** After a reset *)

Lemma hoses_tick host now dt (s : Fountain Q) :
  hoses (tick host now dt s) = hoses s.
Proof.
  destruct (isActive s) eqn:Ha; [|now rewrite (tick_inactive host now dt s Ha)].
  rewrite (tick_read host hoses now dt s blind_hoses Ha).
  unfold checkAutoFlip, flipSystem.
  repeat match goal with
         | |- context [if ?c then _ else _] => destruct c
         end; reflexivity.
Qed.

Lemma flowLevels_no_hoses dt (s : Fountain Q) :
  hoses s = [] -> flowLevels dt s = waterLevels s.
Proof.
  intros Hh.
  assert (Hd : drainStep dt s = s) by (unfold drainStep, hasDrain; now rewrite Hh).
  unfold flowLevels. rewrite Hd, Hh.
  unfold riserLevels, riserGate, hasRiser. now rewrite Hh.
Qed.

Lemma initial_not_flipped (w : WaterLevels Q) :
  sameLevels w initialLevels ->
  sameLevels (clampLevels w) initialLevels /\ flipCondition (clampLevels w) = false.
Proof.
  unfold sameLevels, initialLevels, clampLevels, flipCondition.
  cbn [levelA levelB levelC]. js_to_Q. intros (HA & HB & HC).
  assert (EB : Qmax 0 (Qmin 1 (levelB w)) == levelB w)
    by (apply clamp_id; unfold inUnit; lra).
  assert (EC : Qmax 0 (Qmin 1 (levelC w)) == levelC w)
    by (apply clamp_id; unfold inUnit; lra).
  split; [repeat split; lra|].
  apply orb_false_iff. split; apply leb_false_iff; lra.
Qed.

Lemma tick_stalled host now dt (s : Fountain Q) :
  stalled s -> stalled (tick host now dt s).
Proof.
  intros (Hh & Ha & Hf & Hw).
  destruct (initial_not_flipped (waterLevels s) Hw) as (Hw' & Hc).
  split; [now rewrite hoses_tick|].
  split; [now apply isActive_tick|].
  rewrite (tick_read host isFlipping now dt s blind_isFlipping Ha).
  rewrite (tick_read host waterLevels now dt s blind_waterLevels Ha).
  destruct (checkedState_reads dt s) as (E1 & _ & _ & E4).
  destruct (checkAutoFlip_result now (checkedState dt s)) as (R1 & _ & R3 & _).
  rewrite R1, R3, E1, E4, Hf. unfold checkedLevels.
  rewrite (flowLevels_no_hoses dt s Hh), Hc. cbn [negb andb orb].
  split; [reflexivity|exact Hw'].
Qed.

Lemma isFlipping_animationFrame now (s : Fountain Q) :
  isFlipping s = false -> isFlipping (animationFrame now s) = false.
Proof.
  unfold animationFrame.
  change (isFlipping s) with (isFlipping (set_flipSteps [] s)).
  generalize (set_flipSteps [] s). generalize (flipSteps s).
  intros starts. induction starts as [|a starts IH]; intros x Hx; [exact Hx|].
  simpl. apply IH. unfold step. destruct (_ <? _)%js; [exact Hx|reflexivity].
Qed.

Lemma quiet_stalled host c (s : Fountain Q) :
  quiet c = true -> stalled s -> stalled (perform host c s).
Proof.
  intros Hq Hs. destruct c; try discriminate Hq; cbn [perform].
  - now apply tick_stalled.
  - unfold stalled, sameLevels, initialLevels. cbn. destruct Hs as (_ & _ & _ & _).
    repeat split; reflexivity.
  - exact Hs.
  - destruct Hs as (Hh & Ha & Hf & Hw). unfold stalled.
    cbn [removeHosesForContainer hoses set_hoses isActive isFlipping waterLevels].
    rewrite Hh. repeat split; assumption || apply Hw.
  - destruct Hs as (Hh & Ha & Hf & Hw).
    pose proof (animationFrame_rest now s false []) as H.
    destruct (animationFrame_reads now s) as (Ew & _ & _ & Ea).
    split; [rewrite <- Hh; exact (f_equal hoses H)|]. split; [now rewrite Ea|].
    split; [now apply isFlipping_animationFrame|now rewrite Ew].
Qed.

(** X15. resetSystem empties the hose list, and nothing but
    addDefaultDiagramHoses or a hose drawn by hand puts one back: after a
    reset, however many ticks (of any time step), animation frames, slider
    moves, context-menu removals and further resets follow, the levels
    stay at A 0.75, B 1.0, C 0.26, no flip starts and the hose list stays
    empty.  The fountain does not run again by itself. *)
Theorem reset_stalls host cs (s : Fountain Q) :
  forallb quiet cs = true ->
  let s' := performAll host cs (resetSystem s) in
  sameLevels (waterLevels s') initialLevels
  /\ hoses s' = [] /\ isFlipping s' = false.
Proof.
  intros Hq. cbv zeta.
  assert (H : stalled (performAll host cs (resetSystem s))).
  { assert (H0 : stalled (resetSystem s)).
    { unfold stalled, sameLevels, initialLevels. cbn. repeat split; reflexivity. }
    revert H0. generalize (resetSystem s). unfold performAll.
    induction cs as [|c cs IH]; intros x Hx; [exact Hx|].
    cbn [forallb] in Hq. apply andb_true_iff in Hq. destruct Hq as (Hc & Hcs).
    simpl. apply (IH Hcs). now apply quiet_stalled. }
  destruct H as (Hh & _ & Hf & Hw). repeat split; assumption || apply Hw.
Qed.

(** ** Transitions left over by a reset *)

Lemma fold_step frame starts (x : Fountain Q) :
  isFlipping (fold_left (step frame) starts x)
  = isFlipping x && forallb (underWay frame) starts
  /\ flipSteps (fold_left (step frame) starts x)
     = flipSteps x ++ List.filter (underWay frame) starts.
Proof.
  revert x. induction starts as [|a starts IH]; intros x.
  - cbn. now rewrite andb_true_r, app_nil_r.
  - cbn [fold_left forallb List.filter]. destruct (IH (step frame x a)) as (I1 & I2).
    rewrite I1, I2. unfold step. fold (underWay frame a).
    destruct (underWay frame a); cbn [isFlipping flipSteps set_flipSteps set_isFlipping andb].
    + split; [reflexivity|]. now rewrite <- app_assoc.
    + split; [now rewrite andb_false_r|reflexivity].
Qed.

Lemma underWay_iff (frame start : Q) :
  underWay frame start = true <-> frame - start < 1000.
Proof. apply flip_duration. Qed.

(** X16. resetSystem clears isFlipping but not the transition closure of a
    flip under way.  If a flip is started at now0, the engine is reset and
    a second flip is started at now1, then the first frame that comes
    1000 ms or more after now0 lets the old closure clear isFlipping while
    the transition of the second flip is still under way (its closure
    stays registered): the guard of flipSystem and of checkAutoFlip is
    open during the rest of the second transition. *)
Theorem stale_flip_closure host now0 now1 frame (s : Fountain Q) :
  isFlipping s = false ->
  1000 <= frame - now0 -> frame - now1 < 1000 ->
  let s2 := flipSystem now1 (resetSystem (flipSystem now0 s)) in
  let s3 := animationFrame frame s2 in
  isFlipping s2 = true
  /\ isFlipping s3 = false /\ In now1 (flipSteps s3)
  /\ forall now dt, isFlipping (flipSystem now s3) = true
       /\ waterLevels (flipSystem now s3) = swapLevels (waterLevels s3)
       /\ (flipCondition (checkedLevels dt s3) = true ->
           isFlipping (tick host now dt s3) = true).
Proof.
  intros Hf H0 H1. cbv zeta.
  assert (E2 : flipSteps (flipSystem now1 (resetSystem (flipSystem now0 s)))
               = flipSteps s ++ [now0] ++ [now1]).
  { unfold flipSystem at 2. rewrite Hf. unfold flipSystem. cbn.
    now rewrite <- app_assoc. }
  assert (F2 : isFlipping (flipSystem now1 (resetSystem (flipSystem now0 s))) = true).
  { unfold flipSystem at 2. rewrite Hf. reflexivity. }
  assert (A2 : isActive (flipSystem now1 (resetSystem (flipSystem now0 s))) = true).
  { unfold flipSystem at 2. rewrite Hf. reflexivity. }
  revert E2 F2 A2. generalize (flipSystem now1 (resetSystem (flipSystem now0 s))).
  intros s2 E2 F2 A2.
  assert (U0 : underWay frame now0 = false).
  { apply not_true_iff_false. rewrite underWay_iff. lra. }
  assert (U1 : underWay frame now1 = true) by now apply underWay_iff.
  assert (F3 : isFlipping (animationFrame frame s2) = false).
  { unfold animationFrame. destruct (fold_step frame (flipSteps s2) (set_flipSteps [] s2)) as (I1 & _).
    rewrite I1, E2, !forallb_app. cbn [forallb]. rewrite U0.
    now rewrite andb_false_r, andb_false_r. }
  assert (P3 : In now1 (flipSteps (animationFrame frame s2))).
  { unfold animationFrame. destruct (fold_step frame (flipSteps s2) (set_flipSteps [] s2)) as (_ & I2).
    rewrite I2. cbn [flipSteps set_flipSteps app]. apply filter_In. split; [|exact U1].
    rewrite E2. apply in_or_app. right. cbn. tauto. }
  assert (A3 : isActive (animationFrame frame s2) = true).
  { destruct (animationFrame_reads frame s2) as (_ & _ & _ & Ea). now rewrite Ea. }
  revert F3 P3 A3. generalize (animationFrame frame s2). intros s3 F3 P3 A3.
  split; [exact F2|]. split; [exact F3|]. split; [exact P3|].
  intros now dt. unfold flipSystem. rewrite F3. split; [reflexivity|].
  split; [reflexivity|]. intros Hc.
  now rewrite (tick_isFlipping host now dt s3 A3 F3).
Qed.

(** ** The slider at zero *)

Lemma rate_zero k fi dt : fi == 0 -> k * fi * dt == 0.
Proof. intros H. rewrite H. ring. Qed.

Lemma rate_zero' k fi p dt : fi == 0 -> k * fi * p * dt == 0.
Proof. intros H. rewrite H. ring. Qed.

Lemma drainStep_zero dt (s : Fountain Q) :
  unitLevels (waterLevels s) -> flowIntensity s == 0 ->
  sameLevels (waterLevels (drainStep dt s)) (waterLevels s).
Proof.
  intros (HA & HB & HC) Hfi. unfold drainStep, sameLevels, inUnit in *.
  destruct (hasDrain s); cbn zeta; [|repeat split; reflexivity].
  cbn [waterLevels set_waterLevels levelA levelB levelC].
  assert (Hd : (lit 0.6 * flowRate * flowIntensity s * dt)%js == 0)
    by (apply (rate_zero (0.6 * 0.05)); exact Hfi).
  revert Hd. generalize (lit 0.6 * flowRate * flowIntensity s * dt)%js.
  intros da Hd. js_to_Q. name_minmax. repeat split; lra.
Qed.

Lemma riserFlow_zero dt (s : Fountain Q) :
  flowIntensity s == 0 -> riserGate s = true -> riserFlow dt s == 0.
Proof.
  intros Hfi Hg. apply riserGate_pressure in Hg. destruct Hg as (_ & Hb).
  unfold riserFlow. cbv zeta.
  assert (Hd : (flowRate * lit 1.25 * flowIntensity s * airPressure s * dt)%js == 0)
    by (apply (rate_zero' (0.05 * 1.25)); exact Hfi).
  revert Hd. generalize (flowRate * lit 1.25 * flowIntensity s * airPressure s * dt)%js.
  intros pf Hd. js_to_Q. name_minmax. lra.
Qed.

Lemma riserLevels_zero dt (s : Fountain Q) :
  flowIntensity s == 0 -> sameLevels (riserLevels dt s) (waterLevels s).
Proof.
  intros Hfi. unfold riserLevels, sameLevels. cbv zeta.
  destruct (riserGate s) eqn:Hg; [|repeat split; reflexivity].
  pose proof (riserFlow_zero dt s Hfi Hg) as E.
  cbn [levelA levelB levelC]. js_to_Q. repeat split; lra.
Qed.

Lemma riserStep_zero host dt (s : Fountain Q) :
  flowIntensity s == 0 -> particles (riserStep host dt s) = particles s.
Proof.
  intros Hfi. unfold riserStep. cbv zeta.
  destruct (riserGate s) eqn:Hg; [|reflexivity].
  pose proof (riserFlow_zero dt s Hfi Hg) as E.
  assert (Hz : (riserFlow dt s >? lit 0)%js = false)
    by (apply ltb_false_iff; js_to_Q; lra).
  now rewrite Hz.
Qed.

(** X17. With the flow-intensity slider at zero (or any value below,
    which setFlowIntensity clamps to zero) updateWaterFlow moves no water
    and starts no jet, whatever the time step, the hoses and the pressure:
    the levels it leaves equal the levels before, and the particle pool is
    untouched. *)
Theorem zero_flow_pauses host dt value (s : Fountain Q) :
  Reachable host s -> value <= 0 ->
  let s' := updateWaterFlow host dt (setFlowIntensity value s) in
  sameLevels (waterLevels s') (waterLevels s) /\ particles s' = particles s.
Proof.
  intros Hr Hv. cbv zeta.
  destruct (reachable_unit host s Hr) as (Hw & _ & _).
  assert (Hfi : flowIntensity (setFlowIntensity value s) == 0).
  { cbn [setFlowIntensity flowIntensity set_flowIntensity]. js_to_Q.
    name_minmax. lra. }
  assert (Hw0 : unitLevels (waterLevels (setFlowIntensity value s))) by exact Hw.
  change (waterLevels s) with (waterLevels (setFlowIntensity value s)).
  change (particles s) with (particles (setFlowIntensity value s)).
  revert Hfi Hw0. generalize (setFlowIntensity value s). clear s Hr Hw.
  intros s Hfi Hw.
  destruct (drainStep_reads dt s) as (_ & Hfi1 & _).
  destruct (drainStep_gate dt s) as (_ & _ & _ & Hp1).
  split.
  - destruct (updateWaterFlow_reads host dt s) as (E & _). rewrite E.
    unfold flowLevels. rewrite fold_hoseFlow_idle.
    + pose proof (drainStep_zero dt s Hw Hfi) as (D1 & D2 & D3).
      assert (Hfi' : flowIntensity (drainStep dt s) == 0) by now rewrite Hfi1.
      pose proof (riserLevels_zero dt (drainStep dt s) Hfi') as (R1 & R2 & R3).
      unfold sameLevels. repeat split; lra.
    + assert (Hd : (lit 0.9 * flowRate * flowIntensity s * dt)%js == 0)
        by (apply (rate_zero (0.9 * 0.05)); exact Hfi).
      lra.
  - rewrite particles_updateWaterFlow, riserStep_zero; [exact Hp1|].
    now rewrite Hfi1.
Qed.

(** ** The size of a burst *)

Lemma loop_bound_between (q : Q) (lo hi : Z) :
  (0 <= lo)%Z -> inject_Z lo <= q -> q <= inject_Z hi ->
  (Z.to_nat lo <= loop_bound q <= Z.to_nat hi)%nat.
Proof.
  intros H0 Hlo Hhi. cbn [loop_bound Q_number].
  apply Qceiling_resp_le in Hlo, Hhi. rewrite Qceiling_Z in Hlo, Hhi. lia.
Qed.

Lemma particleCount_bounds (s : Fountain Q) :
  unitState s ->
  (25 <= loop_bound (Math_max (lit 25)
           (Math_floor ((lit 0.5 + flowIntensity s) * airPressure s * lit 120)))%js
   <= 180)%nat.
Proof.
  intros (_ & (Hp0 & Hp1) & (Hf0 & Hf1)).
  apply (loop_bound_between _ 25 180); [lia| |].
  - js_to_Q. apply Q.le_max_l.
  - js_to_Q. cbn [Math_floor Q_number]. apply Q.max_lub; [vm_compute; discriminate|].
    eapply Qle_trans; [apply Qfloor_le|].
    assert (H : (0.5 + flowIntensity s) * airPressure s <= 1.5) by nra.
    change (inject_Z 180) with (180 # 1). lra.
Qed.

Lemma splashCount_bounds (r : Q) :
  0 <= r < 1 ->
  (6 <= loop_bound (lit 6 + Math_floor (r * lit 6))%js <= 11)%nat.
Proof.
  intros (H0 & H1). js_to_Q. cbn [Math_floor Q_number].
  assert (Hz : (0 <= Qfloor (r * 6) <= 5)%Z).
  { split.
    - rewrite <- (Qfloor_Z 0) at 1.
      apply Qfloor_resp_le. change (inject_Z 0) with 0. lra.
    - assert (H : (Qfloor (r * 6) < 6)%Z); [|lia].
      rewrite Zlt_Qlt. eapply Qle_lt_trans; [apply Qfloor_le|].
      change (inject_Z 6) with 6. lra. }
  revert Hz. generalize (Qfloor (r * 6)). intros z Hz.
  apply (loop_bound_between _ 6 11); [lia| |].
  - assert (H : inject_Z 0 <= inject_Z z) by (rewrite <- Zle_Qle; lia).
    change (inject_Z 6) with 6. change (inject_Z 0) with 0 in H. lra.
  - assert (H : inject_Z z <= inject_Z 5) by (rewrite <- Zle_Qle; lia).
    change (inject_Z 11) with 11. change (inject_Z 5) with 5 in H. lra.
Qed.

(** X18. The size of a burst.  In a reachable state a call of
    createFountainParticles raises the number of alive particles by at most
    180, and by at least 25 when its gates are open (or to a full pool).
    With Math.random() in [0,1), spawnSplash raises it by 6 to 11 (or to a
    full pool). *)
Theorem burst_bounds host pos (s : Fountain Q) :
  Reachable host s -> (forall k, 0 <= random host k < 1) ->
  let L := length (particles s) in
  let a := alive (particles s) in
  let jet := alive (particles (createFountainParticles host s)) in
  let splash := alive (particles (spawnSplash host pos s)) in
  (a <= jet <= a + 180)%nat
  /\ (spoutTip s && airLineConnected s && negb (airPressure s <=? lit 0.05)%js = true ->
      (Nat.min (a + 25) L <= jet)%nat)
  /\ (Nat.min (a + 6) L <= splash <= a + 11)%nat.
Proof.
  intros Hr Hrand. cbv zeta.
  pose proof (particleCount_bounds s (reachable_unit host s Hr)) as Hn.
  pose proof (alive_le_length (particles s)) as Hle.
  assert (Hj : alive (particles (createFountainParticles host s))
               = (if spoutTip s && airLineConnected s
                     && negb (airPressure s <=? lit 0.05)%js
                  then Nat.min (alive (particles s)
                         + loop_bound (Math_max (lit 25)
                             (Math_floor ((lit 0.5 + flowIntensity s)
                                          * airPressure s * lit 120)))%js)
                         (length (particles s))
                  else alive (particles s))).
  { unfold createFountainParticles.
    destruct (spoutTip s); cbn [negb andb]; [|reflexivity].
    destruct (airLineConnected s); cbn [negb andb]; [|reflexivity].
    destruct (airPressure s <=? lit 0.05)%js; cbn [negb]; [reflexivity|].
    apply alive_iter_emitJet. }
  rewrite Hj. clear Hj.
  revert Hn. generalize (loop_bound (Math_max (lit 25)
                             (Math_floor ((lit 0.5 + flowIntensity s)
                                          * airPressure s * lit 120)))%js).
  intros n Hn.
  split; [destruct (_ && _); lia|]. split; [intros ->; lia|].
  unfold spawnSplash, Math_random. cbv zeta.
  rewrite alive_splashLoop. cbn [particles set_randomCalls].
  pose proof (splashCount_bounds _ (Hrand (randomCalls s))) as Hc.
  revert Hc. generalize (loop_bound (lit 6 + Math_floor (random host (randomCalls s) * lit 6))%js).
  intros c Hc. lia.
Qed.

(** ** The life of a particle *)

Lemma upTo_insert i j q l :
  unexpired q -> unexpiredUpTo i l -> unexpiredUpTo i (<[j:=q]> l).
Proof.
  intros Hq Hl k p Hk Hp. apply list_lookup_insert_Some in Hp.
  destruct Hp as [(_ & <- & _)|(_ & Hp)]; [exact Hq|exact (Hl k p Hk Hp)].
Qed.

Lemma upTo_insert_self i q l :
  unexpiredUpTo i l -> unexpiredUpTo i (<[i:=q]> l).
Proof.
  intros Hl k p Hk Hp. apply list_lookup_insert_Some in Hp.
  destruct Hp as [(E & _)|(_ & Hp)]; [lia|exact (Hl k p Hk Hp)].
Qed.

Lemma slot_hide j (l : list (Particle Q)) p :
  alter hide j l !! j = Some p -> unexpired p.
Proof.
  rewrite list_lookup_alter_eq. destruct (l !! j); cbn; intros E; [|discriminate E].
  injection E as <-. intros Hv. discriminate Hv.
Qed.

Lemma upTo_hide i j l : unexpiredUpTo i l -> unexpiredUpTo i (alter hide j l).
Proof.
  intros Hl k p Hk Hp. destruct (decide (j = k)) as [->|Hne].
  - exact (slot_hide _ _ _ Hp).
  - rewrite list_lookup_alter_ne in Hp by exact Hne. exact (Hl k p Hk Hp).
Qed.

Lemma upTo_S i l :
  unexpiredUpTo i l -> (forall p, l !! i = Some p -> unexpired p) ->
  unexpiredUpTo (S i) l.
Proof.
  intros Hl Hi k p Hk Hp. destruct (decide (k = i)) as [->|Hne].
  - exact (Hi p Hp).
  - apply (Hl k p); [lia|exact Hp].
Qed.

Lemma slot_insert (i : nat) (q p : Particle Q) (l : list (Particle Q)) :
  <[i:=q]> l !! i = Some p -> p = q.
Proof.
  intros Hp. apply list_lookup_insert_Some in Hp.
  destruct Hp as [(_ & E & _)|(Hne & _)]; [now symmetry|now contradiction Hne].
Qed.

Section Life.

Variable host : Host Q.
Hypothesis random_nonneg : forall k, 0 <= random host k.

Lemma upTo_splashLoop i n pos (s : Fountain Q) :
  unexpiredUpTo i (particles s) ->
  unexpiredUpTo i (particles (splashLoop host n pos s)).
Proof.
  revert s. induction n as [|n IH]; intros s Hs; simpl; [exact Hs|].
  destruct (findFree (particles s)) as [j|]; [|exact Hs].
  unfold Math_random. cbn [set_randomCalls particles randomCalls].
  apply IH. cbn [particles set_particles]. apply upTo_insert; [|exact Hs].
  intros _. cbn [life maxLife]. js_to_Q.
  pose proof (random_nonneg (S (S (S (S (randomCalls s)))))) as Hr.
  revert Hr. generalize (random host (S (S (S (S (randomCalls s)))))).
  intros r Hr. lra.
Qed.

Lemma upTo_spawnSplash i pos (s : Fountain Q) :
  unexpiredUpTo i (particles s) ->
  unexpiredUpTo i (particles (spawnSplash host pos s)).
Proof.
  intros Hs. unfold spawnSplash, Math_random. cbv zeta.
  apply upTo_splashLoop. exact Hs.
Qed.

Lemma upTo_stepParticle dt (s : Fountain Q) i :
  unexpiredUpTo i (particles s) ->
  unexpiredUpTo (S i) (particles (stepParticle host dt s i)).
Proof.
  intros Hs. unfold stepParticle.
  destruct (particles s !! i) as [q|] eqn:Hq;
    [|apply upTo_S; [exact Hs|intros p Hp; congruence]].
  destruct (visible q) eqn:Hv; cbn [negb];
    [|apply upTo_S; [exact Hs|];
      intros p Hp; assert (p = q) by congruence; subst p;
      intros Hv'; congruence].
  cbv zeta.
  repeat match goal with
         | |- context [if ?c then _ else _] => destruct c eqn:?
         end;
    cbn [particles set_particles set_activeRipples];
    (apply upTo_S;
     [repeat first [exact Hs | apply upTo_hide | apply upTo_spawnSplash
                    | apply upTo_insert_self
                    | progress cbn [particles set_particles set_activeRipples]]
     |intros p Hp;
      first [exact (slot_hide _ _ _ Hp)
            | apply slot_insert in Hp; subst p; intros Hv';
              first [discriminate Hv'
                    | cbn [life maxLife];
                      match goal with
                      | H : (_ <=? _)%js = false |- _ =>
                          apply leb_false_iff in H; exact H
                      end]]]).
Qed.

Lemma upTo_updateParticles dt (s : Fountain Q) :
  unexpiredUpTo (length (particles s)) (particles (updateParticles host dt s)).
Proof.
  unfold updateParticles.
  assert (H : forall n i (x : Fountain Q),
             unexpiredUpTo i (particles x) ->
             unexpiredUpTo (i + n)
               (particles (fold_left (stepParticle host dt) (seq i n) x))).
  { induction n as [|n IH]; intros i x Hx; simpl.
    - now rewrite Nat.add_0_r.
    - replace (i + S n)%nat with (S i + n)%nat by lia.
      apply IH. now apply upTo_stepParticle. }
  apply (H (length (particles s)) O s). intros k p Hk. lia.
Qed.

End Life.

(** X19. After updateParticles no visible particle has reached its
    maxLife: every particle that was visible has been aged by the time step
    and hidden if expired, and the splash particles spawned meanwhile start
    at life 0 with a positive maxLife (Math.random() is never negative).
    This holds for any pool and any time step. *)
Theorem particles_unexpired host dt (s : Fountain Q) :
  (forall k, 0 <= random host k) ->
  Forall unexpired (particles (updateParticles host dt s)).
Proof.
  intros Hr. apply Forall_lookup. intros k p Hp.
  apply (upTo_updateParticles host Hr dt s k p); [|exact Hp].
  apply lookup_lt_Some in Hp. now rewrite length_updateParticles in Hp.
Qed.

(** ** The absorbing surface *)

Lemma blind_absorbY : blind (N:=Q) absorbY.
Proof. intros t x. reflexivity. Qed.

Lemma surfaceY_in_bowl (w : WaterLevels Q) :
  bowl_bottomY <= surfaceY w <= bowl_bottomY + bowl_height.
Proof.
  unfold surfaceY, bowl_bottomY, bowl_height. js_to_Q.
  pose proof (clamp_inUnit (levelA w)) as (H0 & H1).
  revert H0 H1. generalize (Qmax 0 (Qmin 1 (levelA w))). intros c H0 H1.
  split; lra.
Qed.

Lemma absorbY_tick host now dt (s : Fountain Q) :
  absorbY (tick host now dt s)
  = if isActive s then surfaceY (flowLevels dt s) else absorbY s.
Proof.
  destruct (isActive s) eqn:Ha; [|now rewrite (tick_inactive host now dt s Ha)].
  rewrite (tick_read host absorbY now dt s blind_absorbY Ha).
  unfold checkAutoFlip, flipSystem.
  repeat match goal with
         | |- context [if ?c then _ else _] => destruct c
         end; reflexivity.
Qed.

Lemma absorbY_perform host c (s : Fountain Q) :
  bowl_bottomY <= absorbY s <= bowl_bottomY + bowl_height ->
  bowl_bottomY <= absorbY (perform host c s) <= bowl_bottomY + bowl_height.
Proof.
  intros H. destruct c; cbn [perform]; try exact H.
  - rewrite absorbY_tick. destruct (isActive s); [apply surfaceY_in_bowl|exact H].
  - unfold flipSystem. destruct (isFlipping s); exact H.
  - unfold handleContainerClick. destruct (pendingHoseStart s); [|exact H].
    destruct (Key_eqb _ _); exact H.
  - pose proof (animationFrame_rest now s false []) as E.
    apply (f_equal absorbY) in E. cbn [absorbY set_isFlipping set_flipSteps] in E.
    now rewrite E.
Qed.

(** X20. The height at which falling particles are absorbed and splash
    (absorbY, the water surface of the bowl) is always inside the bowl,
    between its bottom at 3.35 and its rim at 3.35 + 1.4: the constructor
    puts it at 3.6, only updateWaterLevels moves it, and that uses the
    clamped level of the bowl. *)
Theorem absorbY_in_bowl host (s : Fountain Q) :
  Reachable host s -> 3.35 <= absorbY s <= 3.35 + 1.4.
Proof.
  intros Hr. change (bowl_bottomY <= absorbY s <= bowl_bottomY + bowl_height).
  induction Hr as [|c s _ IH]; [|now apply absorbY_perform].
  unfold bowl_bottomY, bowl_height. cbn. lra.
Qed.

(** ** The age of the impact events *)

Lemma young_stepParticle host dt (s : Fountain Q) i :
  freshRipples s -> freshRipples (stepParticle host dt s i).
Proof.
  intros (Hl & Hy). split; [now apply activeRipples_stepParticle|].
  rewrite time_stepParticle.
  destruct (ripples_stepParticle host dt s i Hl) as [E|(c & E)]; rewrite E;
    [exact Hy|].
  constructor; [unfold young; cbn [startTime]; lra|].
  now apply Forall_take.
Qed.

Lemma young_updateParticles host dt (s : Fountain Q) :
  freshRipples s -> freshRipples (updateParticles host dt s).
Proof.
  unfold updateParticles. generalize (seq 0 (length (particles s))).
  intros is_. revert s. induction is_ as [|i is_ IH]; intros s Hs; [exact Hs|].
  simpl. apply IH. now apply young_stepParticle.
Qed.

Lemma young_checked host now dt (s : Fountain Q) :
  freshRipples s -> freshRipples (checkAutoFlip now (beforeCheck host dt s)).
Proof.
  intros Hs. unfold freshRipples.
  destruct (checked_hoses_time host now dt s) as (_ & Ht).
  rewrite Ht, activeRipples_checkAutoFlip.
  unfold beforeCheck, updateWaterLevels.
  cbn [activeRipples set_waterLevels set_absorbY].
  assert (H : freshRipples (updateAirPressure (updateWaterFlow host dt s))).
  { unfold freshRipples, updateAirPressure.
    cbn [activeRipples time set_airPressure].
    rewrite activeRipples_updateWaterFlow.
    assert (Et : time (updateWaterFlow host dt s) = time s).
    { rewrite <- (time_forget (updateWaterFlow host dt s)),
        updateWaterFlow_forget. reflexivity. }
    rewrite Et. exact Hs. }
  assert (Et : time (updateAirPressure (updateWaterFlow host dt s)) = time s).
  { unfold updateAirPressure. cbn [time set_airPressure].
    rewrite <- (time_forget (updateWaterFlow host dt s)),
      updateWaterFlow_forget. reflexivity. }
  apply (young_updateParticles host dt) in H.
  destruct H as (Hl & Hy). split; [exact Hl|].
  rewrite <- Et, <- (time_forget (updateAirPressure _)),
    <- (forget_updateParticles host dt), time_forget. exact Hy.
Qed.

Lemma young_tick host now dt (s : Fountain Q) :
  freshRipples s -> freshRipples (tick host now dt s).
Proof.
  intros Hs. unfold tick, update. destruct (negb (isActive s)); [exact Hs|].
  cbv zeta. pose proof (young_checked host now dt s Hs) as H.
  revert H. generalize (checkAutoFlip now (beforeCheck host dt s)).
  intros s1 (Hl & Hy). destruct (updateHoses_ok s1); cbn [snd]; [|now split].
  unfold freshRipples, advanceTime.
  cbn [activeRipples time set_activeRipples set_time]. split.
  - pose proof (List.filter_length_le
                  (fun r => (time s1 + dt - startTime r <? lit 4)%js)
                  (activeRipples s1)).
    lia.
  - apply List.Forall_forall. intros r Hr. apply List.filter_In in Hr.
    destruct Hr as (_ & Hr). apply ltb_iff in Hr. exact Hr.
Qed.

Lemma young_perform host c (s : Fountain Q) :
  freshRipples s -> freshRipples (perform host c s).
Proof.
  intros Hs. destruct c; cbn [perform]; try exact Hs.
  - now apply young_tick.
  - unfold flipSystem. destruct (isFlipping s); exact Hs.
  - unfold handleContainerClick. destruct (pendingHoseStart s); [|exact Hs].
    destruct (Key_eqb _ _); exact Hs.
  - unfold freshRipples. rewrite activeRipples_animationFrame.
    pose proof (animationFrame_rest now s false []) as E.
    apply (f_equal time) in E. cbn [time set_isFlipping set_flipSteps] in E.
    rewrite E. exact Hs.
Qed.

(** X3. In exact arithmetic, in every reachable state every impact event
    in the ripple buffer started less than 4 s before this.time: an impact
    is stamped with this.time, the clock only moves at the end of an update
    that returns, and that update drops the events that are 4 s old or
    older.  An update that throws in updateHoses keeps both the clock and
    the buffer, new impacts included. *)
Theorem ripple_age_invariant host (s : Fountain Q) :
  Reachable host s ->
  Forall (fun r => time s - startTime r < 4) (activeRipples s).
Proof.
  intros Hr. change (Forall (young (time s)) (activeRipples s)).
  assert (H : freshRipples s); [|exact (proj2 H)].
  induction Hr as [|c s _ IH]; [|now apply young_perform].
  split; [cbn; lia|constructor].
Qed.

End Behaviour.

(** * The further theorems at concrete inputs *)

Lemma jetState_reachable : Reachable sampleHost jetState.
Proof. apply reach_perform, reach_construct. Qed.

Lemma splashState_reachable : Reachable sampleHost splashState.
Proof. apply reach_perform, jetState_reachable. Qed.

(* What the sample states hold. *)
Lemma sample_states :
  spoutTip jetState = true /\ airLineConnected jetState = true
  /\ (airPressure jetState == 513 # 2000)%Q
  /\ alive (particles jetState) = 0%nat
  /\ alive (particles (updateWaterFlow sampleHost (1 # 4)%Q jetState)) = 25%nat
  /\ alive (particles splashState) = 225%nat
  /\ length (activeRipples splashState) = 6%nat
  /\ (time splashState == 1 # 2)%Q
  /\ List.map startTime (activeRipples splashState) = List.repeat (1 # 4)%Q 6.
Proof. vm_compute. repeat split; reflexivity. Qed.


Lemma ripple_age_invariant_witness :
  length (activeRipples splashState) = 6%nat
  /\ Forall (fun r => (time splashState - startTime r < 4)%Q)
            (activeRipples splashState).
Proof.
  split; [vm_compute; reflexivity|].
  exact (Behaviour.ripple_age_invariant sampleHost splashState
           splashState_reachable).
Defined.

Lemma update_outcome_witness :
  let s := addHose A B (construct sampleHost) in
  fst (update sampleHost 0%Q (1 # 60)%Q s)
  = (if updateHoses_ok s then Returned else Threw)
  /\ time (tick sampleHost 0%Q (1 # 60)%Q s)
     = (if updateHoses_ok s then (time s + (1 # 60)%Q)%js else time s)
  /\ hoses (tick sampleHost 0%Q (1 # 60)%Q s) = hoses s.
Proof.
  exact (update_outcome sampleHost 0%Q (1 # 60)%Q
           (addHose A B (construct sampleHost)) eq_refl).
Defined.

Lemma tick_result_witness :
  let s := construct sampleHost in
  let w := checkedLevels (1 # 60)%Q s in
  let fires := negb (isFlipping s) && flipCondition w in
  waterLevels (tick sampleHost 0%Q (1 # 60)%Q s) = (if fires then swapLevels w else w)
  /\ airPressure (tick sampleHost 0%Q (1 # 60)%Q s)
     = (if fires then lit 0
        else pressureOf (hasAirLine s) (flowLevels (1 # 60)%Q s))
  /\ isFlipping (tick sampleHost 0%Q (1 # 60)%Q s) = isFlipping s || flipCondition w
  /\ flipSteps (tick sampleHost 0%Q (1 # 60)%Q s)
     = (if fires then flipSteps s ++ [0%Q] else flipSteps s).
Proof.
  exact (tick_result sampleHost 0%Q (1 # 60)%Q (construct sampleHost) eq_refl).
Defined.

Lemma handleContainerClick_pairs_witness :
  let s := construct sampleHost in
  handleContainerClick A (handleContainerClick A s) = s
  /\ (A <> B ->
      handleContainerClick B (handleContainerClick A s) = addHose A B s
      /\ pendingHoseStart (handleContainerClick B (handleContainerClick A s)) = None
      /\ updateHoses_ok (handleContainerClick B (handleContainerClick A s)) = false).
Proof.
  exact (handleContainerClick_pairs A B (construct sampleHost) eq_refl).
Defined.

Lemma flip_twice_restores_witness :
  let s := construct sampleHost in
  waterLevels (flipSystem 1500%Q (animationFrame 1000%Q (flipSystem 0%Q s)))
  = waterLevels s
  /\ waterLevels (flipSystem 0%Q s) = swapLevels (waterLevels s).
Proof.
  exact (flip_twice_restores 0%Q 1500%Q 1000%Q (construct sampleHost)
           eq_refl eq_refl).
Defined.

Lemma updateParticles_idle_witness :
  updateParticles sampleHost (1 # 60)%Q (construct sampleHost)
  = construct sampleHost.
Proof.
  exact (updateParticles_idle sampleHost (1 # 60)%Q (construct sampleHost) eq_refl).
Defined.

Lemma checkSystemComplete_inert_witness :
  let r := page_perform sampleHost (page_flipSystem 0%Q)
             (Reset_new (construct sampleHost)) in
  Reset_checkSystemComplete r = r.
Proof.
  exact (checkSystemComplete_inert sampleHost _
           (page_step sampleHost (page_flipSystem 0%Q) _ (page_new sampleHost))).
Defined.

Lemma isAnimating_invariant_witness :
  let r := page_perform sampleHost page_resetSystem
             (Reset_new (construct sampleHost)) in
  (isAnimating r = true
   /\ timeouts r = [(2000%Q, removeMessage msg_resetting);
                    (1000%Q, clearAnimating msg_reset)])
  /\ length (List.filter clears (timeouts r))
     = (if isAnimating r then 1 else 0)%nat
  /\ forallb (fun t => clears t || removes t) (timeouts r) = true.
Proof.
  exact (conj (conj eq_refl eq_refl)
           (isAnimating_invariant sampleHost _
              (page_step sampleHost page_resetSystem _ (page_new sampleHost)))).
Defined.

Lemma status_percentages_witness :
  let s := perform sampleHost (call_update 0%Q (1 # 60)%Q) (construct sampleHost) in
  percentage (containerA (getStatus s)) /\ percentage (containerB (getStatus s))
  /\ percentage (containerC (getStatus s)) /\ percentage (pressure (getStatus s)).
Proof.
  exact (Behaviour.status_percentages sampleHost _
           (reach_perform sampleHost (call_update 0%Q (1 # 60)%Q) _
              (reach_construct sampleHost))).
Defined.

Lemma reset_stalls_witness :
  let s' := performAll sampleHost
              [call_update 0%Q (1 # 60)%Q; call_animationFrame 16%Q;
               call_setFlowIntensity 1%Q; call_update 16%Q 10%Q]
              (resetSystem (construct sampleHost)) in
  sameLevels (waterLevels s') initialLevels
  /\ hoses s' = [] /\ isFlipping s' = false.
Proof.
  exact (Behaviour.reset_stalls sampleHost
           [call_update 0%Q (1 # 60)%Q; call_animationFrame 16%Q;
            call_setFlowIntensity 1%Q; call_update 16%Q 10%Q]
           (construct sampleHost) eq_refl).
Defined.

Lemma stale_flip_closure_witness :
  let s2 := flipSystem 500%Q (resetSystem (flipSystem 0%Q (construct sampleHost))) in
  let s3 := animationFrame 1000%Q s2 in
  (1000 <= 1000 - 0 /\ 1000 - 500 < 1000)%Q
  /\ isFlipping s2 = true
  /\ isFlipping s3 = false /\ In 500%Q (flipSteps s3)
  /\ forall now dt, isFlipping (flipSystem now s3) = true
       /\ waterLevels (flipSystem now s3) = swapLevels (waterLevels s3)
       /\ (flipCondition (checkedLevels dt s3) = true ->
           isFlipping (tick sampleHost now dt s3) = true).
Proof.
  assert (H0 : (1000 <= 1000 - 0)%Q) by lra.
  assert (H1 : (1000 - 500 < 1000)%Q) by lra.
  exact (conj (conj H0 H1)
           (Behaviour.stale_flip_closure sampleHost 0%Q 500%Q 1000%Q
              (construct sampleHost) eq_refl H0 H1)).
Defined.

Lemma zero_flow_pauses_witness :
  let s := perform sampleHost (call_update 0%Q (1 # 60)%Q) (construct sampleHost) in
  let s' := updateWaterFlow sampleHost (1 # 60)%Q (setFlowIntensity (- (1))%Q s) in
  (- (1) <= 0)%Q
  /\ sameLevels (waterLevels s') (waterLevels s) /\ particles s' = particles s.
Proof.
  assert (Hv : (- (1) <= 0)%Q) by lra.
  exact (conj Hv
           (Behaviour.zero_flow_pauses sampleHost (1 # 60)%Q (- (1))%Q _
              (reach_perform sampleHost (call_update 0%Q (1 # 60)%Q) _
                 (reach_construct sampleHost))
              Hv)).
Defined.

Lemma burst_bounds_witness :
  let s := jetState in
  let pos := mkVec3 0%Q 0%Q 0%Q in
  let L := length (particles s) in
  let a := alive (particles s) in
  let jet := alive (particles (createFountainParticles sampleHost s)) in
  let splash := alive (particles (spawnSplash sampleHost pos s)) in
  (forall k, 0 <= random sampleHost k < 1)%Q
  /\ spoutTip s && airLineConnected s && negb (airPressure s <=? lit 0.05)%js = true
  /\ (jet = 25 /\ splash = 9)%nat
  /\ (a <= jet <= a + 180)%nat
  /\ (Nat.min (a + 25) L <= jet)%nat
  /\ (Nat.min (a + 6) L <= splash <= a + 11)%nat.
Proof.
  assert (Hr : (forall k, 0 <= random sampleHost k < 1)%Q)
    by (intros k; cbn; lra).
  assert (Hg : spoutTip jetState && airLineConnected jetState
               && negb (airPressure jetState <=? lit 0.05)%js = true)
    by (vm_compute; reflexivity).
  assert (Hn : (alive (particles (createFountainParticles sampleHost jetState)) = 25
                /\ alive (particles (spawnSplash sampleHost (mkVec3 0%Q 0%Q 0%Q)
                                       jetState)) = 9)%nat)
    by (vm_compute; split; reflexivity).
  pose proof (Behaviour.burst_bounds sampleHost (mkVec3 0%Q 0%Q 0%Q) jetState
                jetState_reachable Hr) as H.
  cbv zeta in H. destruct H as (H1 & H2 & H3).
  exact (conj Hr (conj Hg (conj Hn (conj H1 (conj (H2 Hg) H3))))).
Defined.

Lemma particles_unexpired_witness :
  let s := updateWaterFlow sampleHost (1 # 4)%Q jetState in
  (forall k, 0 <= random sampleHost k)%Q
  /\ (alive (particles s) = 25
      /\ alive (particles (updateParticles sampleHost (1 # 4)%Q s)) = 225)%nat
  /\ Forall unexpired (particles (updateParticles sampleHost (1 # 4)%Q s)).
Proof.
  assert (Hr : (forall k, 0 <= random sampleHost k)%Q)
    by (intros k; cbn; lra).
  assert (Hn : (alive (particles (updateWaterFlow sampleHost (1 # 4)%Q jetState)) = 25
                /\ alive (particles
                            (updateParticles sampleHost (1 # 4)%Q
                               (updateWaterFlow sampleHost (1 # 4)%Q jetState)))
                   = 225)%nat)
    by (vm_compute; split; reflexivity).
  exact (conj Hr (conj Hn
           (Behaviour.particles_unexpired sampleHost (1 # 4)%Q
              (updateWaterFlow sampleHost (1 # 4)%Q jetState) Hr))).
Defined.

Lemma absorbY_in_bowl_witness :
  let s := perform sampleHost (call_update 0%Q (1 # 60)%Q) (construct sampleHost) in
  (3.35 <= absorbY s <= 3.35 + 1.4)%Q.
Proof.
  exact (Behaviour.absorbY_in_bowl sampleHost _
           (reach_perform sampleHost (call_update 0%Q (1 # 60)%Q) _
              (reach_construct sampleHost))).
Defined.
